(** * Feedback triage pipeline: fallback rules, backend adapter, critic, metrics

    A shallow embedding of the decision engine of the repository
    (tool_gemini.py, gemini_client.py, autogen_pipeline.py) and the
    properties its specification states about it.

    Conventions of the embedding.
    - A Python [str] is a [string]: a sequence of code points below 256.
      [lower] and [strip] follow Python on that range.
    - A Python [float] is a primitive binary64 [float]; the literals of the
      source ([0.95], [0.9], ...) are the same binary64 values.
    - A dynamically typed value (a CSV cell, a JSON reply of the backend) is
      a [pyval]; an operation Python refuses on it raises, which is a
      [Raise] in [result].
    - The ticket dictionaries that the critic copies and updates live in a
      store of objects addressed by location, so that aliasing is visible.
    - The reasoning backend is an oracle indexed by the number of calls made
      so far: two calls with the same prompt may answer differently. *)

From Stdlib Require Import ZArith String Ascii List Bool Lia.
From Stdlib Require Import Floats.PrimFloat.
From Stdlib Require Import Numbers.Cyclic.Int63.Uint63.
From stdpp Require Import base option gmap strings.

Set Warnings "-inexact-float,-register-all".
Set Default Proof Using "Type".

Local Open Scope string_scope.
Local Open Scope bool_scope.

(* ===================================================================== *)
(** * Part I: definitions                                                 *)
(* ===================================================================== *)

(** ** Strings *)

Module Str.

Definition code (c : ascii) : nat := nat_of_ascii c.

Definition in_range (lo hi n : nat) : bool := (lo <=? n)%nat && (n <=? hi)%nat.

(** [str.lower] on one code point below 256: A-Z, and the Latin-1
    capitals U+00C0..U+00DE except the multiplication sign U+00D7. *)
Definition is_upper (c : ascii) : bool :=
  in_range 65 90 (code c) || in_range 192 214 (code c) || in_range 216 222 (code c).

Definition lower_char (c : ascii) : ascii :=
  if is_upper c then ascii_of_nat (code c + 32) else c.

Fixpoint lower (s : string) : string :=
  match s with
  | EmptyString => EmptyString
  | String c s' => String (lower_char c) (lower s')
  end.

(** [needle in hay]: substring test. *)
Fixpoint isin (needle hay : string) : bool :=
  String.prefix needle hay
  || match hay with
     | EmptyString => false
     | String _ hay' => isin needle hay'
     end.

(** [s[:n]] *)
Fixpoint take (n : nat) (s : string) : string :=
  match n, s with
  | S n', String c s' => String c (take n' s')
  | _, _ => EmptyString
  end.

(** [s[n:]] *)
Fixpoint drop (n : nat) (s : string) : string :=
  match n, s with
  | S n', String _ s' => drop n' s'
  | _, _ => s
  end.

(** [s[i:j]] for [0 <= i], [0 <= j]. *)
Definition slice (i j : nat) (s : string) : string := take (j - i) (drop i s).

(** [str.isspace] on one code point below 256. *)
Definition is_space (c : ascii) : bool :=
  in_range 9 13 (code c) || in_range 28 32 (code c)
  || (code c =? 133)%nat || (code c =? 160)%nat.

Fixpoint lstrip (s : string) : string :=
  match s with
  | EmptyString => EmptyString
  | String c s' => if is_space c then lstrip s' else s
  end.

Fixpoint rev_onto (s acc : string) : string :=
  match s with
  | EmptyString => acc
  | String c s' => rev_onto s' (String c acc)
  end.

Definition rev (s : string) : string := rev_onto s EmptyString.

(** [s.strip()] *)
Definition strip (s : string) : string := rev (lstrip (rev (lstrip s))).

(** [s.find(c)] for a one-character [c]: [None] stands for [-1]. *)
Fixpoint find (c : ascii) (s : string) : option nat :=
  match s with
  | EmptyString => None
  | String d s' =>
      if Ascii.eqb c d then Some 0%nat
      else match find c s' with
           | Some i => Some (S i)
           | None => None
           end
  end.

(** [s.rfind(c)] for a one-character [c]. *)
Fixpoint rfind (c : ascii) (s : string) : option nat :=
  match s with
  | EmptyString => None
  | String d s' =>
      match rfind c s' with
      | Some i => Some (S i)
      | None => if Ascii.eqb c d then Some 0%nat else None
      end
  end.

(** [s.replace(a, b)] for one-character [a] and [b]. *)
Fixpoint replace_char (a b : ascii) (s : string) : string :=
  match s with
  | EmptyString => EmptyString
  | String c s' => String (if Ascii.eqb c a then b else c) (replace_char a b s')
  end.

(** The specification's reading of "contains": an occurrence somewhere. *)
Definition occurs (needle hay : string) : Prop :=
  exists pre post, hay = pre ++ needle ++ post.

End Str.

(** ** Dynamically typed values and exceptions *)

Inductive pyval : Type :=
| PNone
| PBool (b : bool)
| PInt (z : Z)
| PFloat (f : float)
| PStr (s : string)
| PList (l : list pyval)
| PDict (kvs : list (string * pyval)).

Inductive exn : Type :=
| KeyError (key : string)
| TypeError
| AttributeError
| ValueError
| BackendError.

Inductive result (A : Type) : Type :=
| Ok (a : A)
| Raise (e : exn).
Arguments Ok {A} a.
Arguments Raise {A} e.

Definition rbind {A B} (r : result A) (k : A -> result B) : result B :=
  match r with
  | Ok a => k a
  | Raise e => Raise e
  end.

Declare Scope result_scope.
Delimit Scope result_scope with result.
Notation "'do' x <- c ; k" := (rbind c (fun x => k))
  (at level 10, x name, c at level 100, k at level 200) : result_scope.

Module Py.

(** Truthiness, as used by [or] and [if]. A NaN is truthy. *)
Definition truthy (v : pyval) : bool :=
  match v with
  | PNone => false
  | PBool b => b
  | PInt z => negb (z =? 0)%Z
  | PFloat f => negb (PrimFloat.eqb f 0%float)
  | PStr s => negb (String.eqb s "")
  | PList l => match l with nil => false | _ => true end
  | PDict kvs => match kvs with nil => false | _ => true end
  end.

(** [a or b] *)
Definition or_else (a b : pyval) : pyval := if truthy a then a else b.

(** [v == s] for a string literal [s]. *)
Definition eq_str (v : pyval) (s : string) : bool :=
  match v with
  | PStr t => String.eqb t s
  | _ => false
  end.

(** [v in [s1, ..., sn]] for string literals. *)
Definition in_strs (v : pyval) (l : list string) : bool :=
  existsb (eq_str v) l.

(** [d.get(k)] / [k in d] on a parsed JSON object. The dictionaries a
    JSON parser builds have no duplicate keys. *)
Fixpoint assoc (k : string) (kvs : list (string * pyval)) : option pyval :=
  match kvs with
  | nil => None
  | (k', v) :: rest => if String.eqb k k' then Some v else assoc k rest
  end.

Definition has_key (k : string) (kvs : list (string * pyval)) : bool :=
  match assoc k kvs with Some _ => true | None => false end.

Definition get_default (k : string) (d : pyval) (kvs : list (string * pyval)) : pyval :=
  match assoc k kvs with Some v => v | None => d end.

(** [v[:n]]: strings and lists can be sliced, nothing else. *)
Definition slice_to (n : nat) (v : pyval) : result pyval :=
  match v with
  | PStr s => Ok (PStr (Str.take n s))
  | PList l => Ok (PList (firstn n l))
  | _ => Raise TypeError
  end.

(** [v <= k] and [v >= k] against an integer literal [k] (given both as
    an integer and as the float it converts to). *)
Definition le_lit (v : pyval) (kz : Z) (kf : float) : result bool :=
  match v with
  | PInt z => Ok (z <=? kz)%Z
  | PBool b => Ok ((if b then 1 else 0) <=? kz)%Z
  | PFloat f => Ok (PrimFloat.leb f kf)
  | _ => Raise TypeError
  end.

Definition ge_lit (v : pyval) (kz : Z) (kf : float) : result bool :=
  match v with
  | PInt z => Ok (kz <=? z)%Z
  | PBool b => Ok (kz <=? (if b then 1 else 0))%Z
  | PFloat f => Ok (PrimFloat.leb kf f)
  | _ => Raise TypeError
  end.

End Py.

(** ** Deterministic fallback rules (tool_gemini.py) *)

Definition BUG_TRIGGERS : list string :=
  [ "crash"; "error"; "exception"; "freeze"; "not working"; "can't login";
    "cannot login"; "login issue"; "stopped working"; "data loss";
    "sync issue"; "sync not"; "fails to"; "bug" ].

Definition FEATURE_TRIGGERS : list string :=
  [ "please add"; "would love"; "feature request"; "missing"; "could you";
    "add support"; "add dark mode" ].

Definition PRAISE_TRIGGERS : list string :=
  [ "love"; "amazing"; "perfect"; "best"; "smooth"; "works great" ].

Definition COMPLAINT_TRIGGERS : list string :=
  [ "slow"; "lag"; "expensive"; "poor"; "bad"; "annoying"; "ads";
    "too many ads"; "pricey"; "support is" ].

Definition SPAM_TRIGGERS : list string :=
  [ "http"; "www"; "visit"; "free"; "money"; "channel"; "asdf"; "subscribe";
    "coins"; "discount code" ].

Definition _contains_any (text : string) (needles : list string) : bool :=
  let t := Str.lower text in
  existsb (fun n => Str.isin n t) needles.

Definition classification : Type := (string * float * string)%type.

Definition fallback_classify (text : string) (rating : pyval) : result classification :=
  if _contains_any text SPAM_TRIGGERS then Ok ("Spam", 0.95%float, "spam trigger")
  else if _contains_any text BUG_TRIGGERS then
    let conf :=
      if Str.isin "crash" (Str.lower text) || Str.isin "data loss" (Str.lower text)
      then 0.9%float else 0.75%float in
    Ok ("Bug", conf, "bug trigger")
  else if _contains_any text FEATURE_TRIGGERS then Ok ("Feature Request", 0.8%float, "feature trigger")
  else if _contains_any text PRAISE_TRIGGERS then Ok ("Praise", 0.7%float, "praise trigger")
  else if _contains_any text COMPLAINT_TRIGGERS then Ok ("Complaint", 0.7%float, "complaint trigger")
  else
    match rating with
    | PNone => Ok ("Other", 0.4%float, "default fallback")
    | _ =>
        (do le2 <- Py.le_lit rating 2 2%float;
         if le2 then Ok ("Complaint", 0.55%float, "rating fallback")
         else
           do ge4 <- Py.ge_lit rating 4 4%float;
           if ge4 then Ok ("Praise", 0.55%float, "rating fallback")
           else Ok ("Other", 0.4%float, "default fallback"))%result
    end.

Definition fallback_feature (text : string) : string * string * string :=
  let low := [ "widget"; "export"; "multiple accounts" ] in
  let high := [ "dark mode"; "calendar"; "integration" ] in
  let tl := Str.lower text in
  if existsb (fun h => Str.isin h tl) high then
    ("High", "Feature: " ++ Str.take 140 text, "high-impact trigger")
  else if existsb (fun l => Str.isin l tl) low then
    ("Medium", "Feature: " ++ Str.take 140 text, "medium-impact trigger")
  else ("Low", "Feature: " ++ Str.take 140 text, "low-impact default").

(** ** Prompts (prompts.py) *)

Definition nl : string := String (ascii_of_nat 10) EmptyString.

Definition SYSTEM_CLASSIFIER : string :=
  "You are FeedbackClassifierAgent." ++ nl ++
  "Classify the input text into one of: Bug, Feature Request, Praise, Complaint, Spam, Other." ++ nl ++
  "Output a compact JSON with fields: category, confidence (0..1), brief_rationale.".

Definition SYSTEM_BUG_ANALYZER : string :=
  "You are BugAnalysisAgent." ++ nl ++
  "Given a potential bug report, extract:" ++ nl ++
  "- severity: Critical / High / Medium / Low (be conservative; crashes, login failures, or data loss are Critical/High)" ++ nl ++
  "- technical_details: Platform, Version, concise summary." ++ nl ++
  "Return JSON with fields: severity, technical_details, brief_rationale.".

Definition SYSTEM_FEATURE_EXTRACTOR : string :=
  "You are FeatureExtractorAgent." ++ nl ++
  "Given a feature request, estimate user impact (High/Medium/Low) and summarize." ++ nl ++
  "Return JSON with fields: impact, details, suggested_title.".

Definition SYSTEM_TICKET_CREATOR : string :=
  "You are TicketCreatorAgent." ++ nl ++
  "Create a structured, concise ticket title (<= 80 chars) and short body." ++ nl ++
  "Return JSON with fields: title, body.".

Definition SYSTEM_CRITIC : string :=
  "You are QualityCriticAgent." ++ nl ++
  "Check a ticket for completeness, consistency, and priority sanity (Spam/Praise shouldn't be High/Critical)." ++ nl ++
  "If adjustments are needed, return corrected fields. Else return 'ok': true." ++ nl ++
  "Output JSON with optional corrected fields.".

(** ** The world: object store, backend call counter, clock *)

(** A ticket dictionary ([Dict[str, Any]]) is a finite map; the store is
    the list of the dictionaries allocated so far, a location is an index
    into it. *)
Abbreviation loc := nat (only parsing).

Record world : Type := World {
  heap : list (gmap string pyval);
  calls : nat;     (* backend calls made so far *)
  ticks : nat      (* readings of the clock made so far *)
}.

(** The world after one more backend call, and after one more allocation. *)
Definition bump (w : world) : world :=
  {| heap := heap w; calls := S (calls w); ticks := ticks w |}.

Definition extend (w : world) (d : gmap string pyval) : world :=
  {| heap := (heap w ++ [d])%list; calls := calls w; ticks := ticks w |}.

Definition M (A : Type) : Type := world -> result (A * world).

Definition mret {A} (a : A) : M A := fun w => Ok (a, w).

Definition mbind {A B} (m : M A) (k : A -> M B) : M B :=
  fun w => match m w with
           | Ok (a, w') => k a w'
           | Raise e => Raise e
           end.

Definition lift {A} (r : result A) : M A :=
  fun w => match r with
           | Ok a => Ok (a, w)
           | Raise e => Raise e
           end.

Declare Scope M_scope.
Delimit Scope M_scope with M.
Notation "'do' x <- c ; k" := (mbind c (fun x => k))
  (at level 10, x name, c at level 100, k at level 200) : M_scope.

Module Store.

(** The model's own fault, not a Python exception: a location that was
    never allocated. No function below produces such a location. *)
Definition dangling : exn := KeyError "<no such object>".

Definition read (l : loc) : M (gmap string pyval) :=
  fun w => match heap w !! l with
           | Some d => Ok (d, w)
           | None => Raise dangling
           end.

(** A new object: the next index of the store. *)
Definition alloc (d : gmap string pyval) : M loc :=
  fun w => Ok (length (heap w),
               {| heap := (heap w ++ [d])%list; calls := calls w; ticks := ticks w |}).

(** [obj[k] = v], in place. *)
Definition setitem (l : loc) (k : string) (v : pyval) : M unit :=
  fun w => match heap w !! l with
           | Some d => Ok (tt, {| heap := <[l := <[k := v]> d]> (heap w);
                                  calls := calls w; ticks := ticks w |})
           | None => Raise dangling
           end.

(** [obj.copy()]: a new object with the same items. *)
Definition copy (l : loc) : M loc :=
  (do d <- read l; alloc d)%M.

(** [obj.get(k)] *)
Definition get (d : gmap string pyval) (k : string) : pyval :=
  default PNone (d !! k).

End Store.

(** ** Tables ([pd.DataFrame])

    A table is its list of column names, taken to be distinct, and its
    rows, one cell per column. *)
Record DataFrame : Type := {
  columns : list string;
  rows : list (list pyval)
}.

(** ** Library routines the source calls

    Python and pandas routines that are not code of the repository are
    parameters of the development. Of the join and of the comparison of
    two columns, the part that concerns strings is written out further
    down; the rest, where pandas converts between the types of numbers and
    of missing values, is left to the library. *)
Record PyLib : Type := {
  json_loads : string -> option pyval;          (* [None]: json.loads raises *)
  json_dumps : pyval -> string;
  str_of : pyval -> string;                     (* str(v) of a value that is not a str *)
  float_of_int : Z -> result float;             (* float(n) *)
  float_of_str : string -> result float;        (* float(s) *)
  series_mean : list pyval -> result float;     (* Series.mean() of a non-empty column *)
  strftime_now : nat -> string;                 (* the n-th reading of datetime.now() *)
  (* left.merge(right, on=key, suffixes=("", sfx)), keys that are not all strings *)
  merge_other : DataFrame -> DataFrame -> string -> string -> result DataFrame;
  (* a == b, two columns neither of which holds strings only *)
  eq_other : list pyval -> list pyval -> list bool
}.

(** ** The reasoning backend (gemini_client.py) *)

(** What [generate_content] followed by [resp.text] does on one call. *)
Inductive reply : Type :=
| ReplyRaises                      (* transport failure, blocked response, ... *)
| ReplyText (text : option string) (* [resp.text], possibly None *).

Record GeminiClient : Type := {
  enabled : bool;
  (** the reply to the n-th call, given the prompt *)
  generate_content : nat -> string -> reply
}.

(** [GeminiClient.__init__]: enabled iff the key is set and not blank. *)
Definition GeminiClient_init (api_key : option string)
    (backend : nat -> string -> reply) : GeminiClient :=
  {| enabled := match api_key with
                | Some k => (0 <? String.length (Str.strip k))%nat
                | None => false
                end;
     generate_content := backend |}.

Definition call_backend (g : GeminiClient) (prompt : string) : M (option string) :=
  fun w => match generate_content g (calls w) prompt with
           | ReplyRaises => Raise BackendError
           | ReplyText t => Ok (t, {| heap := heap w; calls := S (calls w); ticks := ticks w |})
           end.

(** The prompt of [ask_json]. *)
Definition ask_prompt (system_prompt user_content : string) : string :=
  system_prompt ++ nl ++ nl ++ "User Input:" ++ nl ++ user_content
  ++ nl ++ nl ++ "Return a valid JSON only.".

(** The Spam/Praise priority constraint: not both a category of Spam or
    Praise and a priority of High or Critical. *)
Definition violates (d : gmap string pyval) : bool :=
  Py.in_strs (Store.get d "category") ["Spam"; "Praise"]
  && Py.in_strs (Store.get d "priority") ["High"; "Critical"].

Definition compliant (d : gmap string pyval) : bool := negb (violates d).

(** What the fallback block of the critic makes of the items of a ticket. *)
Definition critic_rule (d : gmap string pyval) : gmap string pyval :=
  if violates d then <["priority" := PStr "Low"]> d else d.

(** The value of a computation, without the world it leaves. *)
Definition value_of {A} (r : result (A * world)) : result A :=
  match r with
  | Ok (a, _) => Ok a
  | Raise e => Raise e
  end.

(** A backend reply that a step cannot use: it is an object, and one of
    the step's required keys is not in it. *)
Definition missing_required (keys : list string) (out : pyval) : bool :=
  match out with
  | PDict kvs => negb (forallb (fun k => Py.has_key k kvs) keys)
  | _ => false
  end.

(** The ticket record (tool_gemini.py). The fields the backend may fill
    are dynamically typed. *)
Record Ticket : Type := {
  ticket_id : string;
  source_id : string;
  source_type : string;
  category : pyval;
  priority : string;
  title : pyval;
  technical_details : pyval;
  created_at : string;
  confidence : float;
  link_back : pyval
}.

Section Engine.

Variable lib : PyLib.

(** f-string formatting [f"{v}"]. *)
Definition fmt (v : pyval) : string :=
  match v with
  | PStr s => s
  | _ => str_of lib v
  end.

(** [float(v)] *)
Definition to_float (v : pyval) : result float :=
  match v with
  | PFloat f => Ok f
  | PBool b => Ok (if b then 1%float else 0%float)
  | PInt z => float_of_int lib z
  | PStr s => float_of_str lib s
  | _ => Raise TypeError
  end.

(** [GeminiClient.ask_json]. The result [PNone] is Python's [None]. *)
Definition ask_json (g : GeminiClient) (system_prompt user_content : string) : M pyval :=
  if negb (enabled g) then mret PNone
  else
    let prompt := ask_prompt system_prompt user_content in
    (do resp_text <- call_backend g prompt;
     let text := Str.strip (match resp_text with Some t => t | None => "" end) in
     match json_loads lib text with
     | Some v => mret v
     | None =>
         match Str.find "{" text, Str.rfind "}" text with
         | Some start, Some end_ =>
             if (start <? end_)%nat then
               match json_loads lib (Str.slice start (end_ + 1) text) with
               | Some v => mret v
               | None => mret PNone
               end
             else mret PNone
         | _, _ => mret PNone
         end
     end)%M.

(** ** Fallback severity rule (tool_gemini.py) *)

Definition fallback_bug_analysis (text : string) (platform app_version : pyval)
  : string * string * string :=
  let sev :=
    if Str.isin "crash" (Str.lower text) || Str.isin "data loss" (Str.lower text)
       || Str.isin "can't login" (Str.lower text) || Str.isin "cannot login" (Str.lower text)
    then "High" else "Medium" in
  let details :=
    "Platform=" ++ fmt platform ++ "; Version=" ++ fmt app_version
    ++ "; Summary=" ++ Str.take 140 text in
  (sev, details, "rule-based severity").

(** ** Backend-assisted tools with fallback (tool_gemini.py)

    The text comes from a cell of a table and is whatever the cell holds.
    The payload of the backend takes any value; the fallback rules start
    with [text.lower()], which only a string has. *)

(** The receiver of [text.lower()]. *)
Definition as_text (v : pyval) : result string :=
  match v with
  | PStr s => Ok s
  | _ => Raise AttributeError
  end.

(** [return fallback_classify(text, rating)] *)
Definition classify_fallback (text rating : pyval) : M (pyval * float * pyval) :=
  lift (do s <- as_text text;
        do r <- fallback_classify s rating;
        Ok (PStr (fst (fst r)), snd (fst r), PStr (snd r)))%result.

Definition classify_with_gemini (g : GeminiClient) (text rating : pyval)
  : M (pyval * float * pyval) :=
  let payload := PDict [("text", text); ("rating", rating)] in
  if enabled g then
    (do out <- ask_json g SYSTEM_CLASSIFIER (json_dumps lib payload);
     match out with
     | PDict kvs =>
         if Py.has_key "category" kvs then
           let cat := Py.get_default "category" (PStr "Other") kvs in
           do conf <- lift (to_float (Py.get_default "confidence" (PFloat 0.6%float) kvs));
           let rationale := Py.get_default "brief_rationale" (PStr "") kvs in
           mret (cat, conf, rationale)
         else classify_fallback text rating
     | _ => classify_fallback text rating
     end)%M
  else classify_fallback text rating.

(** [return fallback_bug_analysis(text, platform, app_version)] *)
Definition analyze_bug_fallback (text platform app_version : pyval)
  : M (pyval * pyval * pyval) :=
  (do s <- lift (as_text text);
   let r := fallback_bug_analysis s platform app_version in
   mret (PStr (fst (fst r)), PStr (snd (fst r)), PStr (snd r)))%M.

Definition analyze_bug_with_gemini (g : GeminiClient)
    (text platform app_version : pyval) : M (pyval * pyval * pyval) :=
  let payload := PDict [("text", text); ("platform", platform); ("version", app_version)] in
  if enabled g then
    (do out <- ask_json g SYSTEM_BUG_ANALYZER (json_dumps lib payload);
     match out with
     | PDict kvs =>
         if Py.has_key "severity" kvs then
           mret (Py.get_default "severity" (PStr "Medium") kvs,
                 Py.get_default "technical_details" (PStr "") kvs,
                 Py.get_default "brief_rationale" (PStr "") kvs)
         else analyze_bug_fallback text platform app_version
     | _ => analyze_bug_fallback text platform app_version
     end)%M
  else analyze_bug_fallback text platform app_version.

(** [return fallback_feature(text)] *)
Definition extract_feature_fallback (text : pyval) : M (pyval * pyval * pyval) :=
  (do s <- lift (as_text text);
   let r := fallback_feature s in
   mret (PStr (fst (fst r)), PStr (snd (fst r)), PStr (snd r)))%M.

(** The default of [details], [f"Feature: {text[:140]}"], is computed
    whether the reply has details or not. *)
Definition extract_feature_with_gemini (g : GeminiClient) (text : pyval)
  : M (pyval * pyval * pyval) :=
  let payload := PDict [("text", text)] in
  if enabled g then
    (do out <- ask_json g SYSTEM_FEATURE_EXTRACTOR (json_dumps lib payload);
     match out with
     | PDict kvs =>
         if Py.has_key "impact" kvs then
           do t140 <- lift (Py.slice_to 140 text);
           mret (Py.get_default "impact" (PStr "Low") kvs,
                 Py.get_default "details" (PStr ("Feature: " ++ fmt t140)) kvs,
                 Py.get_default "suggested_title" (PStr "Feature") kvs)
         else extract_feature_fallback text
     | _ => extract_feature_fallback text
     end)%M
  else extract_feature_fallback text.

(** The fallback of [compose_ticket_with_gemini]: "just trim". *)
Definition compose_ticket_fallback (title_hint body_hint : pyval) : M (pyval * pyval) :=
  (do t <- lift (Py.slice_to 80 title_hint);
   do b <- lift (Py.slice_to 400 body_hint);
   mret (t, b))%M.

Definition compose_ticket_with_gemini (g : GeminiClient) (title_hint body_hint : pyval)
  : M (pyval * pyval) :=
  (do th <- lift (Py.slice_to 120 title_hint);
   do bh <- lift (Py.slice_to 500 body_hint);
   let payload := PDict [("title_hint", th); ("body_hint", bh)] in
   if enabled g then
     do out <- ask_json g SYSTEM_TICKET_CREATOR (json_dumps lib payload);
     match out with
     | PDict kvs =>
         if Py.has_key "title" kvs && Py.has_key "body" kvs then
           do t <- lift (Py.slice_to 80 (Py.get_default "title" PNone kvs));
           mret (t, Py.get_default "body" PNone kvs)
         else compose_ticket_fallback title_hint body_hint
     | _ => compose_ticket_fallback title_hint body_hint
     end
   else compose_ticket_fallback title_hint body_hint)%M.

(** [for k, v in out.items(): if k != "ok": corrected[k] = v] *)
Fixpoint merge_corrections (corrected : loc) (items : list (string * pyval)) : M unit :=
  match items with
  | nil => mret tt
  | (k, v) :: rest =>
      if negb (String.eqb k "ok") then
        (do _ <- Store.setitem corrected k v; merge_corrections corrected rest)%M
      else merge_corrections corrected rest
  end.

(** The last block of [critic_with_gemini] ("fallback: minimal sanity"),
    reached when the backend is off or its reply is not an object. *)
Definition critic_fallback (ticket : loc) : M loc :=
  (do corrected <- Store.copy ticket;
   do d <- Store.read corrected;
   if Py.in_strs (Store.get d "category") ["Spam"; "Praise"]
      && Py.in_strs (Store.get d "priority") ["High"; "Critical"]
   then do _ <- Store.setitem corrected "priority" (PStr "Low"); mret corrected
   else mret corrected)%M.

Definition critic_with_gemini (g : GeminiClient) (ticket : loc) : M loc :=
  if enabled g then
    (do d <- Store.read ticket;
     do out <- ask_json g SYSTEM_CRITIC (json_dumps lib (PDict (map_to_list d)));
     match out with
     | PDict kvs =>
         match Py.assoc "ok" kvs with
         | Some (PBool true) => mret ticket
         | _ =>
             do corrected <- Store.copy ticket;
             do _ <- merge_corrections corrected kvs;
             mret corrected
         end
     | _ => critic_fallback ticket
     end)%M
  else critic_fallback ticket.

(** The fallback block is reached: the client has no credential, or the
    backend was asked and its reply is not an object. [w1] is the world
    in which the block then runs. *)
Definition fallback_path (g : GeminiClient) (ticket : loc) (w w1 : world) : Prop :=
  (enabled g = false /\ w1 = w)
  \/ (enabled g = true
      /\ exists d out,
           heap w !! ticket = Some d
           /\ ask_json g SYSTEM_CRITIC (json_dumps lib (PDict (map_to_list d))) w = Ok (out, w1)
           /\ forall kvs, out <> PDict kvs).

(** ** Ticket creation (tool_gemini.py) *)

(** [datetime.now().strftime(...)]: one reading of the clock. *)
Definition datetime_now : M string :=
  fun w => Ok (strftime_now lib (ticks w),
               {| heap := heap w; calls := calls w; ticks := S (ticks w) |}).

Definition create_ticket (feedback_id source_type_ : string) (category_ : pyval)
    (priority_ : string) (title_ technical_details_ : pyval)
    (confidence_ : float) (link_back_ : pyval) : M Ticket :=
  (do stamp <- datetime_now;
   mret {| ticket_id := "T" ++ feedback_id;
           source_id := feedback_id;
           source_type := source_type_;
           category := category_;
           priority := priority_;
           title := title_;
           technical_details := technical_details_;
           created_at := stamp;
           confidence := confidence_;
           link_back := Py.or_else link_back_ (PStr "") |})%M.

(** [t.__dict__] *)
Definition Ticket_dict (t : Ticket) : gmap string pyval :=
  <["ticket_id" := PStr (ticket_id t)]>
  (<["source_id" := PStr (source_id t)]>
  (<["source_type" := PStr (source_type t)]>
  (<["category" := category t]>
  (<["priority" := PStr (priority t)]>
  (<["title" := title t]>
  (<["technical_details" := technical_details t]>
  (<["created_at" := PStr (created_at t)]>
  (<["confidence" := PFloat (confidence t)]>
  (<["link_back" := link_back t]> ∅))))))))).

(** ** One feedback row to one ticket (autogen_pipeline.py) *)

(** A row of a table ([pd.Series]): [row.get(k, d)]. *)
Definition row_get (row : gmap string pyval) (k : string) (d : pyval) : pyval :=
  default d (row !! k).

(** [{k1: v1, ...}.get(key, d)] on a literal table with string keys:
    a list or a dict is not hashable. *)
Definition table_get (table : list (string * string)) (key : pyval) (d : string)
  : result string :=
  match key with
  | PStr s =>
      Ok (match List.find (fun kv => String.eqb s (fst kv)) table with
          | Some kv => snd kv
          | None => d
          end)
  | PList _ | PDict _ => Raise TypeError
  | _ => Ok d
  end.

(** The text is the first truthy one of the cells review_text and body,
    else the empty string: a cell that is not a string (a number, the NaN
    of an empty cell) is taken as it is. [t72] and [t240] are [text[:72]]
    and [text[:240]], which the source computes right after the
    classification and again in the branches. *)
Definition row_to_ticket (g : GeminiClient) (row : gmap string pyval)
    (source_type_ : string) : M Ticket :=
  (let text := Py.or_else
                 (Py.or_else (row_get row "review_text" PNone) (row_get row "body" PNone))
                 (PStr "") in
   let rating := row_get row "rating" PNone in
   do cls <- classify_with_gemini g text rating;
   let category_ := fst (fst cls) in
   let conf := snd (fst cls) in
   do t72 <- lift (Py.slice_to 72 text);
   do t240 <- lift (Py.slice_to 240 text);
   let platform := row_get row "platform" (row_get row "device" (PStr "Unknown")) in
   let version := row_get row "app_version" (row_get row "appVersion" (PStr "Unknown")) in
   do br <-
     (if Py.eq_str category_ "Bug" then
        do r <- analyze_bug_with_gemini g text platform version;
        do prio <- lift (table_get [("Critical", "Critical"); ("High", "High");
                                    ("Medium", "Medium"); ("Low", "Low")]
                                   (fst (fst r)) "Medium");
        mret (prio, PStr ("Bug: " ++ fmt t72), snd (fst r))
      else if Py.eq_str category_ "Feature Request" then
        do r <- extract_feature_with_gemini g text;
        do prio <- lift (table_get [("High", "High"); ("Medium", "Medium"); ("Low", "Low")]
                                   (fst (fst r)) "Low");
        mret (prio, Py.or_else (snd r) (PStr ("Feature: " ++ fmt t72)), snd (fst r))
      else if Py.eq_str category_ "Complaint" then
        mret ("Medium", PStr ("Complaint: " ++ fmt t72),
              PStr ("Complaint: " ++ fmt t240))
      else if Py.eq_str category_ "Praise" then
        mret ("Low", PStr "Praise", PStr "Positive feedback")
      else if Py.eq_str category_ "Spam" then
        mret ("Low", PStr "Spam", PStr "Likely spam")
      else
        mret ("Low",
              Py.or_else t72 (PStr (fmt category_ ++ " item")),
              PStr ("Summary=" ++ fmt t240)));
   let priority_ := fst (fst br) in
   let title_hint := snd (fst br) in
   let details := snd br in
   do tb <- compose_ticket_with_gemini g title_hint details;
   let link_back_ := row_get row "url" (PStr "") in
   create_ticket (fmt (row_get row "review_id" (row_get row "email_id" (PStr ""))))
                 source_type_ category_ priority_ (fst tb)
                 (if Py.truthy (snd tb) then snd tb else details)
                 conf link_back_)%M.

(** ** Tables (the part of pandas the source uses) *)

Definition nan_cell : pyval := PFloat PrimFloat.nan.

Fixpoint col_index (c : string) (cols : list string) : option nat :=
  match cols with
  | nil => None
  | c' :: rest => if String.eqb c c' then Some 0%nat
                  else option_map S (col_index c rest)
  end.

Definition has_column (c : string) (df : DataFrame) : bool :=
  existsb (String.eqb c) (columns df).

(** [len(df)] *)
Definition df_len (df : DataFrame) : nat := length (rows df).

(** [df[c]]: the cells of a column, [KeyError] if there is none. *)
Definition df_getitem (df : DataFrame) (c : string) : result (list pyval) :=
  match col_index c (columns df) with
  | Some i => Ok (map (fun r => nth i r nan_cell) (rows df))
  | None => Raise (KeyError c)
  end.

(** [pd.DataFrame(records)] for a list of dicts: the columns are the keys
    in order of first appearance; an empty list gives no column at all. *)
Fixpoint record_keys (seen : list string) (records : list (list (string * pyval)))
  : list string :=
  match records with
  | nil => seen
  | r :: rest =>
      record_keys
        (fold_left (fun acc kv => if existsb (String.eqb (fst kv)) acc then acc
                                  else (acc ++ [fst kv])%list) r seen)
        rest
  end.

Definition DataFrame_of_records (records : list (list (string * pyval))) : DataFrame :=
  let cols := record_keys nil records in
  {| columns := cols;
     rows := map (fun r => map (fun c => Py.get_default c nan_cell r) cols) records |}.

(** The kind of a cell: a string; a number of an int64 or float64
    column. *)
Definition is_str (v : pyval) : bool :=
  match v with
  | PStr _ => true
  | _ => false
  end.

Definition is_number (v : pyval) : bool :=
  match v with
  | PInt z => (- 2 ^ 63 <=? z)%Z && (z <? 2 ^ 63)%Z
  | PFloat _ => true
  | _ => false
  end.

Definition is_nil {A} (l : list A) : bool :=
  match l with
  | nil => true
  | _ :: _ => false
  end.

(** Two join keys that are strings: the same string. *)
Definition key_eq (a b : pyval) : bool :=
  match a, b with
  | PStr s, PStr t => String.eqb s t
  | _, _ => false
  end.

(** [x == y] when one of the two is a string: a string equals the same
    string and no other value. *)
Definition cell_eq (a b : pyval) : bool :=
  match a, b with
  | PStr s, PStr t => String.eqb s t
  | _, _ => false
  end.

Definition remove_nth {A} (i : nat) (l : list A) : list A :=
  (firstn i l ++ skipn (S i) l)%list.

(** The inner join of two tables whose keys are at [i] and [j]. A column
    of [right] other than the key whose name is also a column of [left] is
    renamed with [sfx]; the rows follow the order of [left]. *)
Definition join_rows (left right : DataFrame) (i j : nat) (sfx : string) : DataFrame :=
  let rcols :=
    map (fun c => if existsb (String.eqb c) (columns left) then c ++ sfx else c)
        (remove_nth j (columns right)) in
  {| columns := (columns left ++ rcols)%list;
     rows := flat_map
               (fun lr =>
                  map (fun rr => (lr ++ remove_nth j rr)%list)
                      (List.filter (fun rr => key_eq (nth i lr nan_cell) (nth j rr nan_cell))
                              (rows right)))
               (rows left) |}.

(** [left.merge(right, on=key, suffixes=("", sfx))]. A table without the
    key column gives KeyError. Otherwise:
    - when one of the tables has no row, no row joins, whatever the keys
      of the other are;
    - when the keys of both tables are strings, the rows with the same
      key join;
    - when the keys of one table are strings and the keys of the other are
      numbers, pandas refuses to join them: ValueError;
    - keys of other kinds (missing values, booleans, columns of mixed
      types) are joined by pandas after conversions that are not written
      out here. *)
Definition df_merge (left right : DataFrame) (key sfx : string) : result DataFrame :=
  match col_index key (columns left), col_index key (columns right) with
  | Some i, Some j =>
      let lk := map (fun r => nth i r nan_cell) (rows left) in
      let rk := map (fun r => nth j r nan_cell) (rows right) in
      if is_nil lk || is_nil rk || (forallb is_str lk && forallb is_str rk) then
        Ok (join_rows left right i j sfx)
      else if (forallb is_str lk && forallb is_number rk)
              || (forallb is_number lk && forallb is_str rk) then
        Raise ValueError
      else merge_other lib left right key sfx
  | _, _ => Raise (KeyError key)
  end.

(** The conversion of a count to a float, exact below 2^53. *)
Definition float_of_nat (n : nat) : float :=
  PrimFloat.of_uint63 (Uint63.of_Z (Z.of_nat n)).

(** [.sum()] of a boolean column. *)
Definition count_true (bs : list bool) : nat := length (List.filter (fun b => b) bs).

(** [.mean()] of a non-empty boolean column: the fraction of [True]. *)
Definition bool_mean (bs : list bool) : float :=
  PrimFloat.div (float_of_nat (count_true bs)) (float_of_nat (length bs)).

(** Position by position, [cell_eq]. *)
Fixpoint zip_eq (a b : list pyval) : list bool :=
  match a, b with
  | x :: a', y :: b' => cell_eq x y :: zip_eq a' b'
  | _, _ => nil
  end.

(** [a == b], elementwise, for two columns of the same table. When one
    of them holds strings only, a position is true exactly when both
    cells are the same string; two columns of numbers or missing values
    are compared by pandas according to their types. *)
Definition series_eq (a b : list pyval) : list bool :=
  if forallb is_str a || forallb is_str b then zip_eq a b else eq_other lib a b.

(** ** Metrics (tool_gemini.py) *)

Definition CATEGORIES : list string :=
  [ "Bug"; "Feature Request"; "Praise"; "Complaint"; "Spam"; "Other" ].

(** [k.lower().replace(" ", "_")] *)
Definition metric_key (k : string) : string :=
  Str.replace_char " " "_" (Str.lower k).

(** [metrics[k] = v] on an insertion-ordered dict. *)
Fixpoint dict_set (k : string) (v : pyval) (d : list (string * pyval))
  : list (string * pyval) :=
  match d with
  | nil => [(k, v)]
  | (k', v') :: rest =>
      if String.eqb k k' then (k, v) :: rest else (k', v') :: dict_set k v rest
  end.

(** [int((processing_log["category"] == k).sum())] for a column. *)
Definition count_of (col : list pyval) (k : string) : pyval :=
  PInt (Z.of_nat (count_true (map (fun v => Py.eq_str v k) col))).

(** The loop over the six categories. *)
Fixpoint count_categories (processing_log : DataFrame) (ks : list string)
    (metrics : list (string * pyval)) : result (list (string * pyval)) :=
  match ks with
  | nil => Ok metrics
  | k :: rest =>
      (do col <- df_getitem processing_log "category";
       count_categories processing_log rest
         (dict_set (metric_key k) (count_of col k) metrics))%result
  end.

(** [processing_log["confidence"].mean() if len(processing_log) else 0.0] *)
Definition mean_confidence (processing_log : DataFrame) : result float :=
  (if (0 <? df_len processing_log)%nat
   then do col <- df_getitem processing_log "confidence"; series_mean lib col
   else Ok 0%float)%result.

(** [(merged["category"] == merged["category_expected"]).mean()
     if len(merged) else 0.0] *)
Definition category_accuracy (merged : DataFrame) : result float :=
  (if (0 <? df_len merged)%nat
   then do a <- df_getitem merged "category";
        do b <- df_getitem merged "category_expected";
        Ok (bool_mean (series_eq a b))
   else Ok 0%float)%result.

Definition compute_metrics (processing_log : DataFrame) (expected : option DataFrame)
  : result DataFrame :=
  (let metrics := [("total_items", PInt (Z.of_nat (df_len processing_log)))] in
   do metrics <- count_categories processing_log CATEGORIES metrics;
   do avg <- mean_confidence processing_log;
   let metrics := dict_set "avg_confidence" (PFloat avg) metrics in
   do metrics <-
     match expected with
     | Some expected_ =>
         if has_column "category" expected_ then
           do merged <- df_merge processing_log expected_ "source_id" "_expected";
           if has_column "category_expected" merged then
             do acc <- category_accuracy merged;
             Ok (dict_set "category_accuracy" (PFloat acc) metrics)
           else Ok metrics
         else Ok metrics
     | None => Ok metrics
     end;
   Ok (DataFrame_of_records [metrics]))%result.

(** The metrics before the accuracy is added, written out. *)
Definition metrics_base (n : nat) (col : list pyval) (avg : float)
  : list (string * pyval) :=
  [ ("total_items", PInt (Z.of_nat n)); ("bug", count_of col "Bug");
    ("feature_request", count_of col "Feature Request");
    ("praise", count_of col "Praise"); ("complaint", count_of col "Complaint");
    ("spam", count_of col "Spam"); ("other", count_of col "Other");
    ("avg_confidence", PFloat avg) ].

(** The value of a metric in the one-row summary, if the column is there. *)
Definition metric (summary : DataFrame) (name : string) : option pyval :=
  match col_index name (columns summary), rows summary with
  | Some i, r :: _ => nth_error r i
  | _, _ => None
  end.

(** ** The batch (autogen_pipeline.py, [main]) *)

(** [d[k]] on a ticket dictionary. *)
Definition getitem (d : gmap string pyval) (k : string) : result pyval :=
  match d !! k with
  | Some v => Ok v
  | None => Raise (KeyError k)
  end.

(** The body of the two loops of [main]. The dictionary of the ticket
    object itself is not used again, only its copy is allocated. *)
Definition process_row (g : GeminiClient) (source_type_ : string)
    (row : gmap string pyval) : M (loc * list (string * pyval)) :=
  (do t <- row_to_ticket g row source_type_;
   do td0 <- Store.alloc (Ticket_dict t);
   do td <- critic_with_gemini g td0;
   do d <- Store.read td;
   do sid <- lift (getitem d "source_id");
   do cat <- lift (getitem d "category");
   do prio <- lift (getitem d "priority");
   do conf <- lift (getitem d "confidence");
   mret (td, [("source_id", sid); ("source_type", PStr source_type_);
              ("category", cat); ("priority", prio); ("confidence", conf)]))%M.

Fixpoint process_rows (g : GeminiClient) (source_type_ : string)
    (table : list (gmap string pyval)) : M (list loc * list (list (string * pyval))) :=
  match table with
  | nil => mret (nil, nil)
  | r :: rest =>
      (do x <- process_row g source_type_ r;
       do xs <- process_rows g source_type_ rest;
       mret (fst x :: fst xs, snd x :: snd xs))%M
  end.

(** [main] from the tables read to the metrics: the tickets, the
    processing log and the one-row summary. *)
Definition pipeline (g : GeminiClient) (reviews emails : list (gmap string pyval))
    (expected : option DataFrame) : M (list loc * DataFrame * DataFrame) :=
  (do a <- process_rows g "App Store Review" reviews;
   do b <- process_rows g "Support Email" emails;
   let tickets := (fst a ++ fst b)%list in
   let log_df := DataFrame_of_records (snd a ++ snd b)%list in
   do metrics_df <- lift (compute_metrics log_df expected);
   mret (tickets, log_df, metrics_df))%M.

End Engine.

(** ** Frames *)

(** What a sequence of at most [n] decision steps may change in the world:
    nothing in the store, nothing on the clock, at most [n] backend calls,
    and none without credential. *)
Definition steps_frame (g : GeminiClient) (n : nat) (w w1 : world) : Prop :=
  heap w1 = heap w /\ ticks w1 = ticks w
  /\ (calls w <= calls w1 <= calls w + n)%nat
  /\ (enabled g = false -> calls w1 = calls w).

(** ** Helpers for the statements *)

(** A string of whitespace only (the empty string included). *)
Fixpoint all_space (s : string) : bool :=
  match s with
  | EmptyString => true
  | String c s' => Str.is_space c && all_space s'
  end.

(** The items of a ticket after the corrections of a backend reply are
    written over them, in the order of the reply, the [ok] flag left out. *)
Definition apply_corrections (d : gmap string pyval) (kvs : list (string * pyval))
  : gmap string pyval :=
  fold_left (fun acc kv => if negb (String.eqb (fst kv) "ok")
                           then <[fst kv := snd kv]> acc else acc) kvs d.

(** The columns of the processing log, and an entry of it. *)
Definition LOG_COLUMNS : list string :=
  [ "source_id"; "source_type"; "category"; "priority"; "confidence" ].

Definition log_entry (st : string) (e : list (string * pyval)) : Prop :=
  exists sid cat prio conf,
    e = [ ("source_id", sid); ("source_type", PStr st); ("category", cat);
          ("priority", prio); ("confidence", conf) ].

(** ** Sample inputs, used to run the definitions *)

Module Sample.

Definition dq : string := String (ascii_of_nat 34) EmptyString.

(** Three replies of a backend, as JSON texts. *)
Definition reply_empty : string := "{}".
Definition reply_high : string :=
  "{" ++ dq ++ "priority" ++ dq ++ ": " ++ dq ++ "High" ++ dq ++ "}".
Definition reply_ok : string := "{" ++ dq ++ "ok" ++ dq ++ ": true}".

(** The mean of a column of floats, summed from left to right. *)
Fixpoint sum_floats (col : list pyval) (acc : float) : result float :=
  match col with
  | nil => Ok acc
  | PFloat f :: rest => sum_floats rest (PrimFloat.add acc f)
  | _ :: _ => Raise TypeError
  end.

(** A library whose JSON parser knows the three replies only. *)
Definition lib : PyLib :=
  {| json_loads := fun s =>
       if String.eqb s reply_empty then Some (PDict [])
       else if String.eqb s reply_high then Some (PDict [("priority", PStr "High")])
       else if String.eqb s reply_ok then Some (PDict [("ok", PBool true)])
       else None;
     json_dumps := fun _ => "{...}";
     str_of := fun _ => "?";
     float_of_int := fun z =>
       if ((0 <=? z) && (z <? 2 ^ 53))%Z
       then Ok (PrimFloat.of_uint63 (Uint63.of_Z z))
       else Raise ValueError;
     float_of_str := fun _ => Raise ValueError;
     series_mean := fun col =>
       (do total <- sum_floats col 0%float;
        Ok (PrimFloat.div total (PrimFloat.of_uint63 (Uint63.of_Z (Z.of_nat (length col))))))%result;
     strftime_now := fun _ => "2024-01-01 00:00:00";
     (* the sample tables have strings as keys and as categories *)
     merge_other := fun _ _ _ _ => Raise ValueError;
     eq_other := fun a _ => map (fun _ => false) a |}.

(** No credential: fallback mode. *)
Definition g_off : GeminiClient :=
  GeminiClient_init None (fun _ _ => ReplyRaises).

(** A backend that cannot be reached. *)
Definition g_down : GeminiClient :=
  GeminiClient_init (Some "key") (fun _ _ => ReplyRaises).

(** A backend that always answers with the empty object. *)
Definition g_empty : GeminiClient :=
  GeminiClient_init (Some "key") (fun _ _ => ReplyText (Some reply_empty)).

(** A backend that always asks for priority High. *)
Definition g_high : GeminiClient :=
  GeminiClient_init (Some "key") (fun _ _ => ReplyText (Some reply_high)).

(** A backend that always approves. *)
Definition g_ok : GeminiClient :=
  GeminiClient_init (Some "key") (fun _ _ => ReplyText (Some reply_ok)).

Definition ticket_of (cat prio : string) : gmap string pyval :=
  <["category" := PStr cat]> (<["priority" := PStr prio]> (<["title" := PStr "t"]> ∅)).

Definition world_of (d : gmap string pyval) : world :=
  {| heap := [d]; calls := 0; ticks := 0 |}.

Definition w0 : world := {| heap := []; calls := 0; ticks := 0 |}.

Definition scenario_A_text : string := "App crashes on login, lost all my data".

(** A hint of [10 * n] characters. *)
Fixpoint digits (n : nat) : string :=
  match n with
  | O => EmptyString
  | S n' => "0123456789" ++ digits n'
  end.

Definition row_A : gmap string pyval :=
  <["review_id" := PStr "R1"]> (<["review_text" := PStr scenario_A_text]> ∅).

(** A log of one row and a reference whose only row has another id. *)
Definition log1 : DataFrame :=
  DataFrame_of_records
    [ [("source_id", PStr "R1"); ("source_type", PStr "App Store Review");
       ("category", PStr "Bug"); ("priority", PStr "High");
       ("confidence", PFloat 0.9%float)] ].

Definition expected_other : DataFrame :=
  {| columns := ["source_id"; "category"]; rows := [[PStr "R2"; PStr "Bug"]] |}.

Definition expected_same : DataFrame :=
  {| columns := ["source_id"; "category"]; rows := [[PStr "R1"; PStr "Bug"]] |}.

(** A reference as read from a file whose ids are numbers. *)
Definition expected_numeric : DataFrame :=
  {| columns := ["source_id"; "category"]; rows := [[PInt 1; PStr "Bug"]] |}.

End Sample.

(** ** More sample inputs *)

Module Sample2.

(** A reply that classifies with a category outside the six names. *)
Definition reply_question : string :=
  "{" ++ Sample.dq ++ "category" ++ Sample.dq ++ ": "
  ++ Sample.dq ++ "Question" ++ Sample.dq ++ "}".

(** The sample library, whose parser knows this reply as well. *)
Definition lib : PyLib :=
  {| json_loads := fun s =>
       if String.eqb s reply_question then Some (PDict [("category", PStr "Question")])
       else json_loads Sample.lib s;
     json_dumps := json_dumps Sample.lib;
     str_of := str_of Sample.lib;
     float_of_int := float_of_int Sample.lib;
     float_of_str := float_of_str Sample.lib;
     series_mean := series_mean Sample.lib;
     strftime_now := strftime_now Sample.lib;
     merge_other := merge_other Sample.lib;
     eq_other := eq_other Sample.lib |}.

Definition g_question : GeminiClient :=
  GeminiClient_init (Some "key") (fun _ _ => ReplyText (Some reply_question)).

(** A row whose text holds a Spam trigger. *)
Definition row_spam : gmap string pyval :=
  <["email_id" := PStr "E7"]> (<["body" := PStr "visit http://spam"]> ∅).

(** A review whose text cell is empty in the file: the cell is a NaN. *)
Definition row_nan : gmap string pyval :=
  <["review_id" := PStr "R9"]>
  (<["review_text" := PFloat PrimFloat.nan]> (<["body" := PStr "it is slow"]> ∅)).

End Sample2.

(* ===================================================================== *)
(** * Part II: properties                                                 *)
(* ===================================================================== *)

(** ** Strings *)

Module StrFacts.
Import Str.

Lemma prefix_app (n post : string) : String.prefix n (n ++ post) = true.
Proof.
  induction n as [|c n IH]; simpl.
  - now destruct post.
  - destruct (ascii_dec c c); [exact IH | congruence].
Qed.

Lemma prefix_split (n hay : string) :
  String.prefix n hay = true -> exists post, hay = n ++ post.
Proof.
  revert hay. induction n as [|c n IH]; intros hay H.
  - now exists hay.
  - destruct hay as [|d hay]; simpl in H; [discriminate|].
    destruct (ascii_dec c d) as [->|]; [|discriminate].
    destruct (IH _ H) as [post ->]. now exists post.
Qed.

Lemma isin_cons (n : string) (c : ascii) (hay : string) :
  isin n hay = true -> isin n (String c hay) = true.
Proof.
  intros H. change (isin n (String c hay))
    with (String.prefix n (String c hay) || isin n hay).
  rewrite H. apply orb_true_r.
Qed.

(** The substring test finds exactly the occurrences. *)
Lemma isin_spec (n hay : string) : isin n hay = true <-> occurs n hay.
Proof.
  split.
  - induction hay as [|c hay IH]; intros H; cbn [isin] in H;
      apply orb_true_iff in H as [H|H]; try discriminate.
    + destruct (prefix_split _ _ H) as [post E]. now exists EmptyString, post.
    + destruct (prefix_split _ _ H) as [post E]. now exists EmptyString, post.
    + destruct (IH H) as (pre & post & ->). now exists (String c pre), post.
  - intros (pre & post & ->). induction pre as [|c pre IH].
    + change (EmptyString ++ n ++ post) with (n ++ post).
      assert (P := prefix_app n post).
      destruct (n ++ post); cbn [isin]; now rewrite P.
    + apply isin_cons, IH.
Qed.

Lemma lower_app (a b : string) : lower (a ++ b) = lower a ++ lower b.
Proof. induction a as [|c a IH]; simpl; [reflexivity | now rewrite IH]. Qed.

Lemma occurs_lower (n hay : string) :
  occurs n hay -> occurs (lower n) (lower hay).
Proof.
  intros (pre & post & ->). exists (lower pre), (lower post).
  now rewrite !lower_app.
Qed.

End StrFacts.

(** ** The fallback classifier *)

Lemma SPAM_TRIGGERS_lower :
  Forall (fun n => Str.lower n = n) SPAM_TRIGGERS.
Proof. repeat constructor. Qed.

Lemma _contains_any_spec (text : string) (needles : list string) :
  _contains_any text needles = true
  <-> exists n, In n needles /\ Str.occurs n (Str.lower text).
Proof.
  unfold _contains_any. rewrite existsb_exists.
  split; intros (n & Hin & H); exists n; split; auto;
    now apply StrFacts.isin_spec.
Qed.

(** A trigger written in the text is found whatever the case of the rest:
    the triggers are lowercase already. *)
Lemma spam_trigger_found (text n : string) :
  In n SPAM_TRIGGERS ->
  Str.occurs n text \/ Str.occurs n (Str.lower text) ->
  _contains_any text SPAM_TRIGGERS = true.
Proof.
  intros Hin H. apply _contains_any_spec. exists n. split; [exact Hin|].
  destruct H as [H|H]; [|exact H].
  pose proof (proj1 (List.Forall_forall _ _) SPAM_TRIGGERS_lower n Hin) as F.
  cbv beta in F. rewrite <- F. now apply StrFacts.occurs_lower.
Qed.

(** C3: a text that contains a Spam trigger keyword is classified Spam with
    confidence 0.95, whatever other trigger keywords it contains and
    whatever the rating is. "Contains" is read both ways: the keyword
    occurs in the text as written, or in the text lowercased. *)
Theorem fallback_classify_spam_preempts (text : string) (rating : pyval) (n : string) :
  In n SPAM_TRIGGERS ->
  Str.occurs n text \/ Str.occurs n (Str.lower text) ->
  fallback_classify text rating = Ok ("Spam", 0.95%float, "spam trigger").
Proof.
  intros Hin H. unfold fallback_classify.
  now rewrite (spam_trigger_found text n Hin H).
Qed.

Lemma fallback_classify_spam_preempts_witness :
  fallback_classify "Crash! Please add money, love this bad app. Visit HTTP://x" (PInt 1)
  = Ok ("Spam", 0.95%float, "spam trigger").
Proof.
  apply (fallback_classify_spam_preempts _ _ "money").
  - simpl. tauto.
  - left. exists "Crash! Please add ", ", love this bad app. Visit HTTP://x". reflexivity.
Defined.

Example fallback_classify_scenario_C :
  fallback_classify "Check this out http://freecoins.biz" (PInt 5)
  = Ok ("Spam", 0.95%float, "spam trigger").
Proof. reflexivity. Qed.

Example fallback_classify_scenario_D :
  fallback_classify "" (PInt 1) = Ok ("Complaint", 0.55%float, "rating fallback").
Proof. reflexivity. Qed.

Example fallback_classify_scenario_B :
  fallback_classify "Please add dark mode support" PNone
  = Ok ("Feature Request", 0.8%float, "feature trigger").
Proof. reflexivity. Qed.

(** ** Sequencing *)

Lemma mbind_ok {A B} (m : M A) (k : A -> M B) (w w1 : world) (a : A) :
  m w = Ok (a, w1) -> mbind m k w = k a w1.
Proof. unfold mbind. now intros ->. Qed.

Lemma mbind_lift {A B} (a : A) (k : A -> M B) (w : world) :
  mbind (lift (Ok a)) k w = k a w.
Proof. reflexivity. Qed.

Lemma row_get_Some (row : gmap string pyval) (k : string) (d v : pyval) :
  row !! k = Some v -> row_get row k d = v.
Proof. unfold row_get. now intros ->. Qed.

Lemma row_get_None (row : gmap string pyval) (k : string) (d : pyval) :
  row !! k = None -> row_get row k d = d.
Proof. unfold row_get. now intros ->. Qed.

Lemma or_else_truthy (a b : pyval) : Py.truthy a = true -> Py.or_else a b = a.
Proof. unfold Py.or_else. now intros ->. Qed.

Lemma eq_str_true (v : pyval) (s : string) : Py.eq_str v s = true -> v = PStr s.
Proof.
  destruct v; try discriminate. cbn. intros H.
  apply String.eqb_eq in H. now subst.
Qed.

(** ** The backend adapter *)

Section Adapter.

Variable lib : PyLib.

Lemma ask_json_disabled g sp uc w :
  enabled g = false -> ask_json lib g sp uc w = Ok (PNone, w).
Proof. intros E. unfold ask_json. now rewrite E. Qed.

(** A failure of the transport is not caught: it leaves [ask_json]. *)
Lemma ask_json_transport_failure g sp uc w :
  enabled g = true ->
  generate_content g (calls w) (ask_prompt sp uc) = ReplyRaises ->
  ask_json lib g sp uc w = Raise BackendError.
Proof.
  intros E R. unfold ask_json. rewrite E. cbv zeta. cbn [negb].
  unfold mbind, call_backend. now rewrite R.
Qed.

(** Once the backend has answered, [ask_json] returns, whatever the
    parser makes of the text. *)
Lemma ask_json_returns g sp uc w t :
  generate_content g (calls w) (ask_prompt sp uc) = ReplyText t ->
  enabled g = true ->
  exists out, ask_json lib g sp uc w = Ok (out, bump w).
Proof.
  intros R E. unfold ask_json. rewrite E. cbv zeta. cbn [negb].
  unfold mbind, call_backend, mret. rewrite R. fold (bump w).
  destruct (json_loads lib _); [eauto|].
  destruct (Str.find _ _); [|eauto].
  destruct (Str.rfind _ _); [|eauto].
  destruct (_ <? _)%nat; [|eauto].
  destruct (json_loads lib _); eauto.
Qed.

(** A text that cannot be parsed, neither whole nor between its braces,
    gives [None]. *)
Lemma ask_json_parse_failure g sp uc w t :
  generate_content g (calls w) (ask_prompt sp uc) = ReplyText t ->
  enabled g = true ->
  (forall s, json_loads lib s = None) ->
  ask_json lib g sp uc w = Ok (PNone, bump w).
Proof.
  intros R E P. unfold ask_json. rewrite E. cbv zeta. cbn [negb].
  unfold mbind, call_backend, mret. rewrite R. fold (bump w).
  rewrite P.
  destruct (Str.find _ _); [|reflexivity].
  destruct (Str.rfind _ _); [|reflexivity].
  destruct (_ <? _)%nat; [|reflexivity].
  now rewrite P.
Qed.

(** [ask_json] touches neither the store nor the clock. *)
Lemma ask_json_frame g sp uc w out w1 :
  ask_json lib g sp uc w = Ok (out, w1) ->
  heap w1 = heap w /\ ticks w1 = ticks w.
Proof.
  unfold ask_json, mbind, call_backend, mret.
  destruct (enabled g); cbv zeta; cbn [negb]; [|now intros [= <- <-]].
  destruct (generate_content g _ _); [discriminate|].
  destruct (json_loads lib _); [now intros [= <- <-]|].
  destruct (Str.find _ _); [|now intros [= <- <-]].
  destruct (Str.rfind _ _); [|now intros [= <- <-]].
  destruct (_ <? _)%nat; [|now intros [= <- <-]].
  destruct (json_loads lib _); now intros [= <- <-].
Qed.

End Adapter.

(** C2: with a credential set and a backend that cannot be reached, the
    failure of the transport leaves [ask_json] as an exception instead of
    [None]: the call to the backend is made before the [try]. *)
Theorem ask_json_raises_on_transport_failure (lib : PyLib) (sp uc : string) (w : world) :
  ask_json lib Sample.g_down sp uc w = Raise BackendError.
Proof. now apply ask_json_transport_failure. Qed.

(** ** Backend first, fallback otherwise *)

Section Steps.

Variable lib : PyLib.

Lemma missing_required_dict keys out :
  missing_required keys out = true ->
  exists kvs, out = PDict kvs /\ forallb (fun k => Py.has_key k kvs) keys = false.
Proof.
  destruct out; try discriminate. cbn. intros H.
  eexists; split; [reflexivity|]. now apply negb_true_iff.
Qed.

Lemma classify_disabled g text rating w :
  enabled g = false ->
  classify_with_gemini lib g text rating w = classify_fallback text rating w.
Proof. intros E. unfold classify_with_gemini. now rewrite E. Qed.

Lemma classify_missing_key g text rating w out w1 :
  enabled g = true ->
  ask_json lib g SYSTEM_CLASSIFIER
    (json_dumps lib (PDict [("text", text); ("rating", rating)])) w = Ok (out, w1) ->
  out = PNone \/ missing_required ["category"] out = true ->
  classify_with_gemini lib g text rating w = classify_fallback text rating w1.
Proof.
  intros E A H. unfold classify_with_gemini, mbind. rewrite E, A.
  destruct H as [->|H]; [reflexivity|].
  apply missing_required_dict in H as (kvs & -> & H). cbn in H.
  rewrite andb_true_r in H. now rewrite H.
Qed.

Lemma analyze_bug_disabled g text platform version w :
  enabled g = false ->
  analyze_bug_with_gemini lib g text platform version w
  = analyze_bug_fallback lib text platform version w.
Proof. intros E. unfold analyze_bug_with_gemini. now rewrite E. Qed.

Lemma analyze_bug_missing_key g text platform version w out w1 :
  enabled g = true ->
  ask_json lib g SYSTEM_BUG_ANALYZER
    (json_dumps lib (PDict [("text", text); ("platform", platform);
                            ("version", version)])) w = Ok (out, w1) ->
  out = PNone \/ missing_required ["severity"] out = true ->
  analyze_bug_with_gemini lib g text platform version w
  = analyze_bug_fallback lib text platform version w1.
Proof.
  intros E A H. unfold analyze_bug_with_gemini, mbind. rewrite E, A.
  destruct H as [->|H]; [reflexivity|].
  apply missing_required_dict in H as (kvs & -> & H). cbn in H.
  rewrite andb_true_r in H. now rewrite H.
Qed.

Lemma extract_feature_disabled g text w :
  enabled g = false ->
  extract_feature_with_gemini lib g text w = extract_feature_fallback text w.
Proof. intros E. unfold extract_feature_with_gemini. now rewrite E. Qed.

Lemma extract_feature_missing_key g text w out w1 :
  enabled g = true ->
  ask_json lib g SYSTEM_FEATURE_EXTRACTOR
    (json_dumps lib (PDict [("text", text)])) w = Ok (out, w1) ->
  out = PNone \/ missing_required ["impact"] out = true ->
  extract_feature_with_gemini lib g text w = extract_feature_fallback text w1.
Proof.
  intros E A H. unfold extract_feature_with_gemini, mbind. rewrite E, A.
  destruct H as [->|H]; [reflexivity|].
  apply missing_required_dict in H as (kvs & -> & H). cbn in H.
  rewrite andb_true_r in H. now rewrite H.
Qed.

Lemma compose_ticket_disabled g title_hint body_hint th bh w :
  enabled g = false ->
  Py.slice_to 120 title_hint = Ok th ->
  Py.slice_to 500 body_hint = Ok bh ->
  compose_ticket_with_gemini lib g title_hint body_hint w
  = compose_ticket_fallback title_hint body_hint w.
Proof.
  intros E T B. unfold compose_ticket_with_gemini, mbind, lift.
  now rewrite T, B, E.
Qed.

Lemma compose_ticket_missing_key g title_hint body_hint th bh w out w1 :
  enabled g = true ->
  Py.slice_to 120 title_hint = Ok th ->
  Py.slice_to 500 body_hint = Ok bh ->
  ask_json lib g SYSTEM_TICKET_CREATOR
    (json_dumps lib (PDict [("title_hint", th); ("body_hint", bh)])) w = Ok (out, w1) ->
  out = PNone \/ missing_required ["title"; "body"] out = true ->
  compose_ticket_with_gemini lib g title_hint body_hint w
  = compose_ticket_fallback title_hint body_hint w1.
Proof.
  intros E T B A H. unfold compose_ticket_with_gemini, mbind, lift.
  rewrite T, B, E, A.
  destruct H as [->|H]; [reflexivity|].
  apply missing_required_dict in H as (kvs & -> & H). cbn in H.
  rewrite andb_true_r in H. now rewrite H.
Qed.

(** What the fallbacks return on a text that is a string: the result of
    the rule, in the world as it is. *)
Lemma classify_fallback_str (text : string) rating w :
  classify_fallback (PStr text) rating w
  = match fallback_classify text rating with
    | Ok c => Ok ((PStr (fst (fst c)), snd (fst c), PStr (snd c)), w)
    | Raise e => Raise e
    end.
Proof.
  unfold classify_fallback, lift. cbn [as_text rbind].
  now destruct (fallback_classify text rating).
Qed.

Lemma analyze_bug_fallback_str (text : string) platform version w :
  analyze_bug_fallback lib (PStr text) platform version w
  = Ok ((PStr (fst (fst (fallback_bug_analysis lib text platform version))),
         PStr (snd (fst (fallback_bug_analysis lib text platform version))),
         PStr (snd (fallback_bug_analysis lib text platform version))), w).
Proof. reflexivity. Qed.

Lemma extract_feature_fallback_str (text : string) w :
  extract_feature_fallback (PStr text) w
  = Ok ((PStr (fst (fst (fallback_feature text))),
         PStr (snd (fst (fallback_feature text))),
         PStr (snd (fallback_feature text))), w).
Proof. reflexivity. Qed.

Lemma compose_ticket_fallback_spec title_hint body_hint w :
  compose_ticket_fallback title_hint body_hint w
  = (do t <- Py.slice_to 80 title_hint;
     do b <- Py.slice_to 400 body_hint;
     Ok ((t, b), w))%result.
Proof.
  unfold compose_ticket_fallback, mbind, lift, mret, rbind.
  destruct (Py.slice_to 80 title_hint); [|reflexivity].
  now destruct (Py.slice_to 400 body_hint).
Qed.

End Steps.

(** C7: at each decision step with a required key (classify: category,
    analyze-bug: severity, extract-feature: impact, compose: title and
    body), a backend reply that parses to an object without that key is
    handled as an unavailable backend is. Classify returns the result of
    [fallback_classify] on the text and the rating (its exception, when
    the rule raises on the rating), analyze-bug the result of
    [fallback_bug_analysis], extract-feature the result of
    [fallback_feature], and compose the hints cut at 80 and at 400; the
    world is the one the backend call left. A client without credential
    returns the same at that point. *)
Theorem missing_required_key_falls_back
    (lib : PyLib) (g g' : GeminiClient) (w w1 : world) (out : pyval) :
  enabled g = true ->
  enabled g' = false ->
  (forall (text : string) (rating : pyval),
      ask_json lib g SYSTEM_CLASSIFIER
        (json_dumps lib (PDict [("text", PStr text); ("rating", rating)])) w = Ok (out, w1) ->
      missing_required ["category"] out = true ->
      classify_with_gemini lib g (PStr text) rating w
      = match fallback_classify text rating with
        | Ok c => Ok ((PStr (fst (fst c)), snd (fst c), PStr (snd c)), w1)
        | Raise e => Raise e
        end
      /\ classify_with_gemini lib g' (PStr text) rating w1
         = classify_with_gemini lib g (PStr text) rating w)
  /\ (forall (text : string) (platform version : pyval),
      ask_json lib g SYSTEM_BUG_ANALYZER
        (json_dumps lib (PDict [("text", PStr text); ("platform", platform);
                                ("version", version)])) w = Ok (out, w1) ->
      missing_required ["severity"] out = true ->
      analyze_bug_with_gemini lib g (PStr text) platform version w
      = Ok ((PStr (fst (fst (fallback_bug_analysis lib text platform version))),
             PStr (snd (fst (fallback_bug_analysis lib text platform version))),
             PStr (snd (fallback_bug_analysis lib text platform version))), w1)
      /\ analyze_bug_with_gemini lib g' (PStr text) platform version w1
         = analyze_bug_with_gemini lib g (PStr text) platform version w)
  /\ (forall text : string,
      ask_json lib g SYSTEM_FEATURE_EXTRACTOR
        (json_dumps lib (PDict [("text", PStr text)])) w = Ok (out, w1) ->
      missing_required ["impact"] out = true ->
      extract_feature_with_gemini lib g (PStr text) w
      = Ok ((PStr (fst (fst (fallback_feature text))),
             PStr (snd (fst (fallback_feature text))),
             PStr (snd (fallback_feature text))), w1)
      /\ extract_feature_with_gemini lib g' (PStr text) w1
         = extract_feature_with_gemini lib g (PStr text) w)
  /\ (forall title_hint body_hint th bh : pyval,
      Py.slice_to 120 title_hint = Ok th ->
      Py.slice_to 500 body_hint = Ok bh ->
      ask_json lib g SYSTEM_TICKET_CREATOR
        (json_dumps lib (PDict [("title_hint", th); ("body_hint", bh)])) w = Ok (out, w1) ->
      missing_required ["title"; "body"] out = true ->
      compose_ticket_with_gemini lib g title_hint body_hint w
      = (do t <- Py.slice_to 80 title_hint;
         do b <- Py.slice_to 400 body_hint;
         Ok ((t, b), w1))%result
      /\ compose_ticket_with_gemini lib g' title_hint body_hint w1
         = compose_ticket_with_gemini lib g title_hint body_hint w)
  /\ (forall title_hint body_hint : string,
      ask_json lib g SYSTEM_TICKET_CREATOR
        (json_dumps lib (PDict [("title_hint", PStr (Str.take 120 title_hint));
                                ("body_hint", PStr (Str.take 500 body_hint))])) w
      = Ok (out, w1) ->
      missing_required ["title"; "body"] out = true ->
      compose_ticket_with_gemini lib g (PStr title_hint) (PStr body_hint) w
      = Ok ((PStr (Str.take 80 title_hint), PStr (Str.take 400 body_hint)), w1)).
Proof.
  intros E E'. split; [|split; [|split; [|split]]].
  - intros text rating A H.
    rewrite (classify_missing_key lib g (PStr text) rating w out w1 E A (or_intror H)).
    rewrite (classify_disabled lib g' (PStr text) rating w1 E').
    split; [apply classify_fallback_str | reflexivity].
  - intros text platform version A H.
    rewrite (analyze_bug_missing_key lib g (PStr text) platform version w out w1 E A
               (or_intror H)).
    rewrite (analyze_bug_disabled lib g' (PStr text) platform version w1 E').
    split; [apply analyze_bug_fallback_str | reflexivity].
  - intros text A H.
    rewrite (extract_feature_missing_key lib g (PStr text) w out w1 E A (or_intror H)).
    rewrite (extract_feature_disabled lib g' (PStr text) w1 E').
    split; [apply extract_feature_fallback_str | reflexivity].
  - intros title_hint body_hint th bh T B A H.
    rewrite (compose_ticket_missing_key lib g title_hint body_hint th bh w out w1
               E T B A (or_intror H)).
    rewrite (compose_ticket_disabled lib g' title_hint body_hint th bh w1 E' T B).
    split; [apply compose_ticket_fallback_spec | reflexivity].
  - intros title_hint body_hint A H.
    rewrite (compose_ticket_missing_key lib g (PStr title_hint) (PStr body_hint)
               _ _ w out w1 E eq_refl eq_refl A (or_intror H)).
    apply compose_ticket_fallback_spec.
Qed.

Lemma missing_required_key_falls_back_witness :
  value_of (classify_with_gemini Sample.lib Sample.g_empty (PStr "it is slow") PNone Sample.w0)
  = Ok (PStr "Complaint", 0.7%float, PStr "complaint trigger")
  /\ value_of (analyze_bug_with_gemini Sample.lib Sample.g_empty
                 (PStr "App crashes on login") (PStr "iOS") (PStr "2.1") Sample.w0)
     = Ok (PStr "High",
           PStr "Platform=iOS; Version=2.1; Summary=App crashes on login",
           PStr "rule-based severity")
  /\ value_of (extract_feature_with_gemini Sample.lib Sample.g_empty
                 (PStr "Please add a calendar") Sample.w0)
     = Ok (PStr "High", PStr "Feature: Please add a calendar", PStr "high-impact trigger")
  /\ value_of (compose_ticket_with_gemini Sample.lib Sample.g_empty
                 (PStr (Sample.digits 9)) (PStr (Sample.digits 45)) Sample.w0)
     = Ok (PStr (Sample.digits 8), PStr (Sample.digits 40)).
Proof.
  destruct (missing_required_key_falls_back Sample.lib Sample.g_empty Sample.g_off
              Sample.w0 (bump Sample.w0) (PDict []) eq_refl eq_refl)
    as (Hc & Hb & Hf & _ & Ht).
  split; [|split; [|split]].
  - destruct (Hc "it is slow" PNone eq_refl eq_refl) as [-> _]. reflexivity.
  - destruct (Hb "App crashes on login" (PStr "iOS") (PStr "2.1") eq_refl eq_refl)
      as [-> _]. reflexivity.
  - destruct (Hf "Please add a calendar" eq_refl eq_refl) as [-> _]. reflexivity.
  - rewrite (Ht (Sample.digits 9) (Sample.digits 45) eq_refl eq_refl). reflexivity.
Defined.

(** C8: the fallback classifier is a function of the text and the rating
    alone. Two evaluations on identical inputs give the same category,
    confidence and rationale; in fallback mode this is what Classify
    returns, whatever the client, the store, the number of backend calls
    made and the clock are. *)
Theorem fallback_classify_deterministic
    (lib : PyLib) (text1 text2 : string) (rating1 rating2 : pyval)
    (g1 g2 : GeminiClient) (w1 w2 : world) :
  text1 = text2 ->
  rating1 = rating2 ->
  enabled g1 = false ->
  enabled g2 = false ->
  fallback_classify text1 rating1 = fallback_classify text2 rating2
  /\ value_of (classify_with_gemini lib g1 (PStr text1) rating1 w1)
     = value_of (classify_with_gemini lib g2 (PStr text2) rating2 w2).
Proof.
  intros -> -> E1 E2. split; [reflexivity|].
  rewrite !classify_disabled by assumption.
  rewrite !classify_fallback_str. unfold value_of.
  now destruct (fallback_classify text2 rating2).
Qed.

Lemma fallback_classify_deterministic_witness :
  value_of (classify_with_gemini Sample.lib Sample.g_off (PStr "works great") (PInt 5)
              Sample.w0)
  = value_of (classify_with_gemini Sample.lib
                (GeminiClient_init (Some "  ") (fun _ _ => ReplyText (Some "{}")))
                (PStr "works great") (PInt 5)
                (Sample.world_of (Sample.ticket_of "Bug" "High"))).
Proof.
  apply (fallback_classify_deterministic Sample.lib "works great" "works great"
           (PInt 5) (PInt 5)); reflexivity.
Defined.

(** ** The critic *)

Section Critic.

Variable lib : PyLib.

(** The fallback block allocates one dictionary, the corrected copy, and
    writes to nothing else. *)
Lemma critic_fallback_spec (ticket : loc) (w : world) (d : gmap string pyval) :
  heap w !! ticket = Some d ->
  critic_fallback ticket w = Ok (length (heap w), extend w (critic_rule d)).
Proof.
  intros H.
  unfold critic_fallback, Store.copy, mbind, Store.read, Store.alloc, Store.setitem, mret.
  rewrite H. cbn [heap calls ticks].
  rewrite list_lookup_middle by reflexivity. cbv beta iota.
  unfold critic_rule, violates, extend.
  destruct (Py.in_strs _ _ && Py.in_strs _ _); [|reflexivity].
  cbn [heap calls ticks].
  rewrite list_lookup_middle by reflexivity. cbv beta iota.
  do 3 f_equal.
  replace (length (heap w)) with (length (heap w) + 0)%nat at 1 by lia.
  now rewrite insert_app_r.
Qed.

Lemma critic_on_fallback_path g ticket w w1 :
  fallback_path lib g ticket w w1 ->
  critic_with_gemini lib g ticket w = critic_fallback ticket w1.
Proof.
  intros [[E ->]|(E & d & out & H & A & N)]; unfold critic_with_gemini; rewrite E.
  - reflexivity.
  - unfold mbind, Store.read. rewrite H, A.
    destruct out; try reflexivity. now destruct (N kvs).
Qed.

Lemma fallback_path_heap g ticket w w1 :
  fallback_path lib g ticket w w1 -> heap w1 = heap w.
Proof.
  intros [[_ ->]|(_ & d & out & _ & A & _)]; [reflexivity|].
  now apply ask_json_frame in A.
Qed.

(** The critic on its fallback path, in one equation. *)
Lemma critic_fallback_path_spec g ticket w w1 d :
  fallback_path lib g ticket w w1 ->
  heap w !! ticket = Some d ->
  critic_with_gemini lib g ticket w
  = Ok (length (heap w), extend w1 (critic_rule d))
  /\ heap (extend w1 (critic_rule d)) = (heap w ++ [critic_rule d])%list.
Proof.
  intros P H. pose proof (fallback_path_heap _ _ _ _ P) as Hh.
  rewrite (critic_on_fallback_path _ _ _ _ P).
  rewrite (critic_fallback_spec ticket w1 d) by now rewrite Hh.
  cbn [extend heap]. now rewrite Hh.
Qed.

Lemma get_insert_priority (d : gmap string pyval) (v : pyval) :
  Store.get (<["priority" := v]> d) "priority" = v.
Proof. unfold Store.get. now rewrite lookup_insert_eq. Qed.

(** The rule leaves a ticket that satisfies the constraint. *)
Lemma critic_rule_compliant (d : gmap string pyval) : compliant (critic_rule d) = true.
Proof.
  unfold compliant, critic_rule. destruct (violates d) eqn:V.
  - unfold violates. rewrite get_insert_priority. cbn.
    now rewrite andb_false_r.
  - now rewrite V.
Qed.

Lemma critic_rule_id (d : gmap string pyval) : compliant d = true -> critic_rule d = d.
Proof.
  unfold compliant, critic_rule. now destruct (violates d).
Qed.

Lemma critic_rule_idempotent (d : gmap string pyval) :
  critic_rule (critic_rule d) = critic_rule d.
Proof. apply critic_rule_id, critic_rule_compliant. Qed.

Lemma critic_rule_frame (d : gmap string pyval) (k : string) :
  k <> "priority" -> critic_rule d !! k = d !! k.
Proof.
  intros N. unfold critic_rule. destruct (violates d); [|reflexivity].
  now rewrite lookup_insert_ne.
Qed.

End Critic.

(** ** From a row to its ticket *)

Section Rows.

Variable lib : PyLib.

Lemma Ticket_dict_lookup (t : Ticket) :
  Ticket_dict t !! "category" = Some (category t)
  /\ Ticket_dict t !! "priority" = Some (PStr (priority t))
  /\ Ticket_dict t !! "source_id" = Some (PStr (source_id t))
  /\ Ticket_dict t !! "confidence" = Some (PFloat (confidence t)).
Proof. repeat split; vm_compute; reflexivity. Qed.

Lemma create_ticket_fields fid st cat prio ti td conf lb w t w' :
  create_ticket lib fid st cat prio ti td conf lb w = Ok (t, w') ->
  category t = cat /\ priority t = prio /\ confidence t = conf
  /\ ticket_id t = ("T" ++ source_id t)%string.
Proof.
  unfold create_ticket, mbind, datetime_now, mret. intros [= <- <-]. cbn. auto.
Qed.

(** The branch logic gives a Spam or Praise ticket the priority Low,
    with or without the backend. *)
Lemma row_to_ticket_spam_praise_low g row st w t w' :
  row_to_ticket lib g row st w = Ok (t, w') ->
  Py.in_strs (category t) ["Spam"; "Praise"] = true ->
  priority t = "Low".
Proof.
  unfold row_to_ticket, mbind, lift. intros H Hc. cbv zeta in H.
  destruct (classify_with_gemini _ _ _ _ _) as [[[[cat conf] rat] w1]|]; [|discriminate].
  destruct (Py.slice_to 72 _) as [t72|]; [|discriminate].
  destruct (Py.slice_to 240 _) as [t240|]; [|discriminate].
  cbn [fst snd] in H.
  destruct (Py.eq_str cat "Bug") eqn:EB;
    [|destruct (Py.eq_str cat "Feature Request") eqn:EF;
      [|destruct (Py.eq_str cat "Complaint") eqn:EC;
        [|destruct (Py.eq_str cat "Praise") eqn:EP;
          [|destruct (Py.eq_str cat "Spam") eqn:ES]]]].
  all: match type of H with
       | match ?br with _ => _ end = _ =>
           destruct br as [[b w2]|] eqn:Hbr; [|discriminate]
       end.
  all: destruct (compose_ticket_with_gemini _ _ _ _ _) as [[tb w3]|]; [|discriminate].
  all: apply create_ticket_fields in H as (Hcat & Hprio & _).
  all: rewrite Hcat in Hc; rewrite Hprio.
  all: try (apply eq_str_true in EB; subst cat; discriminate).
  all: try (apply eq_str_true in EF; subst cat; discriminate).
  all: try (apply eq_str_true in EC; subst cat; discriminate).
  - unfold mret in Hbr. now injection Hbr as <- _.
  - unfold mret in Hbr. now injection Hbr as <- _.
  - cbn in Hc. rewrite EP, ES in Hc. discriminate.
Qed.

Lemma critic_rule_priority (d : gmap string pyval) (p : pyval) :
  d !! "priority" = Some p ->
  critic_rule d !! "priority" = Some (if violates d then PStr "Low" else p).
Proof.
  intros H. unfold critic_rule. destruct (violates d); [|exact H].
  apply lookup_insert_eq.
Qed.

(** One turn of the loop of [main] without credential: the ticket is
    stored, the critic stores its corrected copy, the log entry is read
    from the copy. *)
Lemma process_row_fallback g st row w t w1 :
  enabled g = false ->
  row_to_ticket lib g row st w = Ok (t, w1) ->
  process_row lib g st row w
  = Ok ((S (length (heap w1)),
         [("source_id", PStr (source_id t)); ("source_type", PStr st);
          ("category", category t);
          ("priority", if violates (Ticket_dict t) then PStr "Low" else PStr (priority t));
          ("confidence", PFloat (confidence t))]),
        extend (extend w1 (Ticket_dict t)) (critic_rule (Ticket_dict t))).
Proof.
  intros E H. unfold process_row.
  destruct (Ticket_dict_lookup t) as (Hc & Hp & Hs & Hf).
  erewrite mbind_ok by exact H.
  erewrite mbind_ok by reflexivity.
  erewrite mbind_ok; cycle 1.
  { apply critic_fallback_path_spec.
    - left. split; [exact E | reflexivity].
    - apply list_lookup_middle. reflexivity. }
  erewrite mbind_ok; cycle 1.
  { unfold Store.read. cbn [heap extend].
    rewrite list_lookup_middle by reflexivity. reflexivity. }
  unfold getitem.
  rewrite (critic_rule_frame (Ticket_dict t) "source_id"), Hs by discriminate.
  rewrite mbind_lift.
  rewrite (critic_rule_frame (Ticket_dict t) "category"), Hc by discriminate.
  rewrite mbind_lift.
  rewrite (critic_rule_priority _ _ Hp), mbind_lift.
  rewrite (critic_rule_frame (Ticket_dict t) "confidence"), Hf by discriminate.
  rewrite mbind_lift. unfold mret. cbn [heap extend].
  rewrite length_app. cbn [length]. do 3 f_equal. lia.
Qed.

(** Scenario A, the row: the ticket is a Bug of priority High. *)
Lemma scenario_A_row_to_ticket g row st w :
  enabled g = false ->
  row !! "review_text" = Some (PStr Sample.scenario_A_text) ->
  row !! "rating" = None ->
  exists t w',
    row_to_ticket lib g row st w = Ok (t, w')
    /\ category t = PStr "Bug"
    /\ confidence t = 0.9%float
    /\ priority t = "High".
Proof.
  intros E Ht Hr. unfold row_to_ticket.
  rewrite (row_get_Some _ _ _ _ Ht), (row_get_None _ _ _ Hr).
  rewrite !or_else_truthy by reflexivity. cbv zeta.
  erewrite mbind_ok; cycle 1.
  { rewrite classify_disabled by assumption.
    change (classify_fallback (PStr Sample.scenario_A_text) PNone w)
      with (Ok ((PStr "Bug", 0.9%float, PStr "bug trigger"), w)).
    reflexivity. }
  cbn [Py.slice_to]. rewrite !mbind_lift.
  cbn [fst snd Py.eq_str String.eqb Ascii.eqb Bool.eqb].
  erewrite mbind_ok; cycle 1.
  { erewrite mbind_ok; cycle 1.
    { rewrite analyze_bug_disabled by assumption. apply analyze_bug_fallback_str. }
    cbn [fst snd fallback_bug_analysis].
    change (Str.isin "crash" (Str.lower Sample.scenario_A_text)) with true.
    cbn [orb table_get List.find fst snd String.eqb Ascii.eqb Bool.eqb].
    rewrite mbind_lift. reflexivity. }
  cbn [fst snd].
  erewrite mbind_ok; cycle 1.
  { erewrite compose_ticket_disabled by (assumption || reflexivity). reflexivity. }
  unfold create_ticket, datetime_now.
  erewrite mbind_ok by reflexivity. unfold mret.
  eexists _, _. split; [reflexivity|]. cbn. auto.
Qed.

End Rows.

(** C6: scenario A in fallback mode. For the text "App crashes on login,
    lost all my data" and no rating, Classify gives Bug with confidence
    0.9, AnalyzeBug gives severity High whatever the platform and version
    are, and the ticket built for a row with this text and no rating is a
    Bug of priority High; so is its entry in the processing log after the
    critic. *)
Theorem scenario_A_bug_high
    (lib : PyLib) (g : GeminiClient) (row : gmap string pyval) (st : string) (w : world) :
  enabled g = false ->
  row !! "review_text" = Some (PStr "App crashes on login, lost all my data") ->
  row !! "rating" = None ->
  fallback_classify "App crashes on login, lost all my data" PNone
  = Ok ("Bug", 0.9%float, "bug trigger")
  /\ (forall platform version,
        fst (fst (fallback_bug_analysis lib "App crashes on login, lost all my data"
                    platform version)) = "High")
  /\ (exists t w',
        row_to_ticket lib g row st w = Ok (t, w')
        /\ category t = PStr "Bug" /\ confidence t = 0.9%float /\ priority t = "High")
  /\ (exists td entry w',
        process_row lib g st row w = Ok ((td, entry), w')
        /\ Py.assoc "category" entry = Some (PStr "Bug")
        /\ Py.assoc "priority" entry = Some (PStr "High")).
Proof.
  intros E Ht Hr.
  destruct (scenario_A_row_to_ticket lib g row st w E Ht Hr) as (t & w1 & H & Hc & Hf & Hp).
  split; [reflexivity|]. split; [reflexivity|]. split; [eauto 10|].
  eexists _, _, _. split; [apply (process_row_fallback lib g st row w t w1 E H)|].
  assert (V : violates (Ticket_dict t) = false).
  { unfold violates, Store.get.
    destruct (Ticket_dict_lookup t) as (-> & _). now rewrite Hc. }
  rewrite V, Hc, Hp. split; reflexivity.
Qed.

Lemma scenario_A_bug_high_witness :
  exists t w',
    row_to_ticket Sample.lib Sample.g_off Sample.row_A "App Store Review" Sample.w0 = Ok (t, w')
    /\ category t = PStr "Bug" /\ confidence t = 0.9%float /\ priority t = "High".
Proof.
  exact (proj1 (proj2 (proj2
           (scenario_A_bug_high Sample.lib Sample.g_off Sample.row_A "App Store Review"
              Sample.w0 eq_refl eq_refl eq_refl)))).
Defined.

(** ** The critic: priority of Spam and Praise tickets *)

(** C1, as stated, fails: a Spam ticket of priority Medium goes through
    the critic without credential and keeps Medium. *)
Lemma critic_priority_not_always_low :
  ~ (forall (g : GeminiClient) (ticket : loc) (w w' : world) (t' : loc)
            (d d' : gmap string pyval),
        heap w !! ticket = Some d ->
        Py.in_strs (Store.get d "category") ["Spam"; "Praise"] = true ->
        critic_with_gemini Sample.lib g ticket w = Ok (t', w') ->
        heap w' !! t' = Some d' ->
        Store.get d' "priority" = PStr "Low").
Proof.
  intros H.
  specialize (H Sample.g_off 0%nat (Sample.world_of (Sample.ticket_of "Spam" "Medium"))
                (extend (Sample.world_of (Sample.ticket_of "Spam" "Medium"))
                        (Sample.ticket_of "Spam" "Medium"))
                1%nat (Sample.ticket_of "Spam" "Medium") (Sample.ticket_of "Spam" "Medium")
                eq_refl eq_refl eq_refl eq_refl).
  vm_compute in H. discriminate H.
Qed.

(** On the backend path the reply is merged as it is: a Spam ticket of
    priority Low leaves the critic with priority High when the backend
    says so. *)
Example critic_backend_can_raise_priority :
  exists t' w' d',
    critic_with_gemini Sample.lib Sample.g_high 0%nat
      (Sample.world_of (Sample.ticket_of "Spam" "Low")) = Ok (t', w')
    /\ heap w' !! t' = Some d'
    /\ Store.get d' "category" = PStr "Spam"
    /\ Store.get d' "priority" = PStr "High".
Proof.
  eexists _, _, _. split; [vm_compute; reflexivity|].
  split; [reflexivity|]. split; vm_compute; reflexivity.
Qed.

(** On the backend path an approved ticket is returned as the same
    object, not as a copy: nothing is allocated. *)
Example critic_backend_ok_returns_same_object :
  exists w',
    critic_with_gemini Sample.lib Sample.g_ok 0%nat
      (Sample.world_of (Sample.ticket_of "Bug" "High")) = Ok (0%nat, w')
    /\ heap w' = [Sample.ticket_of "Bug" "High"].
Proof. eexists. split; [vm_compute; reflexivity | reflexivity]. Qed.

(** C1, amended: on its fallback path the critic forces the priority to
    Low exactly when the category is Spam or Praise and the priority is
    High or Critical, and leaves the items of the ticket as they are
    otherwise. So a Spam or Praise ticket never leaves it with priority
    High or Critical, and leaves it with Low when it came with Low, High or
    Critical. The tickets that [row_to_ticket] builds for Spam and Praise
    have priority Low, so that without credential the log entry of every
    Spam or Praise row has priority Low. *)
Theorem critic_spam_praise_priority
    (lib : PyLib) (g : GeminiClient) (ticket : loc) (w w1 : world)
    (d : gmap string pyval) :
  fallback_path lib g ticket w w1 ->
  heap w !! ticket = Some d ->
  (exists t' w' d',
      critic_with_gemini lib g ticket w = Ok (t', w')
      /\ heap w' !! t' = Some d'
      /\ (violates d = true -> d' = <["priority" := PStr "Low"]> d)
      /\ (violates d = false -> d' = d)
      /\ (Py.in_strs (Store.get d' "category") ["Spam"; "Praise"] = true ->
          Py.in_strs (Store.get d' "priority") ["High"; "Critical"] = false)
      /\ (Py.in_strs (Store.get d "category") ["Spam"; "Praise"] = true ->
          Py.in_strs (Store.get d "priority") ["Low"; "High"; "Critical"] = true ->
          Store.get d' "priority" = PStr "Low"))
  /\ (forall row st wr t wr',
        row_to_ticket lib g row st wr = Ok (t, wr') ->
        Py.in_strs (category t) ["Spam"; "Praise"] = true ->
        priority t = "Low")
  /\ (forall row st wr td entry wr',
        enabled g = false ->
        process_row lib g st row wr = Ok ((td, entry), wr') ->
        Py.in_strs (Py.get_default "category" PNone entry) ["Spam"; "Praise"] = true ->
        Py.assoc "priority" entry = Some (PStr "Low")).
Proof.
  intros P H. split; [|split].
  - destruct (critic_fallback_path_spec lib g ticket w w1 d P H) as [Hc Hh].
    eexists _, _, (critic_rule d). split; [exact Hc|].
    split; [rewrite Hh; now apply list_lookup_middle|].
    split; [|split; [|split]].
    + intros V. unfold critic_rule. now rewrite V.
    + intros V. unfold critic_rule. now rewrite V.
    + intros C. pose proof (critic_rule_compliant (critic_rule d)) as K.
      rewrite critic_rule_idempotent in K. unfold compliant, violates in K.
      rewrite C in K. cbn [andb] in K. now apply negb_true_iff in K.
    + intros C L. unfold critic_rule, violates. rewrite C. cbn [andb].
      destruct (Py.in_strs (Store.get d "priority") ["High"; "Critical"]) eqn:HC.
      * apply get_insert_priority.
      * destruct (Store.get d "priority") as [| | | |p| |]; try discriminate.
        cbn in L, HC. rewrite orb_false_r in L, HC. rewrite HC in L.
        rewrite orb_false_r in L. apply String.eqb_eq in L. now subst.
  - intros row st wr t wr'. apply row_to_ticket_spam_praise_low.
  - intros row st wr td entry wr' E R C.
    destruct (row_to_ticket lib g row st wr) as [[t w2]|e] eqn:Ht.
    + rewrite (process_row_fallback lib g st row wr t w2 E Ht) in R.
      injection R as _ <- _. cbn in C.
      pose proof (row_to_ticket_spam_praise_low lib g row st wr t w2 Ht C) as L.
      assert (V : violates (Ticket_dict t) = false).
      { unfold violates, Store.get.
        destruct (Ticket_dict_lookup t) as (_ & -> & _). rewrite L.
        cbn. apply andb_false_r. }
      cbn. now rewrite V, L.
    + unfold process_row in R. unfold mbind at 1 in R. now rewrite Ht in R.
Qed.

Lemma critic_spam_praise_priority_witness :
  exists t' w' d',
    critic_with_gemini Sample.lib Sample.g_off 0%nat
      (Sample.world_of (Sample.ticket_of "Praise" "Critical")) = Ok (t', w')
    /\ heap w' !! t' = Some d'
    /\ Store.get d' "priority" = PStr "Low".
Proof.
  destruct (critic_spam_praise_priority Sample.lib Sample.g_off 0%nat
              (Sample.world_of (Sample.ticket_of "Praise" "Critical"))
              (Sample.world_of (Sample.ticket_of "Praise" "Critical"))
              (Sample.ticket_of "Praise" "Critical")
              (or_introl (conj eq_refl eq_refl)) eq_refl)
    as [(t' & w' & d' & Hc & Hd & _ & _ & _ & Hl) _].
  exists t', w', d'. split; [exact Hc|]. split; [exact Hd|].
  apply Hl; reflexivity.
Defined.

(** C9: the fallback rule of the critic is idempotent. A ticket that
    satisfies the Spam/Praise priority constraint comes back with the same
    items, and a second application gives the items of the first. *)
Theorem critic_fallback_idempotent
    (lib : PyLib) (g : GeminiClient) (ticket : loc) (w w1 : world)
    (d : gmap string pyval) :
  fallback_path lib g ticket w w1 ->
  heap w !! ticket = Some d ->
  exists t1 w' d1,
    critic_with_gemini lib g ticket w = Ok (t1, w')
    /\ heap w' !! t1 = Some d1
    /\ (compliant d = true -> d1 = d)
    /\ (forall w1', fallback_path lib g t1 w' w1' ->
          exists t2 w'',
            critic_with_gemini lib g t1 w' = Ok (t2, w'')
            /\ heap w'' !! t2 = Some d1).
Proof.
  intros P H.
  destruct (critic_fallback_path_spec lib g ticket w w1 d P H) as [Hc Hh].
  assert (Hd : heap (extend w1 (critic_rule d)) !! length (heap w) = Some (critic_rule d)).
  { rewrite Hh. now apply list_lookup_middle. }
  eexists _, _, (critic_rule d). split; [exact Hc|]. split; [exact Hd|].
  split; [apply critic_rule_id|].
  intros w1' P'.
  destruct (critic_fallback_path_spec lib g _ _ w1' _ P' Hd) as [Hc' Hh'].
  eexists _, _. split; [exact Hc'|].
  rewrite Hh', critic_rule_idempotent. now apply list_lookup_middle.
Qed.

Lemma critic_fallback_idempotent_witness :
  exists t1 w' d1,
    critic_with_gemini Sample.lib Sample.g_off 0%nat
      (Sample.world_of (Sample.ticket_of "Spam" "Low")) = Ok (t1, w')
    /\ heap w' !! t1 = Some d1
    /\ d1 = Sample.ticket_of "Spam" "Low".
Proof.
  destruct (critic_fallback_idempotent Sample.lib Sample.g_off 0%nat
              (Sample.world_of (Sample.ticket_of "Spam" "Low"))
              (Sample.world_of (Sample.ticket_of "Spam" "Low"))
              (Sample.ticket_of "Spam" "Low")
              (or_introl (conj eq_refl eq_refl)) eq_refl)
    as (t1 & w' & d1 & Hc & Hd & Hid & _).
  exists t1, w', d1. split; [exact Hc|]. split; [exact Hd|].
  apply Hid. reflexivity.
Defined.

(** C10: on its fallback path the critic returns a new dictionary, which
    agrees with the ticket on every key other than priority; the ticket
    itself and every other object of the store are as they were, also when
    the priority is forced to Low. *)
Theorem critic_fallback_frame
    (lib : PyLib) (g : GeminiClient) (ticket : loc) (w w1 : world)
    (d : gmap string pyval) :
  fallback_path lib g ticket w w1 ->
  heap w !! ticket = Some d ->
  exists t' w' d',
    critic_with_gemini lib g ticket w = Ok (t', w')
    /\ t' <> ticket
    /\ heap w !! t' = None
    /\ heap w' !! t' = Some d'
    /\ (forall k, k <> "priority" -> d' !! k = d !! k)
    /\ heap w' !! ticket = Some d
    /\ (forall l o, heap w !! l = Some o -> heap w' !! l = Some o).
Proof.
  intros P H.
  destruct (critic_fallback_path_spec lib g ticket w w1 d P H) as [Hc Hh].
  eexists _, _, (critic_rule d). split; [exact Hc|].
  split; [apply lookup_lt_Some in H; lia|].
  split; [now apply lookup_ge_None_2|].
  split; [rewrite Hh; now apply list_lookup_middle|].
  split; [intros k; apply critic_rule_frame|].
  split; [rewrite Hh; now apply lookup_app_l_Some|].
  intros l o Hl. rewrite Hh. now apply lookup_app_l_Some.
Qed.

Lemma critic_fallback_frame_witness :
  exists t' w' d',
    critic_with_gemini Sample.lib Sample.g_off 0%nat
      (Sample.world_of (Sample.ticket_of "Spam" "High")) = Ok (t', w')
    /\ t' <> 0%nat
    /\ heap w' !! t' = Some d'
    /\ d' !! "category" = Some (PStr "Spam")
    /\ heap w' !! 0%nat = Some (Sample.ticket_of "Spam" "High").
Proof.
  destruct (critic_fallback_frame Sample.lib Sample.g_off 0%nat
              (Sample.world_of (Sample.ticket_of "Spam" "High"))
              (Sample.world_of (Sample.ticket_of "Spam" "High"))
              (Sample.ticket_of "Spam" "High")
              (or_introl (conj eq_refl eq_refl)) eq_refl)
    as (t' & w' & d' & Hc & Hne & _ & Hd & Hk & Ht & _).
  exists t', w', d'. split; [exact Hc|]. split; [exact Hne|]. split; [exact Hd|].
  split; [|exact Ht].
  rewrite Hk by discriminate. reflexivity.
Defined.

(** ** Metrics *)

Section Metrics.

Variable lib : PyLib.

Lemma count_categories_ok log ks m col :
  df_getitem log "category" = Ok col ->
  count_categories log ks m
  = Ok (fold_left (fun acc k => dict_set (metric_key k) (count_of col k) acc) ks m).
Proof.
  intros H. revert m.
  induction ks as [|k ks IH]; intros m; cbn [count_categories fold_left].
  - reflexivity.
  - rewrite H. cbn [rbind]. apply IH.
Qed.

(** The summary, once the category column is known to be there. *)
Lemma compute_metrics_unfold log expected col :
  df_getitem log "category" = Ok col ->
  compute_metrics lib log expected
  = (do avg <- mean_confidence lib log;
     do metrics <-
       match expected with
       | Some expected_ =>
           if has_column "category" expected_ then
             do merged <- df_merge lib log expected_ "source_id" "_expected";
             if has_column "category_expected" merged then
               do acc <- category_accuracy lib merged;
               Ok (metrics_base (df_len log) col avg
                   ++ [("category_accuracy", PFloat acc)])%list
             else Ok (metrics_base (df_len log) col avg)
           else Ok (metrics_base (df_len log) col avg)
       | None => Ok (metrics_base (df_len log) col avg)
       end;
     Ok (DataFrame_of_records [metrics]))%result.
Proof.
  intros H. unfold compute_metrics.
  rewrite (count_categories_ok _ _ _ _ H). cbn [rbind].
  destruct (mean_confidence lib log) as [avg|e]; reflexivity.
Qed.


Lemma col_index_nth c cols i : col_index c cols = Some i -> nth_error cols i = Some c.
Proof.
  revert i. induction cols as [|c' cols IH]; intros i; cbn [col_index]; [discriminate|].
  destruct (String.eqb c c') eqn:E.
  - intros [= <-]. apply String.eqb_eq in E. now subst.
  - destruct (col_index c cols) as [k|]; [|discriminate].
    intros [= <-]. now apply IH.
Qed.




Lemma df_getitem_length df c col : df_getitem df c = Ok col -> length col = df_len df.
Proof.
  unfold df_getitem, df_len. destruct (col_index c (columns df)); [|discriminate].
  intros [= <-]. apply length_map.
Qed.


Lemma is_str_spec v : is_str v = true <-> exists s, v = PStr s.
Proof.
  split; [|now intros [s ->]].
  destruct v; try discriminate. eauto.
Qed.

Lemma is_number_spec v :
  is_number v = true
  <-> (exists z, v = PInt z /\ (- 2 ^ 63 <= z < 2 ^ 63)%Z) \/ (exists f, v = PFloat f).
Proof.
  split.
  - destruct v; try discriminate; cbn; [|eauto].
    intros H. apply andb_true_iff in H as [H1 H2].
    apply Z.leb_le in H1. apply Z.ltb_lt in H2. left. exists z. split; [reflexivity | lia].
  - intros [(z & -> & H1 & H2)|[f ->]]; [|reflexivity].
    cbn. apply andb_true_iff. split; [now apply Z.leb_le | now apply Z.ltb_lt].
Qed.



Lemma forallb_key_column (P : pyval -> bool) (i : nat) (rs : list (list pyval)) :
  Forall (fun r => P (nth i r nan_cell) = true) rs ->
  forallb P (map (fun r => nth i r nan_cell) rs) = true.
Proof.
  induction 1 as [|r rs Hr _ IH]; cbn [map forallb]; [reflexivity|].
  now rewrite Hr, IH.
Qed.





(** Strings against numbers: the join is refused. *)
Lemma df_merge_strings_numbers log e i j :
  col_index "source_id" (columns log) = Some i ->
  col_index "source_id" (columns e) = Some j ->
  rows log <> nil ->
  rows e <> nil ->
  Forall (fun r => exists s, nth i r nan_cell = PStr s) (rows log) ->
  Forall (fun r => (exists z, nth j r nan_cell = PInt z /\ (- 2 ^ 63 <= z < 2 ^ 63)%Z)
                   \/ (exists f, nth j r nan_cell = PFloat f)) (rows e) ->
  df_merge lib log e "source_id" "_expected" = Raise ValueError.
Proof.
  intros Hi Hj Nl Ne Hl He. unfold df_merge. rewrite Hi, Hj. cbv zeta.
  assert (Bl : forallb is_str (map (fun r => nth i r nan_cell) (rows log)) = true).
  { apply forallb_key_column. eapply List.Forall_impl; [|exact Hl].
    intros r. apply is_str_spec. }
  assert (Be : forallb is_number (map (fun r => nth j r nan_cell) (rows e)) = true).
  { apply forallb_key_column. eapply List.Forall_impl; [|exact He].
    intros r. apply is_number_spec. }
  rewrite Bl, Be.
  destruct (rows log) as [|lr lrs]; [congruence|].
  destruct (rows e) as [|rr rrs]; [congruence|].
  cbn [map is_nil orb andb forallb] in Be |- *.
  apply andb_true_iff in Be as [Be _].
  destruct (nth j rr nan_cell); try discriminate Be; reflexivity.
Qed.

(** Whenever the summary is produced, its count is the number of rows. *)
Lemma compute_metrics_total_items log expected summary :
  compute_metrics lib log expected = Ok summary ->
  metric summary "total_items" = Some (PInt (Z.of_nat (df_len log))).
Proof.
  intros H. destruct (df_getitem log "category") as [col|e] eqn:Hc.
  - rewrite (compute_metrics_unfold _ _ _ Hc) in H.
    destruct (mean_confidence lib log) as [avg|]; [|discriminate].
    cbn [rbind] in H.
    destruct expected as [e|]; [|now injection H as <-].
    destruct (has_column "category" e); [|now injection H as <-].
    destruct (df_merge lib log e _ _) as [merged|]; [|discriminate].
    cbn [rbind] in H.
    destruct (has_column "category_expected" merged); [|now injection H as <-].
    destruct (category_accuracy lib merged) as [acc|]; [|discriminate].
    now injection H as <-.
  - unfold compute_metrics in H. cbn [CATEGORIES count_categories] in H.
    now rewrite Hc in H.
Qed.

(** An empty log that has its columns gives the all-zero summary. *)
Lemma compute_metrics_empty_with_columns log expected summary :
  rows log = nil ->
  compute_metrics lib log expected = Ok summary ->
  metric summary "total_items" = Some (PInt 0)
  /\ Forall (fun k => metric summary (metric_key k) = Some (PInt 0)) CATEGORIES
  /\ metric summary "avg_confidence" = Some (PFloat 0%float).
Proof.
  intros Hr H. destruct (df_getitem log "category") as [col|e] eqn:Hc.
  - assert (col = nil) as ->.
    { apply df_getitem_length in Hc. unfold df_len in Hc. rewrite Hr in Hc.
      now destruct col. }
    rewrite (compute_metrics_unfold _ _ _ Hc) in H.
    unfold mean_confidence, df_len in H. rewrite Hr in H. cbn [length Nat.ltb Nat.leb rbind] in H.
    destruct expected as [e|]; [|injection H as <-; repeat split; repeat constructor].
    destruct (has_column "category" e); [|injection H as <-; repeat split; repeat constructor].
    destruct (df_merge lib log e _ _) as [merged|]; [|discriminate].
    cbn [rbind] in H.
    destruct (has_column "category_expected" merged);
      [|injection H as <-; repeat split; repeat constructor].
    destruct (category_accuracy lib merged) as [acc|]; [|discriminate].
    injection H as <-; repeat split; repeat constructor.
  - unfold compute_metrics in H. cbn [CATEGORIES count_categories] in H.
    now rewrite Hc in H.
Qed.

(** Without reviews and without emails the batch stops in the metrics. *)
Lemma pipeline_empty_faults g expected w :
  pipeline lib g nil nil expected w = Raise (KeyError "category").
Proof. reflexivity. Qed.

End Metrics.


Example category_accuracy_zero_without_join :
  exists summary,
    compute_metrics Sample.lib Sample.log1 (Some Sample.expected_other) = Ok summary
    /\ metric summary "category_accuracy" = Some (PFloat 0%float).
Proof. eexists. split; [vm_compute; reflexivity | reflexivity]. Qed.



(** C5: the log built from no row at all is a table without columns, and
    [compute_metrics] stops on it with [KeyError] at the first category
    count, before the guarded mean; no summary is returned. *)
Theorem compute_metrics_faults_on_empty_log (lib : PyLib) (expected : option DataFrame) :
  df_len (DataFrame_of_records nil) = 0%nat
  /\ compute_metrics lib (DataFrame_of_records nil) expected = Raise (KeyError "category").
Proof. split; reflexivity. Qed.

(* ===================================================================== *)
(** * Part III: further properties of the code                            *)
(* ===================================================================== *)

(** ** Slices *)

Lemma take_length (n : nat) (s : string) : (String.length (Str.take n s) <= n)%nat.
Proof.
  revert s. induction n as [|n IH]; intros [|c s]; cbn; try lia.
  specialize (IH s). lia.
Qed.

Lemma take_prefix (n : nat) (s : string) : exists rest, s = (Str.take n s ++ rest)%string.
Proof.
  revert s. induction n as [|n IH]; intros s.
  - exists s. now destruct s.
  - destruct s as [|c s]; [now exists EmptyString|].
    destruct (IH s) as [rest E]. exists rest.
    change (String c s = String c (Str.take n s ++ rest)%string). now f_equal.
Qed.

Lemma take_all (n : nat) (s : string) : (String.length s <= n)%nat -> Str.take n s = s.
Proof.
  revert s. induction n as [|n IH]; intros [|c s]; cbn; intros H; try reflexivity; try lia.
  rewrite IH; [reflexivity | lia].
Qed.

Lemma append_length (a b : string) :
  String.length (a ++ b) = (String.length a + String.length b)%nat.
Proof.
  induction a as [|c a IH]; [reflexivity|].
  change (S (String.length (a ++ b)) = S (String.length a + String.length b)).
  now rewrite IH.
Qed.

(** ** The fallback classifier: range, rating rule *)

Lemma _contains_any_app (text : string) (a b : list string) :
  _contains_any text (a ++ b) = _contains_any text a || _contains_any text b.
Proof. unfold _contains_any. apply existsb_app. Qed.

(** X1: whatever the text and the rating are, the fallback classifier
    returns one of the six categories with one of seven confidences
    between 0.4 and 0.95, or it raises TypeError; it raises only when no
    trigger of any list matches and the rating is a value that cannot be
    compared with a number. *)
Theorem fallback_classify_range (text : string) (rating : pyval) :
  match fallback_classify text rating with
  | Ok c =>
      In (fst (fst c)) CATEGORIES
      /\ In (snd (fst c))
            [0.95%float; 0.9%float; 0.75%float; 0.8%float; 0.7%float; 0.55%float; 0.4%float]
      /\ PrimFloat.leb 0.4%float (snd (fst c)) && PrimFloat.leb (snd (fst c)) 0.95%float = true
  | Raise e =>
      e = TypeError
      /\ _contains_any text (SPAM_TRIGGERS ++ BUG_TRIGGERS ++ FEATURE_TRIGGERS
                             ++ PRAISE_TRIGGERS ++ COMPLAINT_TRIGGERS) = false
      /\ match rating with
         | PStr _ | PList _ | PDict _ => True
         | _ => False
         end
  end.
Proof.
  rewrite !_contains_any_app. unfold fallback_classify.
  destruct (_contains_any text SPAM_TRIGGERS); [cbn; intuition auto|].
  destruct (_contains_any text BUG_TRIGGERS).
  { destruct (_ || _); cbn; intuition auto. }
  destruct (_contains_any text FEATURE_TRIGGERS); [cbn; intuition auto|].
  destruct (_contains_any text PRAISE_TRIGGERS); [cbn; intuition auto|].
  destruct (_contains_any text COMPLAINT_TRIGGERS); [cbn; intuition auto|].
  destruct rating as [|b|z|f|s|l|kvs]; cbn [Py.le_lit Py.ge_lit rbind orb].
  - cbn; intuition auto.
  - destruct (_ <=? _)%Z; [cbn; intuition auto|].
    destruct (_ <=? _)%Z; cbn; intuition auto.
  - destruct (_ <=? _)%Z; [cbn; intuition auto|].
    destruct (_ <=? _)%Z; cbn; intuition auto.
  - destruct (PrimFloat.leb f 2); [cbn; intuition auto|].
    destruct (PrimFloat.leb 4 f); cbn; intuition auto.
  - auto.
  - auto.
  - auto.
Qed.

(** X2: when no trigger of any list matches, the rating decides: no rating
    gives Other; a number up to 2 gives Complaint and a number from 4 on
    gives Praise, both with confidence 0.55; a number in between, or the
    NaN of an empty cell, gives Other with confidence 0.4; a string raises
    TypeError. *)
Theorem fallback_classify_rating_rule (text : string) :
  _contains_any text (SPAM_TRIGGERS ++ BUG_TRIGGERS ++ FEATURE_TRIGGERS
                      ++ PRAISE_TRIGGERS ++ COMPLAINT_TRIGGERS) = false ->
  fallback_classify text PNone = Ok ("Other", 0.4%float, "default fallback")
  /\ (forall z : Z,
        fallback_classify text (PInt z)
        = Ok (if (z <=? 2)%Z then ("Complaint", 0.55%float, "rating fallback")
              else if (4 <=? z)%Z then ("Praise", 0.55%float, "rating fallback")
              else ("Other", 0.4%float, "default fallback")))
  /\ (forall f : float,
        fallback_classify text (PFloat f)
        = Ok (if PrimFloat.leb f 2%float then ("Complaint", 0.55%float, "rating fallback")
              else if PrimFloat.leb 4%float f then ("Praise", 0.55%float, "rating fallback")
              else ("Other", 0.4%float, "default fallback")))
  /\ fallback_classify text (PFloat PrimFloat.nan) = Ok ("Other", 0.4%float, "default fallback")
  /\ (forall s : string, fallback_classify text (PStr s) = Raise TypeError).
Proof.
  rewrite !_contains_any_app. intros H.
  do 4 (apply orb_false_iff in H; destruct H as [? H]).
  assert (R : forall rating,
             fallback_classify text rating
             = match rating with
               | PNone => Ok ("Other", 0.4%float, "default fallback")
               | _ =>
                   (do le2 <- Py.le_lit rating 2 2%float;
                    if le2 then Ok ("Complaint", 0.55%float, "rating fallback")
                    else
                      do ge4 <- Py.ge_lit rating 4 4%float;
                      if ge4 then Ok ("Praise", 0.55%float, "rating fallback")
                      else Ok ("Other", 0.4%float, "default fallback"))%result
               end).
  { intros rating. unfold fallback_classify.
    repeat match goal with E : _contains_any _ _ = false |- _ => rewrite E; clear E end.
    reflexivity. }
  split; [apply R|]. split; [|split; [|split]].
  - intros z. rewrite R. cbn. destruct (z <=? 2)%Z; [reflexivity|].
    now destruct (4 <=? z)%Z.
  - intros f. rewrite R. cbn. destruct (PrimFloat.leb f 2); [reflexivity|].
    now destruct (PrimFloat.leb 4 f).
  - rewrite R. reflexivity.
  - intros s. now rewrite R.
Qed.

Lemma fallback_classify_rating_rule_witness :
  fallback_classify "ok I guess" (PInt 3) = Ok ("Other", 0.4%float, "default fallback")
  /\ fallback_classify "ok I guess" (PInt 2) = Ok ("Complaint", 0.55%float, "rating fallback").
Proof.
  destruct (fallback_classify_rating_rule "ok I guess" eq_refl) as (_ & Hz & _).
  split; [apply (Hz 3%Z) | apply (Hz 2%Z)].
Defined.

(** ** The fallback severity and impact rules *)

Lemma existsb_isin_spec (needles : list string) (t : string) :
  existsb (fun n => Str.isin n t) needles = true
  <-> exists n, In n needles /\ Str.occurs n t.
Proof.
  rewrite existsb_exists.
  split; intros (n & Hin & H); exists n; split; auto; now apply StrFacts.isin_spec.
Qed.

(** X3: the fallback severity is High or Medium, never Critical or Low; it
    is High exactly when the lowercased text contains "crash", "data loss",
    "can't login" or "cannot login". A text rated High is one the fallback
    classifier calls Bug or Spam, and a Bug classified with confidence 0.9
    is always rated High. The summary in the details is cut at 140
    characters. *)
Theorem fallback_bug_analysis_severity
    (lib : PyLib) (text : string) (platform version rating : pyval) :
  let r := fallback_bug_analysis lib text platform version in
  (fst (fst r) = "High" \/ fst (fst r) = "Medium")
  /\ (fst (fst r) = "High"
      <-> exists m, In m ["crash"; "data loss"; "can't login"; "cannot login"]
                    /\ Str.occurs m (Str.lower text))
  /\ (fst (fst r) = "High" ->
      exists conf tag,
        fallback_classify text rating = Ok ("Spam", conf, tag)
        \/ fallback_classify text rating = Ok ("Bug", conf, tag))
  /\ (forall tag, fallback_classify text rating = Ok ("Bug", 0.9%float, tag) ->
      fst (fst r) = "High")
  /\ exists summary,
       snd (fst r) = ("Platform=" ++ fmt lib platform ++ "; Version=" ++ fmt lib version
                      ++ "; Summary=" ++ summary)%string
       /\ (String.length summary <= 140)%nat
       /\ exists rest, text = (summary ++ rest)%string.
Proof.
  cbv zeta. unfold fallback_bug_analysis. cbn [fst snd].
  pose proof (existsb_isin_spec ["crash"; "data loss"; "can't login"; "cannot login"]
                (Str.lower text)) as S.
  cbn [existsb] in S. rewrite orb_false_r in S. rewrite <- !orb_assoc.
  split; [destruct (_ || _); auto|].
  split.
  { rewrite <- S. destruct (_ || _); split; intros; congruence. }
  split.
  { intros Hh. assert (B : _contains_any text BUG_TRIGGERS = true).
    { destruct (Str.isin "crash" (Str.lower text) || _); [|discriminate].
      destruct (proj1 S eq_refl) as (m & Hm & Ho). apply _contains_any_spec. exists m.
      split; [|exact Ho]. cbn in Hm |- *. intuition auto. }
    unfold fallback_classify. rewrite B.
    destruct (_contains_any text SPAM_TRIGGERS); eauto. }
  split.
  { intros tag. unfold fallback_classify.
    destruct (_contains_any text SPAM_TRIGGERS); [discriminate|].
    destruct (_contains_any text BUG_TRIGGERS).
    - destruct (Str.isin "crash" (Str.lower text)); [reflexivity|].
      destruct (Str.isin "data loss" (Str.lower text)); [reflexivity|].
      cbn [orb]. intros H. exfalso.
      apply (f_equal (fun c => match c with
                               | Ok x => PrimFloat.eqb (snd (fst x)) 0.9%float
                               | Raise _ => true
                               end)) in H.
      vm_compute in H. discriminate H.
    - destruct (_contains_any text FEATURE_TRIGGERS); [discriminate|].
      destruct (_contains_any text PRAISE_TRIGGERS); [discriminate|].
      destruct (_contains_any text COMPLAINT_TRIGGERS); [discriminate|].
      destruct rating; cbn; try discriminate;
        repeat match goal with |- context [if ?c then _ else _] => destruct c end;
        discriminate. }
  exists (Str.take 140 text). split; [reflexivity|].
  split; [apply take_length | apply take_prefix].
Qed.

Lemma fallback_bug_analysis_severity_witness :
  fst (fst (fallback_bug_analysis Sample.lib "Data LOSS after sync" (PStr "iOS") (PStr "1.2")))
  = "High".
Proof.
  destruct (fallback_bug_analysis_severity Sample.lib "Data LOSS after sync"
              (PStr "iOS") (PStr "1.2") PNone) as (_ & _ & _ & H & _).
  apply (H "bug trigger"). reflexivity.
Defined.

(** X4: the fallback impact is High, Medium or Low; it is High exactly when
    the lowercased text contains "dark mode", "calendar" or "integration",
    whatever else it contains, and Medium exactly when it contains none of
    them but "widget", "export" or "multiple accounts". The details are
    "Feature: " followed by at most 140 characters of the text. *)
Theorem fallback_feature_impact (text : string) :
  let r := fallback_feature text in
  In (fst (fst r)) ["High"; "Medium"; "Low"]
  /\ (fst (fst r) = "High"
      <-> exists h, In h ["dark mode"; "calendar"; "integration"]
                    /\ Str.occurs h (Str.lower text))
  /\ (fst (fst r) = "Medium"
      <-> (~ exists h, In h ["dark mode"; "calendar"; "integration"]
                       /\ Str.occurs h (Str.lower text))
          /\ exists l, In l ["widget"; "export"; "multiple accounts"]
                       /\ Str.occurs l (Str.lower text))
  /\ snd (fst r) = ("Feature: " ++ Str.take 140 text)%string
  /\ (String.length (snd (fst r)) <= 149)%nat.
Proof.
  cbv zeta. unfold fallback_feature.
  rewrite <- !existsb_isin_spec.
  assert (L : (String.length ("Feature: " ++ Str.take 140 text) <= 149)%nat).
  { rewrite append_length. pose proof (take_length 140 text) as T.
    change (String.length "Feature: ") with 9%nat. lia. }
  destruct (existsb _ ["dark mode"; "calendar"; "integration"]);
    [|destruct (existsb _ ["widget"; "export"; "multiple accounts"])];
    cbn [fst snd].
  - split; [cbn; tauto|]. split; [tauto|]. split; [|auto].
    split; [discriminate | intros [N _]; now destruct N].
  - split; [cbn; tauto|]. split; [split; discriminate|]. split; [|auto].
    split; [intros _; split; [discriminate | reflexivity] | reflexivity].
  - split; [cbn; tauto|]. split; [split; discriminate|]. split; [|auto].
    split; [discriminate | intros [_ N]; discriminate N].
Qed.

(** ** The backend adapter: one attempt, nothing else touched *)

Lemma ask_json_calls (lib : PyLib) g sp uc w out w1 :
  ask_json lib g sp uc w = Ok (out, w1) ->
  heap w1 = heap w /\ ticks w1 = ticks w
  /\ (if enabled g then calls w1 = S (calls w) else calls w1 = calls w /\ out = PNone).
Proof.
  unfold ask_json, mbind, call_backend, mret.
  destruct (enabled g); cbv zeta; cbn [negb]; [|now intros [= <- <-]].
  destruct (generate_content g _ _); [discriminate|].
  destruct (json_loads lib _); [now intros [= <- <-]|].
  destruct (Str.find _ _); [|now intros [= <- <-]].
  destruct (Str.rfind _ _); [|now intros [= <- <-]].
  destruct (_ <? _)%nat; [|now intros [= <- <-]].
  destruct (json_loads lib _); now intros [= <- <-].
Qed.

(** X5: [ask_json] makes no backend call without credential and returns
    None; with a credential it makes exactly one call, without retry. It
    never touches the store or the clock. The only exception that leaves it
    is the one of the transport: a reply that cannot be parsed never
    raises. *)
Theorem ask_json_single_attempt (lib : PyLib) (g : GeminiClient)
    (sp uc : string) (w : world) :
  match ask_json lib g sp uc w with
  | Ok (out, w1) =>
      heap w1 = heap w /\ ticks w1 = ticks w
      /\ (if enabled g then calls w1 = S (calls w) else calls w1 = calls w /\ out = PNone)
  | Raise e =>
      e = BackendError /\ enabled g = true
      /\ generate_content g (calls w) (ask_prompt sp uc) = ReplyRaises
  end.
Proof.
  destruct (ask_json lib g sp uc w) as [[out w1]|e] eqn:E.
  - now apply ask_json_calls in E.
  - destruct (enabled g) eqn:En; [|now rewrite ask_json_disabled in E].
    destruct (generate_content g (calls w) (ask_prompt sp uc)) as [|t] eqn:R.
    + rewrite (ask_json_transport_failure lib g sp uc w En R) in E.
      now injection E as <-.
    + destruct (ask_json_returns lib g sp uc w t R En) as [out E'].
      rewrite E' in E. discriminate E.
Qed.

(** ** Frames of the decision steps *)

(** A step leaves the store and the clock alone and makes at most one
    backend call, none without credential. *)
Lemma lift_frame {A} (r : result A) (w w1 : world) (a : A) :
  lift r w = Ok (a, w1) -> w1 = w.
Proof. unfold lift. destruct r; [now intros [= _ <-] | discriminate]. Qed.

Lemma classify_fallback_frame text rating w r w1 :
  classify_fallback text rating w = Ok (r, w1) -> w1 = w.
Proof. unfold classify_fallback. apply lift_frame. Qed.

Lemma analyze_bug_fallback_frame (lib : PyLib) text p v w r w1 :
  analyze_bug_fallback lib text p v w = Ok (r, w1) -> w1 = w.
Proof.
  unfold analyze_bug_fallback, mbind, lift, mret.
  destruct (as_text text); [now intros [= _ <-] | discriminate].
Qed.

Lemma extract_feature_fallback_frame text w r w1 :
  extract_feature_fallback text w = Ok (r, w1) -> w1 = w.
Proof.
  unfold extract_feature_fallback, mbind, lift, mret.
  destruct (as_text text); [now intros [= _ <-] | discriminate].
Qed.

Lemma classify_frame (lib : PyLib) g text rating w r w1 :
  classify_with_gemini lib g text rating w = Ok (r, w1) ->
  steps_frame g 1 w w1.
Proof.
  unfold classify_with_gemini.
  destruct (enabled g) eqn:En.
  - unfold mbind.
    destruct (ask_json lib g _ _ w) as [[out w0]|] eqn:A; [|discriminate].
    apply ask_json_calls in A as (Hh & Ht & Hc). rewrite En in Hc.
    assert (G : steps_frame g 1 w w0).
    { unfold steps_frame. rewrite En. repeat split; try assumption; try lia; discriminate. }
    assert (F : classify_fallback text rating w0 = Ok (r, w1) -> steps_frame g 1 w w1).
    { intros E. now apply classify_fallback_frame in E as ->. }
    destruct out; try exact F.
    destruct (Py.has_key "category" kvs); [|exact F].
    unfold lift, mret. destruct (to_float lib _); [|discriminate].
    now intros [= <- <-].
  - intros E. apply classify_fallback_frame in E as ->.
    unfold steps_frame. repeat split; lia.
Qed.

Lemma analyze_bug_frame (lib : PyLib) g text p v w r w1 :
  analyze_bug_with_gemini lib g text p v w = Ok (r, w1) ->
  steps_frame g 1 w w1.
Proof.
  unfold analyze_bug_with_gemini.
  destruct (enabled g) eqn:En.
  - unfold mbind at 1.
    destruct (ask_json lib g _ _ w) as [[out w0]|] eqn:A; [|discriminate].
    apply ask_json_calls in A as (Hh & Ht & Hc). rewrite En in Hc.
    assert (G : steps_frame g 1 w w0).
    { unfold steps_frame. rewrite En. repeat split; try assumption; try lia; discriminate. }
    assert (F : analyze_bug_fallback lib text p v w0 = Ok (r, w1) -> steps_frame g 1 w w1).
    { intros E. now apply analyze_bug_fallback_frame in E as ->. }
    destruct out; try exact F.
    destruct (Py.has_key "severity" kvs); [|exact F].
    unfold mret. now intros [= <- <-].
  - intros E. apply analyze_bug_fallback_frame in E as ->.
    unfold steps_frame. repeat split; lia.
Qed.

Lemma extract_feature_frame (lib : PyLib) g text w r w1 :
  extract_feature_with_gemini lib g text w = Ok (r, w1) ->
  steps_frame g 1 w w1.
Proof.
  unfold extract_feature_with_gemini.
  destruct (enabled g) eqn:En.
  - unfold mbind at 1.
    destruct (ask_json lib g _ _ w) as [[out w0]|] eqn:A; [|discriminate].
    apply ask_json_calls in A as (Hh & Ht & Hc). rewrite En in Hc.
    assert (G : steps_frame g 1 w w0).
    { unfold steps_frame. rewrite En. repeat split; try assumption; try lia; discriminate. }
    assert (F : extract_feature_fallback text w0 = Ok (r, w1) -> steps_frame g 1 w w1).
    { intros E. now apply extract_feature_fallback_frame in E as ->. }
    destruct out; try exact F.
    destruct (Py.has_key "impact" kvs); [|exact F].
    unfold mbind, lift, mret. destruct (Py.slice_to 140 text); [|discriminate].
    now intros [= <- <-].
  - intros E. apply extract_feature_fallback_frame in E as ->.
    unfold steps_frame. repeat split; lia.
Qed.

Lemma slice_to_bound (n : nat) (v t : pyval) :
  Py.slice_to n v = Ok t ->
  match t with
  | PStr s => (String.length s <= n)%nat
  | PList l => (length l <= n)%nat
  | _ => False
  end.
Proof.
  destruct v; try discriminate; intros [= <-].
  - apply take_length.
  - apply length_firstn_le || (rewrite length_firstn; lia).
Qed.

Lemma compose_ticket_inv (lib : PyLib) g th bh w t b w1 :
  compose_ticket_with_gemini lib g th bh w = Ok ((t, b), w1) ->
  steps_frame g 1 w w1
  /\ (exists v, Py.slice_to 80 v = Ok t)
  /\ (enabled g = false -> Py.slice_to 80 th = Ok t /\ Py.slice_to 400 bh = Ok b).
Proof.
  unfold compose_ticket_with_gemini, compose_ticket_fallback, mbind, lift, mret, steps_frame.
  destruct (Py.slice_to 120 th); [|discriminate].
  destruct (Py.slice_to 500 bh); [|discriminate].
  assert (F : forall x y : world,
             match match Py.slice_to 80 th with
                   | Ok a1 => Ok (a1, x) | Raise e => Raise e end with
             | Ok (a1, w') =>
                 match match Py.slice_to 400 bh with
                       | Ok a2 => Ok (a2, w') | Raise e => Raise e end with
                 | Ok (a2, w'0) => Ok (a1, a2, w'0)
                 | Raise e => Raise e
                 end
             | Raise e => Raise e
             end = Ok (t, b, y) ->
             x = y /\ Py.slice_to 80 th = Ok t /\ Py.slice_to 400 bh = Ok b).
  { intros x y. destruct (Py.slice_to 80 th); [|discriminate].
    destruct (Py.slice_to 400 bh); [|discriminate]. now intros [= <- <- <-]. }
  destruct (enabled g) eqn:En.
  - destruct (ask_json lib g _ _ w) as [[out w0]|] eqn:A; [|discriminate].
    apply ask_json_calls in A as (Hh & Ht & Hc). rewrite En in Hc.
    assert (G : forall y : world,
               w0 = y /\ Py.slice_to 80 th = Ok t /\ Py.slice_to 400 bh = Ok b ->
               (heap y = heap w /\ ticks y = ticks w
                /\ (calls w <= calls y <= calls w + 1)%nat
                /\ (true = false -> calls y = calls w))
               /\ (exists v, Py.slice_to 80 v = Ok t)
               /\ (true = false -> Py.slice_to 80 th = Ok t /\ Py.slice_to 400 bh = Ok b)).
    { intros y (<- & T & B). repeat split; try congruence; try lia; eauto. }
    destruct out; try (intros E; apply G, F, E).
    destruct (Py.has_key "title" kvs && Py.has_key "body" kvs);
      [|intros E; apply G, F, E].
    destruct (Py.slice_to 80 (Py.get_default "title" PNone kvs)) eqn:S; [|discriminate].
    intros [= <- <- <-]. repeat split; try congruence; try lia; eauto.
  - intros E. apply F in E as (<- & T & B). repeat split; try lia; eauto.
Qed.

Lemma create_ticket_spec (lib : PyLib) fid st cat prio ti td conf lb w :
  create_ticket lib fid st cat prio ti td conf lb w
  = Ok ({| ticket_id := "T" ++ fid; source_id := fid; source_type := st;
           category := cat; priority := prio; title := ti;
           technical_details := td; created_at := strftime_now lib (ticks w);
           confidence := conf; link_back := Py.or_else lb (PStr "") |},
        {| heap := heap w; calls := calls w; ticks := S (ticks w) |}).
Proof. reflexivity. Qed.

Lemma table_get_range (table : list (string * string)) (key : pyval) (d p : string) :
  table_get table key d = Ok p -> In p (d :: map snd table).
Proof.
  destruct key; cbn; try discriminate; try (intros [= <-]; now left).
  intros [= <-]. destruct (List.find _ table) as [kv|] eqn:F; [|now left].
  right. apply find_some in F as [F _]. now apply in_map.
Qed.

(** ** Invariants of the tickets built from rows *)

Section TicketInvariants.

Variable lib : PyLib.

Lemma steps_frame_refl g n w : steps_frame g n w w.
Proof. unfold steps_frame. repeat split; lia. Qed.

Lemma steps_frame_trans g n m w w1 w2 :
  steps_frame g n w w1 -> steps_frame g m w1 w2 -> steps_frame g (n + m) w w2.
Proof.
  unfold steps_frame. intros (H1 & T1 & C1 & D1) (H2 & T2 & C2 & D2).
  repeat split; try congruence; try lia.
  intros E. rewrite (D2 E). now apply D1.
Qed.

(** Everything [row_to_ticket] does, read back from its result. *)
Lemma row_to_ticket_inv g row st w t w' :
  row_to_ticket lib g row st w = Ok (t, w') ->
  exists (t72 : pyval) (cls : pyval * float * pyval) (prio : string)
         (details ti body : pyval) (w3 : world),
    Py.slice_to 72 (Py.or_else (Py.or_else (row_get row "review_text" PNone)
                                           (row_get row "body" PNone)) (PStr "")) = Ok t72
    /\ steps_frame g 3 w w3
    /\ In prio ["Critical"; "High"; "Medium"; "Low"]
    /\ (enabled g = false -> prio <> "Critical")
    /\ (Py.eq_str (fst (fst cls)) "Complaint" = true -> prio = "Medium")
    /\ (Py.in_strs (fst (fst cls)) ["Bug"; "Feature Request"; "Complaint"] = false ->
        prio = "Low")
    /\ (exists v, Py.slice_to 80 v = Ok ti)
    /\ t = {| ticket_id := "T" ++ fmt lib (row_get row "review_id"
                                             (row_get row "email_id" (PStr "")));
              source_id := fmt lib (row_get row "review_id"
                                      (row_get row "email_id" (PStr "")));
              source_type := st;
              category := fst (fst cls);
              priority := prio;
              title := ti;
              technical_details := if Py.truthy body then body else details;
              created_at := strftime_now lib (ticks w3);
              confidence := snd (fst cls);
              link_back := Py.or_else (row_get row "url" (PStr "")) (PStr "") |}
    /\ w' = {| heap := heap w3; calls := calls w3; ticks := S (ticks w3) |}.
Proof.
  unfold row_to_ticket. intros H. cbv zeta in H.
  unfold mbind at 1 in H.
  destruct (classify_with_gemini _ _ _ _ _) as [[cls w1]|] eqn:Hcls; [|discriminate].
  apply classify_frame in Hcls.
  destruct (Py.slice_to 72 _) as [t72|] eqn:E72; [|discriminate H].
  rewrite mbind_lift in H.
  destruct (Py.slice_to 240 _) as [t240|] eqn:E240; [|discriminate H].
  rewrite mbind_lift in H.
  unfold mbind at 1 in H.
  match type of H with
  | match ?br with _ => _ end = _ => destruct br as [[b w2]|] eqn:Hbr; [|discriminate]
  end.
  unfold mbind at 1 in H.
  destruct (compose_ticket_with_gemini _ _ _ _ _) as [[[ti body] w3]|] eqn:Hco; [|discriminate].
  apply compose_ticket_inv in Hco as (Fco & Hti & _).
  rewrite create_ticket_spec in H. injection H as <- <-.
  assert (B : steps_frame g 1 w1 w2
              /\ In (fst (fst b)) ["Critical"; "High"; "Medium"; "Low"]
              /\ (enabled g = false -> fst (fst b) <> "Critical")
              /\ (Py.eq_str (fst (fst cls)) "Complaint" = true -> fst (fst b) = "Medium")
              /\ (Py.in_strs (fst (fst cls)) ["Bug"; "Feature Request"; "Complaint"] = false ->
                  fst (fst b) = "Low")).
  { clear Hcls Fco Hti. cbn [Py.in_strs existsb].
    destruct (Py.eq_str (fst (fst cls)) "Bug") eqn:EB.
    { apply eq_str_true in EB. rewrite EB. unfold mbind, lift, mret in Hbr.
      destruct (analyze_bug_with_gemini _ _ _ _ _ _) as [[r wa]|] eqn:A; [|discriminate].
      destruct (table_get _ _ _) as [p|] eqn:T; [|discriminate].
      injection Hbr as <- <-. cbn [fst snd].
      split; [eapply analyze_bug_frame; eauto|].
      split; [apply table_get_range in T; cbn in T |- *; tauto|].
      split; [|split; discriminate].
      intros En. rewrite analyze_bug_disabled in A by assumption.
      unfold analyze_bug_fallback, mbind, lift, mret, fallback_bug_analysis in A.
      destruct (as_text _) as [s|]; [|discriminate].
      injection A as <- _. cbn [fst snd] in T.
      destruct (_ || _); cbn in T; injection T as <-; discriminate. }
    destruct (Py.eq_str (fst (fst cls)) "Feature Request") eqn:EF.
    { apply eq_str_true in EF. rewrite EF. unfold mbind, lift, mret in Hbr.
      destruct (extract_feature_with_gemini _ _ _ _) as [[r wa]|] eqn:A; [|discriminate].
      destruct (table_get _ _ _) as [p|] eqn:T; [|discriminate].
      injection Hbr as <- <-. cbn [fst snd].
      split; [eapply extract_feature_frame; eauto|].
      apply table_get_range in T. cbn in T.
      split; [cbn; tauto|]. split; [|split; discriminate].
      intros _ ->. intuition discriminate. }
    destruct (Py.eq_str (fst (fst cls)) "Complaint") eqn:EC.
    { unfold mret in Hbr. injection Hbr as <- <-. cbn [fst snd].
      split; [apply steps_frame_refl|]. split; [cbn; tauto|].
      split; [discriminate|]. split; [reflexivity | discriminate]. }
    destruct (Py.eq_str (fst (fst cls)) "Praise");
      [|destruct (Py.eq_str (fst (fst cls)) "Spam")];
      unfold mret in Hbr; injection Hbr as <- <-; cbn [fst snd];
      (split; [apply steps_frame_refl|]); (split; [cbn; tauto|]);
      (split; [discriminate|]); (split; [discriminate | reflexivity]). }
  destruct B as (Fbr & Hin & Hnc & Hcm & Hlow).
  exists t72, cls, (fst (fst b)), (snd b), ti, body, w3.
  split; [reflexivity|].
  split; [apply (steps_frame_trans g 2 1 w w2 w3);
          [apply (steps_frame_trans g 1 1 w w1 w2)|]; assumption|].
  repeat (split; [assumption|]). split; reflexivity.
Qed.

End TicketInvariants.

(** X6: every ticket built from a row has the id "T" followed by its source
    id; the source id is the row's review_id, else its email_id, else the
    empty string, and the source type is the one given. *)
Theorem row_to_ticket_ticket_id
    (lib : PyLib) (g : GeminiClient) (row : gmap string pyval) (st : string)
    (w w' : world) (t : Ticket) :
  row_to_ticket lib g row st w = Ok (t, w') ->
  ticket_id t = ("T" ++ source_id t)%string
  /\ source_id t = fmt lib (row_get row "review_id" (row_get row "email_id" (PStr "")))
  /\ source_type t = st.
Proof.
  intros H. apply row_to_ticket_inv in H
    as (text & cls & prio & details & ti & body & w3 & _ & _ & _ & _ & _ & _ & _ & -> & _).
  repeat split.
Qed.

Lemma row_to_ticket_ticket_id_witness :
  exists t w',
    row_to_ticket Sample.lib Sample.g_empty Sample.row_A "Support Email" Sample.w0 = Ok (t, w')
    /\ ticket_id t = "TR1" /\ source_type t = "Support Email".
Proof.
  destruct (row_to_ticket Sample.lib Sample.g_empty Sample.row_A "Support Email" Sample.w0)
    as [[t w']|e] eqn:E; [|vm_compute in E; discriminate E].
  exists t, w'. split; [reflexivity|].
  destruct (row_to_ticket_ticket_id _ _ _ _ _ _ _ E) as (-> & -> & ->).
  split; reflexivity.
Defined.

(** X7: whatever the backend answers, the priority of a ticket built from a
    row is Critical, High, Medium or Low: a severity or impact that is not
    in the table falls back to Medium or Low. Without credential it is
    never Critical. A Complaint has priority Medium, and a category other
    than Bug, Feature Request and Complaint has priority Low. *)
Theorem row_to_ticket_priority_range
    (lib : PyLib) (g : GeminiClient) (row : gmap string pyval) (st : string)
    (w w' : world) (t : Ticket) :
  row_to_ticket lib g row st w = Ok (t, w') ->
  In (priority t) ["Critical"; "High"; "Medium"; "Low"]
  /\ (enabled g = false -> priority t <> "Critical")
  /\ (Py.eq_str (category t) "Complaint" = true -> priority t = "Medium")
  /\ (Py.in_strs (category t) ["Bug"; "Feature Request"; "Complaint"] = false ->
      priority t = "Low").
Proof.
  intros H. apply row_to_ticket_inv in H
    as (text & cls & prio & details & ti & body & w3
        & _ & _ & Hin & Hnc & Hcm & Hlow & _ & -> & _).
  cbn [priority category]. auto.
Qed.

Lemma row_to_ticket_priority_range_witness :
  exists t w',
    row_to_ticket Sample.lib Sample.g_off Sample.row_A "App Store Review" Sample.w0 = Ok (t, w')
    /\ In (priority t) ["Critical"; "High"; "Medium"; "Low"].
Proof.
  destruct (row_to_ticket Sample.lib Sample.g_off Sample.row_A "App Store Review" Sample.w0)
    as [[t w']|e] eqn:E; [|vm_compute in E; discriminate E].
  exists t, w'. split; [reflexivity|].
  exact (proj1 (row_to_ticket_priority_range _ _ _ _ _ _ _ E)).
Defined.

(** X8: whatever the backend answers, the title of a ticket built from a
    row has at most 80 characters (or, when the backend sent a list, at
    most 80 elements); it is never a number, a boolean or None. *)
Theorem row_to_ticket_title_bound
    (lib : PyLib) (g : GeminiClient) (row : gmap string pyval) (st : string)
    (w w' : world) (t : Ticket) :
  row_to_ticket lib g row st w = Ok (t, w') ->
  match title t with
  | PStr s => (String.length s <= 80)%nat
  | PList l => (length l <= 80)%nat
  | _ => False
  end.
Proof.
  intros H. apply row_to_ticket_inv in H
    as (text & cls & prio & details & ti & body & w3
        & _ & _ & _ & _ & _ & _ & [v Hv] & -> & _).
  cbn [title]. now apply slice_to_bound in Hv.
Qed.

Lemma row_to_ticket_title_bound_witness :
  exists t w' s,
    row_to_ticket Sample.lib Sample.g_off Sample.row_A "App Store Review" Sample.w0 = Ok (t, w')
    /\ title t = PStr s /\ (String.length s <= 80)%nat.
Proof.
  destruct (row_to_ticket Sample.lib Sample.g_off Sample.row_A "App Store Review" Sample.w0)
    as [[t w']|e] eqn:E; [|vm_compute in E; discriminate E].
  pose proof (row_to_ticket_title_bound _ _ _ _ _ _ _ E) as B.
  destruct (title t) as [| | | |s| |] eqn:T; try contradiction.
  - exists t, w', s. auto.
  - exfalso. vm_compute in E. injection E as <- _. discriminate T.
Defined.

(** X9: building a ticket from a row allocates nothing in the store, reads
    the clock exactly once, for the creation time, and makes at most three
    backend calls (classify, analysis, compose), none without
    credential. *)
Theorem row_to_ticket_frame
    (lib : PyLib) (g : GeminiClient) (row : gmap string pyval) (st : string)
    (w w' : world) (t : Ticket) :
  row_to_ticket lib g row st w = Ok (t, w') ->
  heap w' = heap w
  /\ ticks w' = S (ticks w)
  /\ created_at t = strftime_now lib (ticks w)
  /\ (calls w <= calls w' <= calls w + 3)%nat
  /\ (enabled g = false -> calls w' = calls w).
Proof.
  intros H. apply row_to_ticket_inv in H
    as (text & cls & prio & details & ti & body & w3
        & _ & (Hh & Ht & Hc & Hd) & _ & _ & _ & _ & _ & -> & ->).
  cbn [heap ticks calls created_at]. rewrite Ht. auto.
Qed.

Lemma row_to_ticket_frame_witness :
  exists t w',
    row_to_ticket Sample.lib Sample.g_empty Sample.row_A "App Store Review" Sample.w0 = Ok (t, w')
    /\ heap w' = [] /\ ticks w' = 1%nat /\ (calls w' <= 3)%nat.
Proof.
  destruct (row_to_ticket Sample.lib Sample.g_empty Sample.row_A "App Store Review" Sample.w0)
    as [[t w']|e] eqn:E; [|vm_compute in E; discriminate E].
  exists t, w'. split; [reflexivity|].
  destruct (row_to_ticket_frame _ _ _ _ _ _ _ E) as (Hh & Ht & _ & Hc & _).
  split; [exact Hh|]. split; [exact Ht|]. exact (proj2 Hc).
Defined.

(** ** Without credential: every row gives a ticket *)

Section FallbackRows.

Variable lib : PyLib.

Lemma fallback_classify_categories text rating c :
  fallback_classify text rating = Ok c -> In (fst (fst c)) CATEGORIES.
Proof.
  unfold fallback_classify.
  repeat match goal with
         | |- context [if ?b then _ else _] => destruct b
         end; try (intros [= <-]; cbn; tauto).
  destruct rating; cbn;
    repeat match goal with
           | |- context [if ?b then _ else _] => destruct b
           end; try discriminate; intros [= <-]; cbn; tauto.
Qed.

Lemma analyze_bug_disabled_fun g text p v :
  enabled g = false ->
  analyze_bug_with_gemini lib g text p v = analyze_bug_fallback lib text p v.
Proof. intros E. unfold analyze_bug_with_gemini. now rewrite E. Qed.

Lemma extract_feature_disabled_fun g text :
  enabled g = false ->
  extract_feature_with_gemini lib g text = extract_feature_fallback text.
Proof. intros E. unfold extract_feature_with_gemini. now rewrite E. Qed.

Lemma as_text_Ok (v : pyval) (s : string) : as_text v = Ok s <-> v = PStr s.
Proof.
  split; [|now intros ->].
  destruct v; try discriminate. now intros [= ->].
Qed.

(** The ticket of a row without credential, step by step. *)
Lemma row_to_ticket_fallback g row st w text c :
  enabled g = false ->
  as_text (Py.or_else (Py.or_else (row_get row "review_text" PNone)
                                  (row_get row "body" PNone)) (PStr "")) = Ok text ->
  fallback_classify text (row_get row "rating" PNone) = Ok c ->
  exists prio hint details,
    row_to_ticket lib g row st w
    = Ok ({| ticket_id := "T" ++ fmt lib (row_get row "review_id"
                                            (row_get row "email_id" (PStr "")));
             source_id := fmt lib (row_get row "review_id"
                                     (row_get row "email_id" (PStr "")));
             source_type := st;
             category := PStr (fst (fst c));
             priority := prio;
             title := PStr (Str.take 80 hint);
             technical_details :=
               if Py.truthy (PStr (Str.take 400 details))
               then PStr (Str.take 400 details) else PStr details;
             created_at := strftime_now lib (ticks w);
             confidence := snd (fst c);
             link_back := Py.or_else (row_get row "url" (PStr "")) (PStr "") |},
          {| heap := heap w; calls := calls w; ticks := S (ticks w) |})
    /\ (fst (fst c) = "Feature Request" ->
        In hint ["high-impact trigger"; "medium-impact trigger"; "low-impact default"])
    /\ (fst (fst c) = "Bug" -> hint = ("Bug: " ++ Str.take 72 text)%string).
Proof.
  intros E Ht Hc. apply as_text_Ok in Ht.
  unfold row_to_ticket. rewrite Ht. cbv zeta.
  erewrite mbind_ok; cycle 1.
  { rewrite classify_disabled by assumption.
    rewrite classify_fallback_str, Hc. reflexivity. }
  cbn [Py.slice_to]. rewrite !mbind_lift.
  cbn [fst snd fmt].
  rewrite (analyze_bug_disabled_fun g) by assumption.
  rewrite (extract_feature_disabled_fun g) by assumption.
  match goal with
  | |- context [mbind ?br _ w] =>
      assert (B : exists prio hint details,
                 br w = Ok ((prio, PStr hint, PStr details), w)
                 /\ (fst (fst c) = "Feature Request" ->
                     In hint ["high-impact trigger"; "medium-impact trigger";
                              "low-impact default"])
                 /\ (fst (fst c) = "Bug" -> hint = ("Bug: " ++ Str.take 72 text)%string))
  end.
  { apply fallback_classify_categories in Hc.
    destruct c as [[cat conf] tag]. cbn [fst snd] in *.
    cbn in Hc. destruct Hc as [<-|[<-|[<-|[<-|[<-|[<-|[]]]]]]].
    - cbn [Py.eq_str String.eqb Ascii.eqb Bool.eqb].
      unfold mbind. rewrite analyze_bug_fallback_str.
      unfold fallback_bug_analysis, mret, lift.
      cbn [fst snd]. destruct (_ || _); cbn; eexists _, _, _; repeat split; discriminate.
    - cbn [Py.eq_str String.eqb Ascii.eqb Bool.eqb].
      unfold mbind. rewrite extract_feature_fallback_str.
      unfold fallback_feature, mret, lift.
      destruct (existsb _ _); [|destruct (existsb _ _)]; cbn;
        eexists _, _, _; (split; [reflexivity|]); split; try discriminate;
        intros _; cbn; tauto.
    - cbn. eexists _, _, _. repeat split; discriminate.
    - cbn. eexists _, _, _. repeat split; discriminate.
    - cbn. eexists _, _, _. repeat split; discriminate.
    - cbn [Py.eq_str String.eqb Ascii.eqb Bool.eqb]. unfold mret, Py.or_else.
      destruct (Py.truthy _); eexists _, _, _; repeat split; discriminate. }
  destruct B as (prio & hint & details & Hbr & Hf & Hb).
  erewrite mbind_ok by exact Hbr. cbn [fst snd].
  erewrite mbind_ok; cycle 1.
  { erewrite compose_ticket_disabled by (assumption || reflexivity). reflexivity. }
  rewrite create_ticket_spec. cbn [fst snd].
  exists prio, hint, details. split; [reflexivity|]. split; assumption.
Qed.

End FallbackRows.

(** X10: without credential a row whose text cell is a string (or missing)
    and whose rating the fallback classifier accepts always gives a
    ticket: building it never raises, changes nothing in the store, makes no
    backend call, and the ticket carries the fallback category and
    confidence. The log entry is produced as well, and the critic has
    stored its copy next to the ticket. *)
Theorem fallback_mode_always_produces_a_ticket
    (lib : PyLib) (g : GeminiClient) (row : gmap string pyval) (st : string)
    (w : world) (text : string) (c : classification) :
  enabled g = false ->
  as_text (Py.or_else (Py.or_else (row_get row "review_text" PNone)
                                  (row_get row "body" PNone)) (PStr "")) = Ok text ->
  fallback_classify text (row_get row "rating" PNone) = Ok c ->
  (exists t,
      row_to_ticket lib g row st w
      = Ok (t, {| heap := heap w; calls := calls w; ticks := S (ticks w) |})
      /\ category t = PStr (fst (fst c))
      /\ confidence t = snd (fst c))
  /\ (exists td entry w',
        process_row lib g st row w = Ok ((td, entry), w')
        /\ Py.assoc "category" entry = Some (PStr (fst (fst c)))
        /\ Py.assoc "confidence" entry = Some (PFloat (snd (fst c)))
        /\ length (heap w') = (length (heap w) + 2)%nat
        /\ calls w' = calls w).
Proof.
  intros E Ht Hc.
  destruct (row_to_ticket_fallback lib g row st w text c E Ht Hc)
    as (prio & hint & details & H & _).
  split; [eexists; split; [exact H|]; split; reflexivity|].
  eexists _, _, _. split; [apply (process_row_fallback lib g st row w _ _ E H)|].
  cbn. rewrite !length_app. cbn. repeat split; lia.
Qed.

Lemma fallback_mode_always_produces_a_ticket_witness :
  exists t w',
    row_to_ticket Sample.lib Sample.g_off Sample.row_A "App Store Review" Sample.w0 = Ok (t, w')
    /\ category t = PStr "Bug".
Proof.
  destruct (fallback_mode_always_produces_a_ticket Sample.lib Sample.g_off Sample.row_A
              "App Store Review" Sample.w0 Sample.scenario_A_text
              ("Bug", 0.9%float, "bug trigger") eq_refl eq_refl eq_refl)
    as [(t & H & Hc & _) _].
  eexists t, _. split; [exact H | exact Hc].
Defined.

(** X11: without credential the title of a Feature Request ticket is the
    tag of the impact rule ("high-impact trigger", "medium-impact trigger"
    or "low-impact default"): the fallback returns its tag where the
    backend returns a suggested title. The title of a Bug ticket is
    "Bug: " and the first 72 characters of the text. *)
Theorem fallback_feature_ticket_title
    (lib : PyLib) (g : GeminiClient) (row : gmap string pyval) (st : string)
    (w w' : world) (t : Ticket) :
  enabled g = false ->
  row_to_ticket lib g row st w = Ok (t, w') ->
  (category t = PStr "Feature Request" ->
   In (title t) [PStr "high-impact trigger"; PStr "medium-impact trigger";
                 PStr "low-impact default"])
  /\ (category t = PStr "Bug" ->
      exists text,
        as_text (Py.or_else (Py.or_else (row_get row "review_text" PNone)
                                        (row_get row "body" PNone)) (PStr "")) = Ok text
        /\ title t = PStr ("Bug: " ++ Str.take 72 text)).
Proof.
  intros E H.
  destruct (as_text (Py.or_else (Py.or_else (row_get row "review_text" PNone)
                                            (row_get row "body" PNone)) (PStr "")))
    as [text|e] eqn:Ht.
  2:{ unfold row_to_ticket in H. cbv zeta in H. unfold mbind at 1 in H.
      rewrite classify_disabled in H by assumption.
      unfold classify_fallback, lift in H. rewrite Ht in H. discriminate H. }
  destruct (fallback_classify text (row_get row "rating" PNone)) as [c|e] eqn:Hc.
  2:{ unfold row_to_ticket in H. cbv zeta in H. unfold mbind at 1 in H.
      rewrite classify_disabled in H by assumption.
      unfold classify_fallback, lift in H. rewrite Ht in H. cbn [rbind] in H.
      rewrite Hc in H. discriminate H. }
  destruct (row_to_ticket_fallback lib g row st w text c E Ht Hc)
    as (prio & hint & details & H' & Hf & Hb).
  remember (Str.take 80 hint) as ti eqn:Eti.
  rewrite H' in H. injection H as <- _. cbn [category title]. subst ti. split.
  - intros [= C]. specialize (Hf C). cbn in Hf.
    destruct Hf as [<-|[<-|[<-|[]]]]; cbn; tauto.
  - intros [= C]. exists text. split; [reflexivity|]. rewrite (Hb C).
    f_equal. apply take_all. rewrite append_length.
    pose proof (take_length 72 text). change (String.length "Bug: ") with 5%nat. lia.
Qed.

Lemma fallback_feature_ticket_title_witness :
  exists t w',
    row_to_ticket Sample.lib Sample.g_off
      (<["review_text" := PStr "Please add dark mode support"]> ∅)
      "App Store Review" Sample.w0 = Ok (t, w')
    /\ In (title t) [PStr "high-impact trigger"; PStr "medium-impact trigger";
                     PStr "low-impact default"].
Proof.
  destruct (row_to_ticket Sample.lib Sample.g_off
              (<["review_text" := PStr "Please add dark mode support"]> ∅)
              "App Store Review" Sample.w0) as [[t w']|e] eqn:E;
    [|vm_compute in E; discriminate E].
  exists t, w'. split; [reflexivity|].
  destruct (fallback_feature_ticket_title Sample.lib Sample.g_off _ _ _ _ _ eq_refl E)
    as [Hf _].
  assert (C : category t = PStr "Feature Request").
  { vm_compute in E. now injection E as <- _. }
  exact (Hf C).
Defined.

(** ** The adapter: credential, text around the object *)

Lemma lstrip_empty (s : string) : Str.lstrip s = EmptyString <-> all_space s = true.
Proof.
  induction s as [|c s IH]; cbn; [tauto|].
  destruct (Str.is_space c); cbn; [exact IH|]. split; discriminate.
Qed.

Lemma all_space_lstrip (s : string) : all_space (Str.lstrip s) = all_space s.
Proof.
  induction s as [|c s IH]; cbn; [reflexivity|].
  destruct (Str.is_space c) eqn:E; cbn; [exact IH|]. now rewrite E.
Qed.

Lemma all_space_rev_onto (s acc : string) :
  all_space (Str.rev_onto s acc) = all_space s && all_space acc.
Proof.
  revert acc. induction s as [|c s IH]; intros acc; cbn; [reflexivity|].
  rewrite IH. cbn. destruct (Str.is_space c), (all_space s); reflexivity.
Qed.

Lemma rev_onto_empty (s acc : string) :
  Str.rev_onto s acc = EmptyString <-> s = EmptyString /\ acc = EmptyString.
Proof.
  revert acc. induction s as [|c s IH]; intros acc; cbn; [tauto|].
  rewrite IH. split; [intros [_ H]; discriminate H | intros [H _]; discriminate H].
Qed.

Lemma strip_empty (s : string) : Str.strip s = EmptyString <-> all_space s = true.
Proof.
  unfold Str.strip, Str.rev. rewrite rev_onto_empty, lstrip_empty.
  rewrite all_space_rev_onto, all_space_lstrip. cbn. rewrite andb_true_r. tauto.
Qed.

(** X12: a client is enabled exactly when the key is set and holds a
    character that is not whitespace; a key that is missing, empty or
    blank gives fallback mode, in which [ask_json] answers None whatever
    the backend would say. *)
Theorem GeminiClient_init_enabled
    (lib : PyLib) (api_key : option string) (backend : nat -> string -> reply)
    (sp uc : string) (w : world) :
  enabled (GeminiClient_init api_key backend)
  = match api_key with
    | Some k => negb (all_space k)
    | None => false
    end
  /\ (match api_key with Some k => all_space k | None => true end = true ->
      ask_json lib (GeminiClient_init api_key backend) sp uc w = Ok (PNone, w)).
Proof.
  assert (E : enabled (GeminiClient_init api_key backend)
              = match api_key with Some k => negb (all_space k) | None => false end).
  { destruct api_key as [k|]; [|reflexivity]. cbn [GeminiClient_init enabled].
    destruct (all_space k) eqn:A.
    - apply strip_empty in A. now rewrite A.
    - destruct (Str.strip k) eqn:S; [|reflexivity].
      apply strip_empty in S. congruence. }
  split; [exact E|]. intros H. apply ask_json_disabled. rewrite E.
  destruct api_key; [now rewrite H | reflexivity].
Qed.

Lemma GeminiClient_init_enabled_witness :
  ask_json Sample.lib
    (GeminiClient_init (Some (" " ++ nl)) (fun _ _ => ReplyText (Some Sample.reply_ok)))
    "s" "u" Sample.w0 = Ok (PNone, Sample.w0).
Proof.
  apply (GeminiClient_init_enabled Sample.lib (Some (" " ++ nl))). reflexivity.
Defined.

Lemma find_app (c : ascii) (pre rest : string) :
  Str.find c pre = None ->
  Str.find c (pre ++ String c rest) = Some (String.length pre).
Proof.
  induction pre as [|d pre IH]; intros H.
  - change (Str.find c (String c rest) = Some 0%nat). cbn. now rewrite Ascii.eqb_refl.
  - change (Str.find c (String d (pre ++ String c rest)) = Some (S (String.length pre))).
    cbn [Str.find] in H |- *. destruct (Ascii.eqb c d); [discriminate|].
    destruct (Str.find c pre); [discriminate|]. now rewrite IH.
Qed.

Lemma rfind_app (c : ascii) (s post : string) :
  Str.rfind c post = None ->
  Str.rfind c (s ++ String c post) = Some (String.length s).
Proof.
  intros H. induction s as [|d s IH].
  - change (Str.rfind c (String c post) = Some 0%nat). cbn [Str.rfind].
    now rewrite H, Ascii.eqb_refl.
  - change (Str.rfind c (String d (s ++ String c post)) = Some (S (String.length s))).
    cbn [Str.rfind]. now rewrite IH.
Qed.

Lemma drop_app_length (a b : string) : Str.drop (String.length a) (a ++ b) = b.
Proof. induction a as [|c a IH]; [now destruct b | exact IH]. Qed.

Lemma take_app_exact (a b : string) : Str.take (String.length a) (a ++ b) = a.
Proof.
  induction a as [|c a IH]; [now destruct b|].
  change (String c (Str.take (String.length a) (a ++ b)) = String c a). now rewrite IH.
Qed.

Lemma app_assoc_str (a b c : string) : ((a ++ b) ++ c = a ++ (b ++ c))%string.
Proof.
  induction a as [|x a IH]; [reflexivity|].
  change (String x ((a ++ b) ++ c) = String x (a ++ (b ++ c)))%string. now rewrite IH.
Qed.

(** The slice between the first opening and the last closing brace. *)
Lemma brace_slice (pre mid post : string) :
  Str.find "{" pre = None ->
  Str.rfind "}" post = None ->
  let text := (pre ++ String "{" (mid ++ String "}" post))%string in
  exists start end_,
    Str.find "{" text = Some start /\ Str.rfind "}" text = Some end_
    /\ (start <? end_)%nat = true
    /\ Str.slice start (end_ + 1) text = String "{" (mid ++ String "}" EmptyString).
Proof.
  intros Hf Hr text.
  exists (String.length pre), (String.length (pre ++ String "{" mid)).
  split; [now apply find_app|].
  split.
  { unfold text.
    replace (pre ++ String "{" (mid ++ String "}" post))%string
      with ((pre ++ String "{" mid) ++ String "}" post)%string
      by (rewrite app_assoc_str; reflexivity).
    now apply rfind_app. }
  split.
  { apply Nat.ltb_lt. rewrite append_length. cbn. lia. }
  unfold Str.slice, text. rewrite drop_app_length.
  replace (String.length (pre ++ String "{" mid) + 1 - String.length pre)%nat
    with (String.length (String "{" (mid ++ String "}" EmptyString)))
    by (rewrite append_length; cbn; rewrite append_length; cbn; lia).
  replace (String "{" (mid ++ String "}" post))
    with (String "{" (mid ++ String "}" EmptyString) ++ post)%string.
  - apply take_app_exact.
  - change (String "{" ((mid ++ String "}" EmptyString) ++ post)
            = String "{" (mid ++ String "}" post))%string.
    now rewrite app_assoc_str.
Qed.

(** X13: when the reply is a JSON object wrapped in other text, [ask_json]
    parses what lies between the first opening and the last closing brace:
    the result is the value of that slice, or None when the slice does not
    parse either. A reply without an opening brace gives None. *)
Theorem ask_json_extracts_object
    (lib : PyLib) (g : GeminiClient) (sp uc : string) (w : world)
    (t pre mid post : string) :
  enabled g = true ->
  generate_content g (calls w) (ask_prompt sp uc) = ReplyText (Some t) ->
  json_loads lib (Str.strip t) = None ->
  (Str.strip t = (pre ++ String "{" (mid ++ String "}" post))%string ->
   Str.find "{" pre = None ->
   Str.rfind "}" post = None ->
   ask_json lib g sp uc w
   = Ok (match json_loads lib (String "{" (mid ++ String "}" EmptyString)) with
         | Some v => v
         | None => PNone
         end, bump w))
  /\ (Str.find "{" (Str.strip t) = None -> ask_json lib g sp uc w = Ok (PNone, bump w)).
Proof.
  intros E R P.
  assert (U : ask_json lib g sp uc w
              = match Str.find "{" (Str.strip t), Str.rfind "}" (Str.strip t) with
                | Some start, Some end_ =>
                    if (start <? end_)%nat then
                      Ok (match json_loads lib (Str.slice start (end_ + 1) (Str.strip t)) with
                          | Some v => v
                          | None => PNone
                          end, bump w)
                    else Ok (PNone, bump w)
                | _, _ => Ok (PNone, bump w)
                end).
  { unfold ask_json. rewrite E. cbv zeta. cbn [negb].
    unfold mbind, call_backend, mret. rewrite R. fold (bump w). rewrite P.
    destruct (Str.find _ _); [|reflexivity].
    destruct (Str.rfind _ _); [|reflexivity].
    destruct (_ <? _)%nat; [|reflexivity].
    now destruct (json_loads lib (Str.slice _ _ _)). }
  split.
  - intros S Hf Hr. rewrite U, S.
    destruct (brace_slice pre mid post Hf Hr) as (start & end_ & -> & -> & -> & ->).
    reflexivity.
  - intros N. now rewrite U, N.
Qed.

Lemma ask_json_extracts_object_witness :
  ask_json Sample.lib
    (GeminiClient_init (Some "key") (fun _ _ => ReplyText (Some "Here it is: {} I hope")))
    "s" "u" Sample.w0 = Ok (PDict [], bump Sample.w0).
Proof.
  exact (proj1 (ask_json_extracts_object Sample.lib
                  (GeminiClient_init (Some "key")
                     (fun _ _ => ReplyText (Some "Here it is: {} I hope")))
                  "s" "u" Sample.w0 "Here it is: {} I hope" "Here it is: " "" " I hope"
                  eq_refl eq_refl eq_refl) eq_refl eq_refl eq_refl).
Defined.

(** ** Composing the title and the body *)

Lemma ask_json_raise_inv (lib : PyLib) g sp uc w e :
  ask_json lib g sp uc w = Raise e -> e = BackendError.
Proof.
  unfold ask_json, mbind, call_backend, mret.
  destruct (enabled g); cbv zeta; cbn [negb]; [|discriminate].
  destruct (generate_content g _ _); [now intros [= <-]|].
  destruct (json_loads lib _); [discriminate|].
  destruct (Str.find _ _); [|discriminate].
  destruct (Str.rfind _ _); [|discriminate].
  destruct (_ <? _)%nat; [|discriminate].
  destruct (json_loads lib (Str.slice _ _ _)); discriminate.
Qed.

Lemma slice_to_raise (n : nat) (v : pyval) (e : exn) :
  Py.slice_to n v = Raise e -> e = TypeError /\ forall m, Py.slice_to m v = Raise TypeError.
Proof. destruct v; try discriminate; intros [= <-]; auto. Qed.

(** X14: the composed title has at most 80 characters in every mode, with
    or without the backend. Without credential the step is pure trimming:
    title and body are the first 80 and 400 characters of the hints, the
    hints themselves when they are that short, and the world is left as it
    is. The step raises only the exception of the transport or TypeError,
    and it raises TypeError in every mode for a hint that cannot be
    sliced, since the hints are sliced before the client is looked at. *)
Theorem compose_ticket_bounds
    (lib : PyLib) (g : GeminiClient) (title_hint body_hint : pyval) (w : world) :
  match compose_ticket_with_gemini lib g title_hint body_hint w with
  | Ok ((t, b), w1) =>
      match t with
      | PStr s => (String.length s <= 80)%nat
      | PList l => (length l <= 80)%nat
      | _ => False
      end
      /\ steps_frame g 1 w w1
  | Raise e => e = BackendError \/ e = TypeError
  end
  /\ (forall a b : string,
        enabled g = false ->
        compose_ticket_with_gemini lib g (PStr a) (PStr b) w
        = Ok ((PStr (Str.take 80 a), PStr (Str.take 400 b)), w)
        /\ ((String.length a <= 80)%nat -> Str.take 80 a = a)
        /\ ((String.length b <= 400)%nat -> Str.take 400 b = b))
  /\ (Py.slice_to 120 title_hint = Raise TypeError ->
      compose_ticket_with_gemini lib g title_hint body_hint w = Raise TypeError).
Proof.
  split; [|split].
  - destruct (compose_ticket_with_gemini lib g title_hint body_hint w)
      as [[[t b] w1]|e] eqn:E.
    + apply compose_ticket_inv in E as (F & [v Hv] & _).
      split; [now apply slice_to_bound in Hv | exact F].
    + revert E.
      unfold compose_ticket_with_gemini, compose_ticket_fallback, mbind, lift, mret.
      destruct (Py.slice_to 120 title_hint) eqn:S1;
        [|intros [= <-]; right; now apply slice_to_raise in S1].
      destruct (Py.slice_to 500 body_hint) eqn:S2;
        [|intros [= <-]; right; now apply slice_to_raise in S2].
      assert (F : forall x : world,
                 match match Py.slice_to 80 title_hint with
                       | Ok a1 => Ok (a1, x) | Raise e0 => Raise e0 end with
                 | Ok (a1, w') =>
                     match match Py.slice_to 400 body_hint with
                           | Ok a2 => Ok (a2, w') | Raise e0 => Raise e0 end with
                     | Ok (a2, w'0) => Ok (a1, a2, w'0)
                     | Raise e0 => Raise e0
                     end
                 | Raise e0 => Raise e0
                 end = Raise e -> e = BackendError \/ e = TypeError).
      { intros x. destruct (Py.slice_to 80 title_hint) eqn:S3;
          [|intros [= <-]; right; now apply slice_to_raise in S3].
        destruct (Py.slice_to 400 body_hint) eqn:S4;
          [discriminate | intros [= <-]; right; now apply slice_to_raise in S4]. }
      destruct (enabled g); [|apply F].
      destruct (ask_json lib g _ _ w) as [[out w0]|e0] eqn:A;
        [|intros [= <-]; left; now apply ask_json_raise_inv in A].
      destruct out; try apply F.
      destruct (Py.has_key "title" kvs && Py.has_key "body" kvs); [|apply F].
      destruct (Py.slice_to 80 (Py.get_default "title" PNone kvs)) eqn:S5;
        [discriminate | intros [= <-]; right; now apply slice_to_raise in S5].
  - intros a b E.
    split; [now rewrite (compose_ticket_disabled lib g (PStr a) (PStr b) _ _ w E eq_refl eq_refl)|].
    split; apply take_all.
  - intros S. unfold compose_ticket_with_gemini, mbind, lift. now rewrite S.
Qed.

Lemma compose_ticket_bounds_witness :
  compose_ticket_with_gemini Sample.lib Sample.g_off (PStr "Spam") (PStr "Likely spam") Sample.w0
  = Ok ((PStr "Spam", PStr "Likely spam"), Sample.w0).
Proof.
  destruct (compose_ticket_bounds Sample.lib Sample.g_off (PStr "Spam") (PStr "Likely spam")
              Sample.w0) as (_ & H & _).
  destruct (H "Spam" "Likely spam" eq_refl) as (-> & _ & _). reflexivity.
Defined.

(** ** The critic with the backend *)

Section CriticBackend.

Variable lib : PyLib.

Lemma apply_corrections_cons d k v kvs :
  apply_corrections d ((k, v) :: kvs)
  = apply_corrections (if negb (String.eqb k "ok") then <[k := v]> d else d) kvs.
Proof. reflexivity. Qed.

Lemma assoc_In k v (kvs : list (string * pyval)) :
  Py.assoc k kvs = Some v -> In k (map fst kvs).
Proof.
  induction kvs as [|[k' v'] kvs IH]; cbn; [discriminate|].
  destruct (String.eqb k k') eqn:E; [|auto].
  apply String.eqb_eq in E. auto.
Qed.

(** The items after the corrections: the [ok] flag is never written, a
    returned key takes the returned value, every other key stays. *)
Lemma apply_corrections_lookup d kvs k :
  List.NoDup (map fst kvs) ->
  apply_corrections d kvs !! k
  = if String.eqb k "ok" then d !! k
    else match Py.assoc k kvs with
         | Some v => Some v
         | None => d !! k
         end.
Proof.
  revert d. induction kvs as [|[k' v'] kvs IH]; intros d ND.
  - cbn. now destruct (String.eqb k "ok").
  - inversion ND as [|? ? Hnin ND']; subst. rewrite apply_corrections_cons, IH by assumption.
    cbn [Py.assoc]. destruct (String.eqb k "ok") eqn:Ok_.
    + apply String.eqb_eq in Ok_. subst k.
      destruct (String.eqb k' "ok") eqn:E'; cbn [negb]; [reflexivity|].
      apply String.eqb_neq in E'. now rewrite lookup_insert_ne.
    + destruct (String.eqb k k') eqn:E.
      * apply String.eqb_eq in E. subst k'. rewrite Ok_. cbn [negb].
        destruct (Py.assoc k kvs) eqn:A.
        { apply assoc_In in A. contradiction. }
        apply lookup_insert_eq.
      * apply String.eqb_neq in E.
        destruct (Py.assoc k kvs); [reflexivity|].
        destruct (negb (String.eqb k' "ok")); [|reflexivity].
        rewrite lookup_insert_ne; [reflexivity | congruence].
Qed.

Lemma merge_corrections_spec (corrected : loc) kvs w d :
  heap w !! corrected = Some d ->
  merge_corrections corrected kvs w
  = Ok (tt, {| heap := <[corrected := apply_corrections d kvs]> (heap w);
               calls := calls w; ticks := ticks w |}).
Proof.
  revert w d. induction kvs as [|[k v] kvs IH]; intros w d H.
  - cbn. unfold mret. rewrite list_insert_id by exact H. now destruct w.
  - cbn [merge_corrections]. rewrite apply_corrections_cons.
    destruct (negb (String.eqb k "ok")); [|now apply IH].
    unfold mbind, Store.setitem. rewrite H.
    erewrite IH; cycle 1.
    { cbn [heap]. apply list_lookup_insert_eq. now apply lookup_lt_Some in H. }
    cbn [heap calls ticks]. now rewrite list_insert_insert_eq.
Qed.

(** The critic when the backend answers with an object that does not
    approve: a copy with the corrections written over it. *)
Lemma critic_backend_spec g ticket w d kvs w1 :
  enabled g = true ->
  heap w !! ticket = Some d ->
  ask_json lib g SYSTEM_CRITIC (json_dumps lib (PDict (map_to_list d))) w
  = Ok (PDict kvs, w1) ->
  Py.assoc "ok" kvs <> Some (PBool true) ->
  critic_with_gemini lib g ticket w
  = Ok (length (heap w), extend w1 (apply_corrections d kvs))
  /\ heap (extend w1 (apply_corrections d kvs))
     = (heap w ++ [apply_corrections d kvs])%list.
Proof.
  intros E H A N. pose proof (ask_json_frame lib _ _ _ _ _ _ A) as [Hh Ht].
  unfold critic_with_gemini. rewrite E. unfold mbind at 1. unfold Store.read at 1.
  rewrite H. unfold mbind at 1. rewrite A.
  assert (C : (do corrected <- Store.copy ticket;
               do _ <- merge_corrections corrected kvs; mret corrected)%M w1
              = Ok (length (heap w), extend w1 (apply_corrections d kvs))).
  { erewrite mbind_ok; cycle 1.
    { unfold Store.copy. erewrite mbind_ok; cycle 1.
      { unfold Store.read. rewrite Hh, H. reflexivity. }
      reflexivity. }
    erewrite mbind_ok; cycle 1.
    { apply (merge_corrections_spec _ kvs _ d). cbn [heap].
      apply list_lookup_middle. now rewrite Hh. }
    unfold mret, extend. cbn [heap calls ticks]. rewrite Hh. do 3 f_equal.
    replace (length (heap w)) with (length (heap w) + 0)%nat at 1 by lia.
    now rewrite insert_app_r. }
  split.
  - destruct (Py.assoc "ok" kvs) as [[| [|] | | | | |]|]; try exact C. now destruct N.
  - cbn [extend heap]. now rewrite Hh.
Qed.

End CriticBackend.

(** X15: when the backend answers the critic with an object that does not
    say ok: true, the result is a new dictionary: the ticket with every
    returned field written over it, except the ok flag, which is never
    stored. A returned key that the ticket did not have is added. The
    ticket itself is left as it was. *)
Theorem critic_backend_merges_reply
    (lib : PyLib) (g : GeminiClient) (ticket : loc) (w w1 : world)
    (d : gmap string pyval) (kvs : list (string * pyval)) :
  enabled g = true ->
  heap w !! ticket = Some d ->
  ask_json lib g SYSTEM_CRITIC (json_dumps lib (PDict (map_to_list d))) w
  = Ok (PDict kvs, w1) ->
  List.NoDup (map fst kvs) ->
  Py.assoc "ok" kvs <> Some (PBool true) ->
  exists t' w' d',
    critic_with_gemini lib g ticket w = Ok (t', w')
    /\ t' <> ticket
    /\ heap w' !! ticket = Some d
    /\ heap w' !! t' = Some d'
    /\ d' !! "ok" = d !! "ok"
    /\ (forall k v, k <> "ok" -> Py.assoc k kvs = Some v -> d' !! k = Some v)
    /\ (forall k, Py.assoc k kvs = None -> d' !! k = d !! k).
Proof.
  intros E H A ND N.
  destruct (critic_backend_spec lib g ticket w d kvs w1 E H A N) as [Hc Hh].
  eexists _, _, (apply_corrections d kvs). split; [exact Hc|].
  split; [apply lookup_lt_Some in H; lia|].
  split; [rewrite Hh; now apply lookup_app_l_Some|].
  split; [rewrite Hh; now apply list_lookup_middle|].
  split; [now rewrite apply_corrections_lookup|].
  split.
  - intros k v Hk Hv. rewrite apply_corrections_lookup by assumption.
    apply String.eqb_neq in Hk. now rewrite Hk, Hv.
  - intros k Hk. rewrite apply_corrections_lookup by assumption.
    rewrite Hk. now destruct (String.eqb k "ok").
Qed.

Lemma critic_backend_merges_reply_witness :
  exists t' w' d',
    critic_with_gemini Sample.lib Sample.g_high 0%nat
      (Sample.world_of (Sample.ticket_of "Bug" "Low")) = Ok (t', w')
    /\ heap w' !! t' = Some d'
    /\ d' !! "priority" = Some (PStr "High")
    /\ d' !! "category" = Some (PStr "Bug")
    /\ heap w' !! 0%nat = Some (Sample.ticket_of "Bug" "Low").
Proof.
  destruct (critic_backend_merges_reply Sample.lib Sample.g_high 0%nat
              (Sample.world_of (Sample.ticket_of "Bug" "Low"))
              (bump (Sample.world_of (Sample.ticket_of "Bug" "Low")))
              (Sample.ticket_of "Bug" "Low") [("priority", PStr "High")]
              eq_refl eq_refl eq_refl)
    as (t' & w' & d' & Hc & _ & Ht & Hd & _ & Hset & Hkeep).
  - repeat constructor. intros [].
  - discriminate.
  - exists t', w', d'. split; [exact Hc|]. split; [exact Hd|].
    split; [apply Hset; [discriminate | reflexivity]|].
    split; [|exact Ht].
    rewrite Hkeep by reflexivity. reflexivity.
Defined.

(** X16: the Spam/Praise rule is applied on the fallback path only. When
    the backend answers the critic with an object that is not ok: true and
    mentions neither category nor priority (the empty object, for one),
    category and priority come back as they were: a Spam ticket of priority
    High keeps it. *)
Theorem critic_backend_skips_sanity_rule
    (lib : PyLib) (g : GeminiClient) (ticket : loc) (w w1 : world)
    (d : gmap string pyval) (kvs : list (string * pyval)) :
  enabled g = true ->
  heap w !! ticket = Some d ->
  ask_json lib g SYSTEM_CRITIC (json_dumps lib (PDict (map_to_list d))) w
  = Ok (PDict kvs, w1) ->
  List.NoDup (map fst kvs) ->
  Py.assoc "ok" kvs <> Some (PBool true) ->
  Py.assoc "category" kvs = None ->
  Py.assoc "priority" kvs = None ->
  exists t' w' d',
    critic_with_gemini lib g ticket w = Ok (t', w')
    /\ heap w' !! t' = Some d'
    /\ Store.get d' "category" = Store.get d "category"
    /\ Store.get d' "priority" = Store.get d "priority"
    /\ violates d' = violates d.
Proof.
  intros E H A ND N Hcat Hprio.
  destruct (critic_backend_spec lib g ticket w d kvs w1 E H A N) as [Hc Hh].
  eexists _, _, (apply_corrections d kvs). split; [exact Hc|].
  split; [rewrite Hh; now apply list_lookup_middle|].
  assert (C : Store.get (apply_corrections d kvs) "category" = Store.get d "category").
  { unfold Store.get. rewrite apply_corrections_lookup by assumption. now rewrite Hcat. }
  assert (P : Store.get (apply_corrections d kvs) "priority" = Store.get d "priority").
  { unfold Store.get. rewrite apply_corrections_lookup by assumption. now rewrite Hprio. }
  split; [exact C|]. split; [exact P|]. unfold violates. now rewrite C, P.
Qed.

Lemma critic_backend_skips_sanity_rule_witness :
  exists t' w' d',
    critic_with_gemini Sample.lib Sample.g_empty 0%nat
      (Sample.world_of (Sample.ticket_of "Spam" "High")) = Ok (t', w')
    /\ heap w' !! t' = Some d'
    /\ violates d' = true.
Proof.
  destruct (critic_backend_skips_sanity_rule Sample.lib Sample.g_empty 0%nat
              (Sample.world_of (Sample.ticket_of "Spam" "High"))
              (bump (Sample.world_of (Sample.ticket_of "Spam" "High")))
              (Sample.ticket_of "Spam" "High") []
              eq_refl eq_refl eq_refl)
    as (t' & w' & d' & Hc & Hd & _ & _ & Hv).
  - constructor.
  - discriminate.
  - reflexivity.
  - reflexivity.
  - exists t', w', d'. split; [exact Hc|]. split; [exact Hd|]. rewrite Hv. reflexivity.
Defined.

(** X17: when the backend answers the critic with ok: true, the critic
    returns the ticket it was given, the same object and not a copy:
    nothing is allocated, nothing is written, and any correction sent along
    with the flag is ignored. *)
Theorem critic_backend_ok_returns_input
    (lib : PyLib) (g : GeminiClient) (ticket : loc) (w w1 : world)
    (d : gmap string pyval) (kvs : list (string * pyval)) :
  enabled g = true ->
  heap w !! ticket = Some d ->
  ask_json lib g SYSTEM_CRITIC (json_dumps lib (PDict (map_to_list d))) w
  = Ok (PDict kvs, w1) ->
  Py.assoc "ok" kvs = Some (PBool true) ->
  critic_with_gemini lib g ticket w = Ok (ticket, w1)
  /\ heap w1 = heap w
  /\ calls w1 = S (calls w).
Proof.
  intros E H A O. pose proof (ask_json_calls lib _ _ _ _ _ _ A) as (Hh & _ & Hc).
  rewrite E in Hc. split; [|now split].
  unfold critic_with_gemini. rewrite E. unfold mbind, Store.read.
  now rewrite H, A, O.
Qed.

Lemma critic_backend_ok_returns_input_witness :
  critic_with_gemini Sample.lib Sample.g_ok 0%nat
    (Sample.world_of (Sample.ticket_of "Spam" "High"))
  = Ok (0%nat, bump (Sample.world_of (Sample.ticket_of "Spam" "High"))).
Proof.
  exact (proj1 (critic_backend_ok_returns_input Sample.lib Sample.g_ok 0%nat
                  (Sample.world_of (Sample.ticket_of "Spam" "High"))
                  (bump (Sample.world_of (Sample.ticket_of "Spam" "High")))
                  (Sample.ticket_of "Spam" "High") [("ok", PBool true)]
                  eq_refl eq_refl eq_refl eq_refl)).
Defined.

(** ** The batch: one log entry per row, reviews first *)

Section Batch.

Variable lib : PyLib.

Lemma process_row_entry g st row w td entry w' :
  process_row lib g st row w = Ok ((td, entry), w') -> log_entry st entry.
Proof.
  unfold process_row, mbind, lift, mret, log_entry.
  destruct (row_to_ticket _ _ _ _ _) as [[t w1]|]; [|discriminate].
  destruct (Store.alloc _ _) as [[td0 w2]|]; [|discriminate].
  destruct (critic_with_gemini _ _ _ _) as [[td1 w3]|]; [|discriminate].
  destruct (Store.read _ _) as [[d w4]|]; [|discriminate].
  destruct (getitem d "source_id") as [sid|]; [|discriminate].
  destruct (getitem d "category") as [cat|]; [|discriminate].
  destruct (getitem d "priority") as [prio|]; [|discriminate].
  destruct (getitem d "confidence") as [conf|]; [|discriminate].
  intros [= <- <- <-]. eauto 10.
Qed.

Lemma process_rows_entries g st table w locs entries w' :
  process_rows lib g st table w = Ok ((locs, entries), w') ->
  length locs = length table
  /\ length entries = length table
  /\ Forall (log_entry st) entries.
Proof.
  revert w locs entries. induction table as [|r table IH]; intros w locs entries.
  - cbn. unfold mret. intros [= <- <- <-]. repeat split. constructor.
  - cbn [process_rows]. unfold mbind at 1.
    destruct (process_row _ _ _ _ _) as [[[td e] w1]|] eqn:R; [|discriminate].
    unfold mbind at 1.
    destruct (process_rows _ _ _ _ _) as [[[ls es] w2]|] eqn:Rs; [|discriminate].
    unfold mret. cbn [fst snd]. intros [= <- <- <-].
    apply IH in Rs as (L1 & L2 & F). apply process_row_entry in R.
    cbn [length]. repeat split; try congruence. now constructor.
Qed.

Lemma log_entry_cells st e :
  log_entry st e ->
  fold_left (fun acc kv => if existsb (String.eqb (fst kv)) acc then acc
                           else (acc ++ [fst kv])%list) e LOG_COLUMNS = LOG_COLUMNS
  /\ fold_left (fun acc kv => if existsb (String.eqb (fst kv)) acc then acc
                              else (acc ++ [fst kv])%list) e nil = LOG_COLUMNS
  /\ nth 1 (map (fun c => Py.get_default c nan_cell e) LOG_COLUMNS) nan_cell = PStr st.
Proof. intros (sid & cat & prio & conf & ->). repeat split. Qed.

Lemma record_keys_log records :
  Forall (fun e => exists s, log_entry s e) records ->
  record_keys LOG_COLUMNS records = LOG_COLUMNS.
Proof.
  induction 1 as [|e records [s He] _ IH]; [reflexivity|].
  cbn [record_keys]. destruct (log_entry_cells s e He) as (-> & _). exact IH.
Qed.

(** The table of a non-empty list of log entries. *)
Lemma log_table records :
  Forall (fun e => exists s, log_entry s e) records ->
  records <> nil ->
  columns (DataFrame_of_records records) = LOG_COLUMNS
  /\ df_len (DataFrame_of_records records) = length records.
Proof.
  intros F N. unfold DataFrame_of_records, df_len. cbn [columns rows].
  rewrite length_map. split; [|reflexivity].
  destruct F as [|e records [s He] F]; [congruence|].
  cbn [record_keys]. destruct (log_entry_cells s e He) as (_ & -> & _).
  now apply record_keys_log.
Qed.

Lemma log_source_types st records :
  Forall (log_entry st) records ->
  map (fun r => nth 1 r nan_cell)
      (map (fun r => map (fun c => Py.get_default c nan_cell r) LOG_COLUMNS) records)
  = repeat (PStr st) (length records).
Proof.
  induction 1 as [|e records He _ IH]; [reflexivity|].
  cbn [map length repeat]. rewrite IH.
  destruct (log_entry_cells st e He) as (_ & _ & ->). reflexivity.
Qed.

End Batch.

(** X18: when the batch returns, the processing log has the five columns
    source_id, source_type, category, priority, confidence and one row per
    input row, the rows of the reviews before the rows of the emails; there
    is one ticket per row, and total_items in the summary is the number of
    input rows. A batch that returns had at least one row. *)
Theorem pipeline_log_shape
    (lib : PyLib) (g : GeminiClient) (reviews emails : list (gmap string pyval))
    (expected : option DataFrame) (w w' : world)
    (tickets : list loc) (log_df metrics_df : DataFrame) :
  pipeline lib g reviews emails expected w = Ok ((tickets, log_df, metrics_df), w') ->
  columns log_df = LOG_COLUMNS
  /\ df_len log_df = (length reviews + length emails)%nat
  /\ length tickets = (length reviews + length emails)%nat
  /\ df_getitem log_df "source_type"
     = Ok (repeat (PStr "App Store Review") (length reviews)
           ++ repeat (PStr "Support Email") (length emails))%list
  /\ metric metrics_df "total_items"
     = Some (PInt (Z.of_nat (length reviews + length emails)))
  /\ (0 < length reviews + length emails)%nat.
Proof.
  unfold pipeline. unfold mbind at 1.
  destruct (process_rows lib g "App Store Review" reviews w) as [[[l1 e1] w1]|] eqn:R1;
    [|discriminate].
  unfold mbind at 1.
  destruct (process_rows lib g "Support Email" emails w1) as [[[l2 e2] w2]|] eqn:R2;
    [|discriminate].
  cbn [fst snd]. unfold mbind, lift, mret.
  destruct (compute_metrics lib _ expected) as [summary|] eqn:C; [|discriminate].
  intros [= <- <- <- <-].
  apply process_rows_entries in R1 as (L1 & M1 & F1).
  apply process_rows_entries in R2 as (L2 & M2 & F2).
  assert (F : Forall (fun e => exists s, log_entry s e) (e1 ++ e2)).
  { apply Forall_app. split; eapply Forall_impl; eauto; cbn; eauto. }
  assert (N : (e1 ++ e2)%list <> nil).
  { intros Z. rewrite Z in C. discriminate C. }
  destruct (log_table (e1 ++ e2)%list F N) as [Hcols Hlen].
  assert (Len : length (e1 ++ e2) = (length reviews + length emails)%nat).
  { rewrite length_app. congruence. }
  split; [exact Hcols|]. split; [congruence|].
  split; [rewrite length_app; congruence|].
  split.
  { unfold df_getitem. rewrite Hcols. cbn [col_index String.eqb Ascii.eqb Bool.eqb option_map].
    f_equal. pose proof Hcols as Hk. unfold DataFrame_of_records in Hk |- *.
    cbn [rows columns] in Hk |- *. rewrite Hk, map_app, map_app.
    rewrite (log_source_types "App Store Review" e1 F1).
    rewrite (log_source_types "Support Email" e2 F2). congruence. }
  split.
  { rewrite (compute_metrics_total_items lib _ _ _ C). now rewrite Hlen, Len. }
  rewrite <- Len. destruct (e1 ++ e2)%list; [congruence | cbn; lia].
Qed.

Lemma pipeline_log_shape_witness :
  exists tickets log_df metrics_df w',
    pipeline Sample.lib Sample.g_off [Sample.row_A] [Sample.row_A] None Sample.w0
    = Ok ((tickets, log_df, metrics_df), w')
    /\ df_len log_df = 2%nat
    /\ df_getitem log_df "source_type"
       = Ok [PStr "App Store Review"; PStr "Support Email"].
Proof.
  destruct (pipeline Sample.lib Sample.g_off [Sample.row_A] [Sample.row_A] None Sample.w0)
    as [[[[tickets log_df] metrics_df] w']|e] eqn:E; [|vm_compute in E; discriminate E].
  exists tickets, log_df, metrics_df, w'. split; [reflexivity|].
  destruct (pipeline_log_shape _ _ _ _ _ _ _ _ _ _ E) as (_ & Hl & _ & Hs & _).
  split; [exact Hl | exact Hs].
Defined.

(** ** Metrics: counts, the one-row table, the join *)

Section MetricsMore.

Variable lib : PyLib.

Lemma count_true_cons (b : bool) (bs : list bool) :
  count_true (b :: bs) = ((if b then 1 else 0) + count_true bs)%nat.
Proof. unfold count_true. cbn. now destruct b. Qed.

(** A value equals at most one of the six category names. *)
Lemma one_category (v : pyval) :
  list_sum (map (fun k => if Py.eq_str v k then 1%nat else 0%nat) CATEGORIES)
  = if Py.in_strs v CATEGORIES then 1%nat else 0%nat.
Proof.
  destruct v as [| | | |s| |]; try reflexivity.
  unfold CATEGORIES, Py.in_strs. cbn [map list_sum fold_right existsb Py.eq_str].
  destruct (String.eqb_spec s "Bug") as [->|]; [reflexivity|].
  destruct (String.eqb_spec s "Feature Request") as [->|]; [reflexivity|].
  destruct (String.eqb_spec s "Praise") as [->|]; [reflexivity|].
  destruct (String.eqb_spec s "Complaint") as [->|]; [reflexivity|].
  destruct (String.eqb_spec s "Spam") as [->|]; [reflexivity|].
  destruct (String.eqb_spec s "Other") as [->|]; reflexivity.
Qed.

Lemma category_sum_cons (v : pyval) (col : list pyval) :
  list_sum (map (fun k => count_true (map (fun x => Py.eq_str x k) (v :: col))) CATEGORIES)
  = ((if Py.in_strs v CATEGORIES then 1 else 0)
     + list_sum (map (fun k => count_true (map (fun x => Py.eq_str x k) col)) CATEGORIES))%nat.
Proof.
  rewrite <- one_category. unfold CATEGORIES. cbn [map list_sum fold_right].
  rewrite !count_true_cons. lia.
Qed.

Lemma category_sum_bound (col : list pyval) :
  (list_sum (map (fun k => count_true (map (fun x => Py.eq_str x k) col)) CATEGORIES)
   <= length col)%nat
  /\ (list_sum (map (fun k => count_true (map (fun x => Py.eq_str x k) col)) CATEGORIES)
      = length col
      <-> Forall (fun v => Py.in_strs v CATEGORIES = true) col).
Proof.
  induction col as [|v col [IH1 IH2]].
  - split; [cbn; lia|]. split; [constructor | reflexivity].
  - rewrite category_sum_cons. cbn [length].
    destruct (Py.in_strs v CATEGORIES) eqn:E.
    + split; [lia|]. split.
      * intros H. constructor; [exact E|]. apply IH2. lia.
      * intros H. inversion H; subst. apply IH2 in H3. lia.
    + split; [lia|]. split; [lia|].
      intros H. inversion H; subst. congruence.
Qed.

Lemma summary_counts log expected summary col :
  df_getitem log "category" = Ok col ->
  compute_metrics lib log expected = Ok summary ->
  Forall (fun k => metric summary (metric_key k) = Some (count_of col k)) CATEGORIES.
Proof.
  intros Hc H. rewrite (compute_metrics_unfold _ _ _ _ Hc) in H.
  destruct (mean_confidence lib log) as [avg|]; [|discriminate].
  cbn [rbind] in H.
  destruct expected as [e|]; [|injection H as <-; repeat constructor].
  destruct (has_column "category" e); [|injection H as <-; repeat constructor].
  destruct (df_merge lib log e _ _) as [merged|]; [|discriminate].
  cbn [rbind] in H.
  destruct (has_column "category_expected" merged);
    [|injection H as <-; repeat constructor].
  destruct (category_accuracy lib merged) as [acc|]; [|discriminate].
  injection H as <-; repeat constructor.
Qed.

Lemma keys_fold_In (m : list (string * pyval)) (seen : list string) (c : string) :
  In c (fold_left (fun acc kv => if existsb (String.eqb (fst kv)) acc then acc
                                 else (acc ++ [fst kv])%list) m seen)
  <-> In c seen \/ In c (map fst m).
Proof.
  revert seen. induction m as [|[k v] m IH]; intros seen; cbn [fold_left map fst].
  - cbn. tauto.
  - rewrite IH. destruct (existsb (String.eqb k) seen) eqn:E.
    + apply existsb_exists in E as (x & Hx & Ex). apply String.eqb_eq in Ex. subst x.
      cbn. split; [tauto|]. intros [H|[<-|H]]; auto.
    + rewrite in_app_iff. cbn. tauto.
Qed.

Lemma assoc_None_iff k (m : list (string * pyval)) :
  Py.assoc k m = None <-> ~ In k (map fst m).
Proof.
  induction m as [|[k' v] m IH]; cbn; [tauto|].
  destruct (String.eqb_spec k k') as [->|N]; [split; [discriminate | tauto]|].
  rewrite IH. split; [intros H [E|I]; [congruence | tauto] | tauto].
Qed.

Lemma col_index_None c cols : col_index c cols = None <-> ~ In c cols.
Proof.
  induction cols as [|c' cols IH]; cbn; [tauto|].
  destruct (String.eqb_spec c c') as [->|N]; [split; [discriminate | tauto]|].
  destruct (col_index c cols) as [n|] eqn:E; cbn.
  - split; [discriminate|]. intros H. exfalso. apply H. right.
    apply col_index_nth in E. now apply nth_error_In in E.
  - split; [|reflexivity]. intros _ [E'|I]; [congruence|]. now apply IH.
Qed.

(** A dictionary read back from its one-row table. *)
Lemma metric_of_records (m : list (string * pyval)) (k : string) :
  metric (DataFrame_of_records [m]) k = Py.assoc k m.
Proof.
  unfold metric, DataFrame_of_records. cbn [columns rows record_keys].
  set (cols := fold_left _ m nil).
  destruct (col_index k cols) as [i|] eqn:E.
  - cbn [map]. apply col_index_nth in E. rewrite nth_error_map, E. cbn [option_map].
    unfold Py.get_default. destruct (Py.assoc k m) eqn:A; [reflexivity|].
    exfalso. apply assoc_None_iff in A. apply A.
    apply nth_error_In in E. apply keys_fold_In in E as [[]|E]. exact E.
  - apply col_index_None in E. symmetry. apply assoc_None_iff.
    intros I. apply E. apply keys_fold_In. now right.
Qed.

Lemma assoc_dict_set (k k' : string) (v : pyval) (d : list (string * pyval)) :
  Py.assoc k' (dict_set k v d) = if String.eqb k' k then Some v else Py.assoc k' d.
Proof.
  induction d as [|[k0 v0] d IH]; cbn [dict_set Py.assoc].
  - reflexivity.
  - destruct (String.eqb_spec k k0) as [->|N]; cbn [Py.assoc].
    + now destruct (String.eqb k' k0).
    + destruct (String.eqb_spec k' k0) as [->|N'].
      * destruct (String.eqb_spec k0 k); [congruence | reflexivity].
      * exact IH.
Qed.

End MetricsMore.

(** X19: whenever the summary is produced, each of the six category counts
    is the number of log rows with that category, and their sum is at most
    total_items; it equals total_items exactly when every logged category
    is one of the six names. A category the backend invented is counted
    nowhere. *)
Theorem category_counts_bounded
    (lib : PyLib) (log : DataFrame) (expected : option DataFrame) (summary : DataFrame) :
  compute_metrics lib log expected = Ok summary ->
  exists col,
    df_getitem log "category" = Ok col
    /\ length col = df_len log
    /\ Forall (fun k =>
                 metric summary (metric_key k)
                 = Some (PInt (Z.of_nat (count_true (map (fun v => Py.eq_str v k) col)))))
              CATEGORIES
    /\ (list_sum (map (fun k => count_true (map (fun v => Py.eq_str v k) col)) CATEGORIES)
        <= df_len log)%nat
    /\ (list_sum (map (fun k => count_true (map (fun v => Py.eq_str v k) col)) CATEGORIES)
        = df_len log
        <-> Forall (fun v => Py.in_strs v CATEGORIES = true) col).
Proof.
  intros H. destruct (df_getitem log "category") as [col|e] eqn:Hc.
  - exists col. pose proof (df_getitem_length _ _ _ Hc) as L.
    destruct (category_sum_bound col) as [B1 B2]. rewrite L in B1, B2.
    split; [reflexivity|]. split; [exact L|].
    split; [exact (summary_counts lib log expected summary col Hc H)|]. now split.
  - unfold compute_metrics in H. cbn [CATEGORIES count_categories] in H.
    now rewrite Hc in H.
Qed.

Lemma category_counts_bounded_witness :
  exists summary,
    compute_metrics Sample.lib Sample.log1 None = Ok summary
    /\ metric summary "bug" = Some (PInt 1)
    /\ metric summary "spam" = Some (PInt 0).
Proof.
  destruct (compute_metrics Sample.lib Sample.log1 None) as [summary|e] eqn:E;
    [|vm_compute in E; discriminate E].
  exists summary. split; [reflexivity|].
  destruct (category_counts_bounded Sample.lib Sample.log1 None summary E)
    as (col & Hc & _ & F & _).
  vm_compute in Hc. injection Hc as <-.
  inversion F as [|? ? Hbug F1]; subst.
  inversion F1 as [|? ? _ F2]; subst. inversion F2 as [|? ? _ F3]; subst.
  inversion F3 as [|? ? _ F4]; subst. inversion F4 as [|? ? Hspam _]; subst.
  split; [exact Hbug | exact Hspam].
Defined.

(** X20: the summary is a table of one row. Its columns are total_items,
    the six counts bug, feature_request, praise, complaint, spam, other and
    avg_confidence, in this order, followed by category_accuracy when it
    is computed, and by nothing else. avg_confidence is the mean of the
    confidence column, or 0.0 for a log without rows, in which case the
    mean is not computed at all. *)
Theorem compute_metrics_summary_shape
    (lib : PyLib) (log : DataFrame) (expected : option DataFrame) (summary : DataFrame) :
  compute_metrics lib log expected = Ok summary ->
  df_len summary = 1%nat
  /\ (columns summary
      = [ "total_items"; "bug"; "feature_request"; "praise"; "complaint"; "spam";
          "other"; "avg_confidence" ]
      \/ columns summary
         = [ "total_items"; "bug"; "feature_request"; "praise"; "complaint"; "spam";
             "other"; "avg_confidence"; "category_accuracy" ])
  /\ (exists avg,
        mean_confidence lib log = Ok avg
        /\ metric summary "avg_confidence" = Some (PFloat avg)
        /\ (df_len log = 0%nat -> avg = 0%float))
  /\ (has_column "category_accuracy" summary = true ->
      exists e, expected = Some e /\ has_column "category" e = true).
Proof.
  intros H. destruct (df_getitem log "category") as [col|e] eqn:Hc.
  2:{ unfold compute_metrics in H. cbn [CATEGORIES count_categories] in H.
      now rewrite Hc in H. }
  rewrite (compute_metrics_unfold _ _ _ _ Hc) in H.
  destruct (mean_confidence lib log) as [avg|] eqn:Ha; [|discriminate].
  assert (Z : df_len log = 0%nat -> avg = 0%float).
  { intros L. unfold mean_confidence in Ha. rewrite L in Ha. cbn in Ha. congruence. }
  cbn [rbind] in H.
  destruct expected as [e|];
    [|injection H as <-; repeat split; eauto; discriminate].
  destruct (has_column "category" e) eqn:He;
    [|injection H as <-; repeat split; eauto; discriminate].
  destruct (df_merge lib log e _ _) as [merged|]; [|discriminate].
  cbn [rbind] in H.
  destruct (has_column "category_expected" merged);
    [|injection H as <-; repeat split; eauto; discriminate].
  destruct (category_accuracy lib merged) as [acc|]; [|discriminate].
  injection H as <-; repeat split; eauto.
Qed.

Lemma compute_metrics_summary_shape_witness :
  exists summary,
    compute_metrics Sample.lib Sample.log1 (Some Sample.expected_same) = Ok summary
    /\ df_len summary = 1%nat
    /\ metric summary "avg_confidence" = Some (PFloat 0.9%float).
Proof.
  destruct (compute_metrics Sample.lib Sample.log1 (Some Sample.expected_same))
    as [summary|e] eqn:E; [|vm_compute in E; discriminate E].
  exists summary. split; [reflexivity|].
  destruct (compute_metrics_summary_shape _ _ _ _ E) as (L & _ & (avg & Ha & Hm & _) & _).
  split; [exact L|]. rewrite Hm. vm_compute in Ha. now injection Ha as <-.
Defined.



(** ** Classify with the backend *)

(** X22: a backend reply that is an object with a category is accepted as
    it is: the category is not checked against the six names and the
    fallback rules are not consulted. A missing confidence is 0.6 and a
    missing rationale is the empty string. A confidence that cannot be
    converted to a float makes the step raise; it does not fall back. *)
Theorem classify_accepts_backend_reply
    (lib : PyLib) (g : GeminiClient) (text rating : pyval)
    (w w1 : world) (kvs : list (string * pyval)) (cat : pyval) :
  enabled g = true ->
  ask_json lib g SYSTEM_CLASSIFIER
    (json_dumps lib (PDict [("text", text); ("rating", rating)])) w
  = Ok (PDict kvs, w1) ->
  Py.assoc "category" kvs = Some cat ->
  (Py.assoc "confidence" kvs = None ->
   classify_with_gemini lib g text rating w
   = Ok ((cat, 0.6%float, Py.get_default "brief_rationale" (PStr "") kvs), w1))
  /\ (forall f, Py.assoc "confidence" kvs = Some (PFloat f) ->
        classify_with_gemini lib g text rating w
        = Ok ((cat, f, Py.get_default "brief_rationale" (PStr "") kvs), w1))
  /\ (forall v e, Py.assoc "confidence" kvs = Some v ->
        to_float lib v = Raise e ->
        classify_with_gemini lib g text rating w = Raise e)
  /\ (Py.assoc "confidence" kvs = Some PNone ->
      classify_with_gemini lib g text rating w = Raise TypeError).
Proof.
  intros E A C.
  assert (U : classify_with_gemini lib g text rating w
              = match to_float lib (Py.get_default "confidence" (PFloat 0.6%float) kvs) with
                | Ok conf => Ok ((cat, conf, Py.get_default "brief_rationale" (PStr "") kvs), w1)
                | Raise e => Raise e
                end).
  { unfold classify_with_gemini. rewrite E. unfold mbind at 1. rewrite A.
    unfold Py.has_key. rewrite C. unfold mbind, lift, mret.
    unfold Py.get_default at 2. rewrite C.
    now destruct (to_float lib _). }
  unfold Py.get_default at 1 in U.
  split; [intros N; now rewrite U, N|].
  split; [intros f N; now rewrite U, N|].
  split; [intros v e N R; now rewrite U, N, R|].
  intros N. now rewrite U, N.
Qed.

Lemma classify_accepts_backend_reply_witness :
  classify_with_gemini Sample2.lib Sample2.g_question (PStr "visit http://spam") PNone
    Sample.w0
  = Ok ((PStr "Question", 0.6%float, PStr ""), bump Sample.w0).
Proof.
  exact (proj1 (classify_accepts_backend_reply Sample2.lib Sample2.g_question
                  (PStr "visit http://spam") PNone Sample.w0 (bump Sample.w0)
                  [("category", PStr "Question")] (PStr "Question")
                  eq_refl eq_refl eq_refl) eq_refl).
Defined.

(** ** Without credential: the whole batch *)

(** X23: without credential a table in which every row has a string (or
    no) text and a rating the fallback classifier accepts is processed to
    the end: one log entry per row, no backend call, one reading of the
    clock per row, and two dictionaries stored per row, the ticket and the
    copy of the critic. *)
Theorem fallback_batch_always_returns
    (lib : PyLib) (g : GeminiClient) (st : string) (table : list (gmap string pyval))
    (w : world) :
  enabled g = false ->
  Forall (fun row =>
            exists text c,
              as_text (Py.or_else (Py.or_else (row_get row "review_text" PNone)
                                              (row_get row "body" PNone)) (PStr ""))
              = Ok text
              /\ fallback_classify text (row_get row "rating" PNone) = Ok c) table ->
  exists locs entries w',
    process_rows lib g st table w = Ok ((locs, entries), w')
    /\ length entries = length table
    /\ calls w' = calls w
    /\ ticks w' = (ticks w + length table)%nat
    /\ length (heap w') = (length (heap w) + 2 * length table)%nat.
Proof.
  intros E F. revert w. induction F as [|row table (text & c & Ht & Hc) _ IH]; intros w.
  - eexists _, _, _. split; [reflexivity|]. cbn. repeat split; lia.
  - destruct (row_to_ticket_fallback lib g row st w text c E Ht Hc)
      as (prio & hint & details & H & _).
    pose proof (process_row_fallback lib g st row w _ _ E H) as P.
    cbn [process_rows]. erewrite mbind_ok by exact P.
    match goal with
    | |- context [mbind (process_rows lib g st table) _ ?w1] =>
        destruct (IH w1) as (locs & entries & w' & R & L & C & T & Hh)
    end.
    erewrite mbind_ok by exact R. unfold mret. cbn [fst snd].
    eexists _, _, _. split; [reflexivity|].
    cbn [length extend heap calls ticks] in *. rewrite !length_app in Hh. cbn [length] in Hh.
    repeat split; lia.
Qed.

Lemma fallback_batch_always_returns_witness :
  exists locs entries w',
    process_rows Sample.lib Sample.g_off "Support Email" [Sample2.row_spam; Sample.row_A]
      Sample.w0 = Ok ((locs, entries), w')
    /\ length entries = 2%nat
    /\ length (heap w') = 4%nat.
Proof.
  destruct (fallback_batch_always_returns Sample.lib Sample.g_off "Support Email"
              [Sample2.row_spam; Sample.row_A] Sample.w0 eq_refl)
    as (locs & entries & w' & R & L & _ & _ & Hh).
  - repeat constructor.
    + exists "visit http://spam", ("Spam", 0.95%float, "spam trigger"). split; reflexivity.
    + exists Sample.scenario_A_text, ("Bug", 0.9%float, "bug trigger"). split; reflexivity.
  - exists locs, entries, w'. split; [exact R|]. split; [exact L | exact Hh].
Defined.

(** ** The sanity rule of the critic and the tickets of the pipeline *)

(** X24: no ticket built from a row breaks the Spam/Praise priority
    constraint, with or without the backend, since the branch logic has
    given Spam and Praise the priority Low already. So the fallback rule of
    the critic never changes a ticket of the pipeline: without credential
    the copy it stores has the items of the ticket, and the log entry
    carries the ticket's own category, priority and confidence. *)
Theorem pipeline_tickets_never_violate
    (lib : PyLib) (g : GeminiClient) (row : gmap string pyval) (st : string)
    (w w1 : world) (t : Ticket) :
  row_to_ticket lib g row st w = Ok (t, w1) ->
  violates (Ticket_dict t) = false
  /\ critic_rule (Ticket_dict t) = Ticket_dict t
  /\ (enabled g = false ->
      exists td w',
        process_row lib g st row w
        = Ok ((td, [("source_id", PStr (source_id t)); ("source_type", PStr st);
                    ("category", category t); ("priority", PStr (priority t));
                    ("confidence", PFloat (confidence t))]), w')
        /\ heap w' !! td = Some (Ticket_dict t)).
Proof.
  intros H.
  assert (V : violates (Ticket_dict t) = false).
  { unfold violates, Store.get.
    destruct (Ticket_dict_lookup t) as (-> & -> & _). cbn [default from_option id].
    destruct (Py.in_strs (category t) ["Spam"; "Praise"]) eqn:C; [|reflexivity].
    rewrite (row_to_ticket_spam_praise_low lib g row st w t w1 H C). reflexivity. }
  split; [exact V|]. split; [unfold critic_rule; now rewrite V|].
  intros E. pose proof (process_row_fallback lib g st row w t w1 E H) as P.
  rewrite V in P. eexists _, _. split; [exact P|].
  cbn [extend heap]. unfold critic_rule. rewrite V.
  apply list_lookup_middle. rewrite length_app. cbn. lia.
Qed.

Lemma pipeline_tickets_never_violate_witness :
  exists t w1,
    row_to_ticket Sample2.lib Sample2.g_question Sample2.row_spam "Support Email" Sample.w0
    = Ok (t, w1)
    /\ violates (Ticket_dict t) = false.
Proof.
  destruct (row_to_ticket Sample2.lib Sample2.g_question Sample2.row_spam "Support Email"
              Sample.w0) as [[t w1]|e] eqn:E; [|vm_compute in E; discriminate E].
  exists t, w1. split; [reflexivity|].
  exact (proj1 (pipeline_tickets_never_violate _ _ _ _ _ _ _ E)).
Defined.

(** ** The order of the waterfall *)

(** X25: a text with a Bug trigger and no Spam trigger is classified Bug,
    whatever Feature, Praise or Complaint triggers it holds and whatever
    the rating is; the confidence is 0.9 when the text holds "crash" or
    "data loss" and 0.75 otherwise. Triggers are looked for in the
    lowercased text. *)
Theorem fallback_classify_bug_before_sentiment
    (text : string) (rating : pyval) (b : string) :
  (forall n, In n SPAM_TRIGGERS -> ~ Str.occurs n (Str.lower text)) ->
  In b BUG_TRIGGERS ->
  Str.occurs b (Str.lower text) ->
  exists conf,
    fallback_classify text rating = Ok ("Bug", conf, "bug trigger")
    /\ ((Str.occurs "crash" (Str.lower text) \/ Str.occurs "data loss" (Str.lower text)) ->
        conf = 0.9%float)
    /\ (~ Str.occurs "crash" (Str.lower text) ->
        ~ Str.occurs "data loss" (Str.lower text) ->
        conf = 0.75%float).
Proof.
  intros NS Hb Ho.
  assert (S : _contains_any text SPAM_TRIGGERS = false).
  { destruct (_contains_any text SPAM_TRIGGERS) eqn:E; [|reflexivity].
    apply _contains_any_spec in E as (n & Hn & Hocc). now destruct (NS n Hn). }
  assert (B : _contains_any text BUG_TRIGGERS = true).
  { apply _contains_any_spec. eauto. }
  unfold fallback_classify. rewrite S, B.
  destruct (Str.isin "crash" (Str.lower text)) eqn:C1;
    [|destruct (Str.isin "data loss" (Str.lower text)) eqn:C2].
  - eexists. split; [reflexivity|]. split; [reflexivity|].
    intros N. apply StrFacts.isin_spec in C1. contradiction.
  - eexists. split; [reflexivity|]. split; [reflexivity|].
    intros _ N. apply StrFacts.isin_spec in C2. contradiction.
  - eexists. split; [reflexivity|]. split; [|reflexivity].
    intros [H|H]; apply StrFacts.isin_spec in H; congruence.
Qed.

Lemma fallback_classify_bug_before_sentiment_witness :
  fallback_classify "Love it, but sync issue is annoying" (PInt 5)
  = Ok ("Bug", 0.75%float, "bug trigger").
Proof.
  destruct (fallback_classify_bug_before_sentiment "Love it, but sync issue is annoying"
              (PInt 5) "sync issue") as (conf & -> & _ & H).
  - intros n Hn Ho. apply StrFacts.isin_spec in Ho.
    cbn in Hn. repeat (destruct Hn as [<-|Hn]; [vm_compute in Ho; discriminate Ho|]).
    exact Hn.
  - cbn. tauto.
  - exists "love it, but ", " is annoying". reflexivity.
  - rewrite H; [reflexivity| |]; intros Ho; apply StrFacts.isin_spec in Ho;
      vm_compute in Ho; discriminate Ho.
Defined.

(** ** A reference table with numbers as source ids *)

Section NumericIds.

Variable lib : PyLib.

(** Without credential the source id of a log entry is the one of the
    ticket, a string. *)
Lemma process_row_fallback_entry g st row w td entry w' :
  enabled g = false ->
  process_row lib g st row w = Ok ((td, entry), w') ->
  log_entry st entry /\ exists s, Py.assoc "source_id" entry = Some (PStr s).
Proof.
  intros E R. split; [eapply process_row_entry; eauto|].
  destruct (row_to_ticket lib g row st w) as [[t w1]|x] eqn:Ht.
  - rewrite (process_row_fallback lib g st row w t w1 E Ht) in R.
    injection R as _ <- _. now exists (source_id t).
  - unfold process_row in R. unfold mbind at 1 in R. now rewrite Ht in R.
Qed.

Lemma process_rows_fallback_entries g st table w locs entries w' :
  enabled g = false ->
  process_rows lib g st table w = Ok ((locs, entries), w') ->
  Forall (fun e => (exists st', log_entry st' e)
                   /\ exists s, Py.assoc "source_id" e = Some (PStr s)) entries.
Proof.
  intros E. revert w locs entries. induction table as [|r table IH]; intros w locs entries.
  - cbn. unfold mret. intros [= <- <- <-]. constructor.
  - cbn [process_rows]. unfold mbind at 1.
    destruct (process_row _ _ _ _ _) as [[[td e] w1]|] eqn:R; [|discriminate].
    unfold mbind at 1.
    destruct (process_rows _ _ _ _ _) as [[[ls es] w2]|] eqn:Rs; [|discriminate].
    unfold mret. cbn [fst snd]. intros [= <- <- <-].
    constructor; [|eapply IH; eauto].
    destruct (process_row_fallback_entry g st r w td e w1 E R) as [L S]. eauto.
Qed.

(** The key column of a log whose entries have strings as source ids. *)
Lemma log_ids_str records :
  Forall (fun e => (exists st', log_entry st' e)
                   /\ exists s, Py.assoc "source_id" e = Some (PStr s)) records ->
  Forall (fun r => exists s, nth 0 r nan_cell = PStr s)
         (map (fun r => map (fun c => Py.get_default c nan_cell r) LOG_COLUMNS) records).
Proof.
  induction 1 as [|e records [_ [s Hs]] _ IH]; cbn [map]; constructor; [|exact IH].
  unfold LOG_COLUMNS at 1. cbn [map nth]. unfold Py.get_default. rewrite Hs. eauto.
Qed.

Lemma compute_metrics_strings_numbers log e col i j :
  df_getitem log "category" = Ok col ->
  has_column "category" e = true ->
  col_index "source_id" (columns log) = Some i ->
  col_index "source_id" (columns e) = Some j ->
  rows log <> nil ->
  rows e <> nil ->
  Forall (fun r => exists s, nth i r nan_cell = PStr s) (rows log) ->
  Forall (fun r => (exists z, nth j r nan_cell = PInt z /\ (- 2 ^ 63 <= z < 2 ^ 63)%Z)
                   \/ (exists f, nth j r nan_cell = PFloat f)) (rows e) ->
  compute_metrics lib log (Some e)
  = match mean_confidence lib log with
    | Ok _ => Raise ValueError
    | Raise x => Raise x
    end.
Proof.
  intros Hc He Hi Hj Nl Ne Sl Se.
  rewrite (compute_metrics_unfold lib log (Some e) col Hc).
  destruct (mean_confidence lib log) as [avg|x]; [|reflexivity].
  cbn [rbind]. rewrite He.
  now rewrite (df_merge_strings_numbers lib log e i j Hi Hj Nl Ne Sl Se).
Qed.

End NumericIds.

(** X26: a reference table whose source ids are numbers cannot be joined
    to a log whose source ids are strings: the join is refused with
    ValueError, which leaves [compute_metrics], and no summary is made.
    Without credential the source ids of the log are strings, being the
    [str(...)] of the id cell, so that with such a reference the batch
    never returns its metrics. *)
Theorem numeric_reference_ids_refused
    (lib : PyLib) (e : DataFrame) (j : nat) :
  has_column "category" e = true ->
  col_index "source_id" (columns e) = Some j ->
  rows e <> nil ->
  Forall (fun r => (exists z, nth j r nan_cell = PInt z /\ (- 2 ^ 63 <= z < 2 ^ 63)%Z)
                   \/ (exists f, nth j r nan_cell = PFloat f)) (rows e) ->
  (forall log col avg i,
      df_getitem log "category" = Ok col ->
      mean_confidence lib log = Ok avg ->
      col_index "source_id" (columns log) = Some i ->
      rows log <> nil ->
      Forall (fun r => exists s, nth i r nan_cell = PStr s) (rows log) ->
      df_merge lib log e "source_id" "_expected" = Raise ValueError
      /\ compute_metrics lib log (Some e) = Raise ValueError)
  /\ (forall g reviews emails w res,
        enabled g = false ->
        pipeline lib g reviews emails (Some e) w <> Ok res).
Proof.
  intros He Hj Ne Se. split.
  - intros log col avg i Hc Ha Hi Nl Sl.
    split; [apply (df_merge_strings_numbers lib log e i j); assumption|].
    rewrite (compute_metrics_strings_numbers lib log e col i j) by assumption.
    now rewrite Ha.
  - intros g reviews emails w res E. unfold pipeline. unfold mbind at 1.
    destruct (process_rows lib g "App Store Review" reviews w) as [[[l1 e1] w1]|] eqn:R1;
      [|discriminate].
    unfold mbind at 1.
    destruct (process_rows lib g "Support Email" emails w1) as [[[l2 e2] w2]|] eqn:R2;
      [|discriminate].
    cbn [fst snd]. unfold mbind, lift, mret.
    apply (process_rows_fallback_entries lib) in R1; [|exact E].
    apply (process_rows_fallback_entries lib) in R2; [|exact E].
    assert (F : Forall (fun e => (exists st', log_entry st' e)
                                 /\ exists s, Py.assoc "source_id" e = Some (PStr s))
                       (e1 ++ e2)).
    { apply Forall_app. now split. }
    destruct (e1 ++ e2)%list as [|x xs] eqn:Ex; [discriminate|].
    assert (N : x :: xs <> nil) by discriminate.
    assert (F' : Forall (fun e => exists s, log_entry s e) (x :: xs)).
    { eapply List.Forall_impl; [|exact F]. cbn. tauto. }
    destruct (log_table (x :: xs) F' N) as [Hcols _].
    assert (Hc : exists col, df_getitem (DataFrame_of_records (x :: xs)) "category" = Ok col).
    { unfold df_getitem. rewrite Hcols. cbn. eauto. }
    destruct Hc as [col Hc].
    rewrite (compute_metrics_strings_numbers lib _ e col 0%nat j Hc He); try assumption.
    + now destruct (mean_confidence lib _).
    + now rewrite Hcols.
    + discriminate.
    + pose proof Hcols as Hk. unfold DataFrame_of_records in Hk |- *.
      cbn [rows columns] in Hk |- *. rewrite Hk. now apply log_ids_str.
Qed.

Lemma numeric_reference_ids_refused_witness :
  compute_metrics Sample.lib Sample.log1 (Some Sample.expected_numeric) = Raise ValueError.
Proof.
  destruct (numeric_reference_ids_refused Sample.lib Sample.expected_numeric 0%nat
              eq_refl eq_refl ltac:(discriminate)
              ltac:(apply List.Forall_cons;
                    [left; exists 1%Z; split; [reflexivity | lia] | apply List.Forall_nil]))
    as [H _].
  exact (proj2 (H Sample.log1 [PStr "Bug"] 0.9%float 0%nat eq_refl eq_refl eq_refl
                  ltac:(discriminate) ltac:(repeat constructor; eauto))).
Defined.

(** ** A text cell that is not a string *)

(** X27: the text of a row is taken from the cell as it is, and a cell
    that is not a string (a number, or the NaN of an empty review_text
    cell, which is truthy and hides the body) gives no ticket. Without
    credential the row raises AttributeError, at [text.lower()] of the
    fallback classifier; so it does with a credential when the backend
    does not classify. When the backend classifies, it has been called
    with the value as text, and the row raises TypeError at [text[:72]].
    Only a list can be sliced: a ticket of a text that is not a string is
    the ticket of a list, built with the backend. *)
Theorem row_to_ticket_text_not_a_string
    (lib : PyLib) (g : GeminiClient) (row : gmap string pyval) (st : string) (w : world)
    (text : pyval) :
  Py.or_else (Py.or_else (row_get row "review_text" PNone) (row_get row "body" PNone))
             (PStr "") = text ->
  (forall s, text <> PStr s) ->
  (enabled g = false -> row_to_ticket lib g row st w = Raise AttributeError)
  /\ (forall out w1,
        enabled g = true ->
        ask_json lib g SYSTEM_CLASSIFIER
          (json_dumps lib (PDict [("text", text); ("rating", row_get row "rating" PNone)])) w
        = Ok (out, w1) ->
        ((forall kvs, out = PDict kvs -> Py.has_key "category" kvs = false) ->
         row_to_ticket lib g row st w = Raise AttributeError)
        /\ (forall kvs conf,
              out = PDict kvs ->
              Py.has_key "category" kvs = true ->
              to_float lib (Py.get_default "confidence" (PFloat 0.6%float) kvs) = Ok conf ->
              (forall l, text <> PList l) ->
              row_to_ticket lib g row st w = Raise TypeError))
  /\ (forall t w',
        row_to_ticket lib g row st w = Ok (t, w') ->
        enabled g = true /\ exists l, text = PList l).
Proof.
  intros Ht S.
  assert (A : as_text text = Raise AttributeError).
  { destruct text; try reflexivity. now destruct (S s). }
  assert (F : forall w0, classify_fallback text (row_get row "rating" PNone) w0
                         = Raise AttributeError).
  { intros w0. unfold classify_fallback, lift. now rewrite A. }
  assert (D : enabled g = false -> row_to_ticket lib g row st w = Raise AttributeError).
  { intros E. unfold row_to_ticket. cbv zeta. rewrite Ht. unfold mbind at 1.
    now rewrite classify_disabled, F by assumption. }
  split; [exact D|]. split.
  - intros out w1 E Q. split.
    + intros N. unfold row_to_ticket. cbv zeta. rewrite Ht. unfold mbind at 1.
      unfold classify_with_gemini. rewrite E. unfold mbind at 1. rewrite Q.
      destruct out; try now rewrite F.
      rewrite (N kvs eq_refl). now rewrite F.
    + intros kvs conf -> K C L. unfold row_to_ticket. cbv zeta. rewrite Ht.
      unfold mbind at 1. unfold classify_with_gemini. rewrite E.
      unfold mbind at 1. rewrite Q, K. unfold mbind at 1, lift at 1. rewrite C.
      unfold mret at 1. unfold mbind at 1, lift at 1.
      destruct text; try reflexivity; [now destruct (S s) | now destruct (L l)].
  - intros t w' H. split.
    + destruct (enabled g) eqn:E; [reflexivity|]. rewrite (D eq_refl) in H. discriminate H.
    + apply row_to_ticket_inv in H as (t72 & _ & _ & _ & _ & _ & _ & T & _).
      rewrite Ht in T. destruct text; try discriminate T; [now destruct (S s) | eauto].
Qed.

Lemma row_to_ticket_text_not_a_string_witness :
  row_to_ticket Sample.lib Sample.g_off Sample2.row_nan "App Store Review" Sample.w0
  = Raise AttributeError
  /\ row_to_ticket Sample2.lib Sample2.g_question Sample2.row_nan "App Store Review" Sample.w0
     = Raise TypeError.
Proof.
  split.
  - exact (proj1 (row_to_ticket_text_not_a_string Sample.lib Sample.g_off Sample2.row_nan
                    "App Store Review" Sample.w0 (PFloat PrimFloat.nan) eq_refl
                    ltac:(discriminate))
                 eq_refl).
  - destruct (row_to_ticket_text_not_a_string Sample2.lib Sample2.g_question Sample2.row_nan
                "App Store Review" Sample.w0 (PFloat PrimFloat.nan) eq_refl
                ltac:(discriminate))
      as (_ & H & _).
    destruct (H (PDict [("category", PStr "Question")]) (bump Sample.w0) eq_refl eq_refl)
      as [_ T].
    apply (T [("category", PStr "Question")] 0.6%float eq_refl eq_refl eq_refl).
    discriminate.
Defined.
